(** * NEST / NANDA adapter: message router, directory client, tool
      orchestrator and response formatter

    A shallow embedding of
      - [nanda_core/core/agent_bridge.py]  (class [SimpleAgentBridge]),
      - [nanda_core/core/mcp_registry.py]  (class [MCPRegistry]),
      - [nanda_core/core/mcp_client.py]    (class [MCPClient]),
    and the properties of the specification that are settled on it.

    Conventions of the embedding.
      - A Python [str] is a [string]; a character is a code point below
        256.  The constant texts of the program that carry symbols beyond
        that range are kept as their UTF-8 bytes; no operation of the
        program inspects them.
      - Values decoded from JSON are terms of [json]; Python's [None] is
        [JNull]; JSON numbers are integers.
      - A call that may raise returns a [result]; calls to the outside
        world (callback, telemetry, HTTP, agent transport, tool session,
        language-model service) are answered by a [World] and recorded, in
        order, in a trace of [event]s.  Logging is not modelled.
      - Library functions whose behaviour is not part of the repository
        ([json.loads], [str.title], [repr] of containers) are parameters
        of the development. *)

From Stdlib Require Import String Ascii List ZArith Lia Bool DecimalString.
Import ListNotations.
Open Scope string_scope.
Set Warnings "-register-all".

(* ================================================================== *)
(** * Python strings *)
(* ================================================================== *)

Module PyStr.

Definition nl_char : ascii := "010"%char.
Definition nl : string := String nl_char "".

(** [str.isspace] on code points below 256. *)
Definition isspace (c : ascii) : bool :=
  let n := nat_of_ascii c in
  (((9 <=? n) && (n <=? 13)) || ((28 <=? n) && (n <=? 32))
   || (n =? 133) || (n =? 160))%nat.

Fixpoint lstrip (s : string) : string :=
  match s with
  | "" => ""
  | String c s' => if isspace c then lstrip s' else s
  end.

Fixpoint rstrip (s : string) : string :=
  match s with
  | "" => ""
  | String c s' =>
      match rstrip s' with
      | "" => if isspace c then "" else String c ""
      | r => String c r
      end
  end.

(** [s.strip()] *)
Definition strip (s : string) : string := rstrip (lstrip s).

(** [s.startswith(p)] *)
Definition startswith (p s : string) : bool := String.prefix p s.

(** [sub in s] *)
Fixpoint contains (sub s : string) : bool :=
  if String.prefix sub s then true
  else match s with
       | "" => false
       | String _ s' => contains sub s'
       end.

(** [s.endswith(suf)] *)
Fixpoint endswith (suf s : string) : bool :=
  if s =? suf then true
  else match s with
       | "" => false
       | String _ s' => endswith suf s'
       end.

(** [s[k:]] *)
Fixpoint slice_from (k : nat) (s : string) : string :=
  match k, s with
  | O, _ => s
  | S _, "" => ""
  | S k', String _ s' => slice_from k' s'
  end.

(** [s.split(sep)] for a one-character separator. *)
Fixpoint split (sep : ascii) (s : string) : list string :=
  match s with
  | "" => [""]
  | String c s' =>
      if Ascii.eqb c sep then "" :: split sep s'
      else match split sep s' with
           | h :: t => String c h :: t
           | [] => [String c ""]
           end
  end.

Fixpoint cut (sep : ascii) (s : string) : option (string * string) :=
  match s with
  | "" => None
  | String c s' =>
      if Ascii.eqb c sep then Some ("", s')
      else match cut sep s' with
           | Some (a, b) => Some (String c a, b)
           | None => None
           end
  end.

(** [s.split(sep, 1)] for a one-character separator. *)
Definition split1 (sep : ascii) (s : string) : list string :=
  match cut sep s with
  | Some (a, b) => [a; b]
  | None => [s]
  end.

(** [s.replace(a, b)] for one-character [a] and [b]. *)
Fixpoint replace (a b : ascii) (s : string) : string :=
  match s with
  | "" => ""
  | String c s' => String (if Ascii.eqb c a then b else c) (replace a b s')
  end.

(** [str.lower] on code points below 256: A-Z and the accented capitals
    0xC0-0xDE (0xD7, the multiplication sign, apart). *)
Definition lower_char (c : ascii) : ascii :=
  let n := nat_of_ascii c in
  if (((65 <=? n) && (n <=? 90))
      || ((192 <=? n) && (n <=? 222) && negb (n =? 215)))%nat
  then ascii_of_nat (n + 32) else c.

Fixpoint lower (s : string) : string :=
  match s with
  | "" => ""
  | String c s' => String (lower_char c) (lower s')
  end.

(** [sep.join(l)] *)
Definition join (sep : string) (l : list string) : string :=
  String.concat sep l.

(** [str(n)] for a natural number and for an integer. *)
Definition of_nat (n : nat) : string :=
  NilZero.string_of_uint (Nat.to_uint n).
Definition of_Z (n : Z) : string :=
  NilZero.string_of_int (Z.to_int n).

End PyStr.

(* ================================================================== *)
(** * Results, exceptions, JSON values *)
(* ================================================================== *)

(** An exception, an instance of Python's [Exception]: its class name
    and [str(e)]. *)
Inductive exn : Type :=
| PyExc (kind msg : string).

Definition str_exn (e : exn) : string :=
  match e with PyExc _ m => m end.

Inductive result (A : Type) : Type :=
| Ok (a : A)
| Raise (e : exn).
Arguments Ok {A} a.
Arguments Raise {A} e.

Definition rbind {A B} (r : result A) (f : A -> result B) : result B :=
  match r with
  | Ok a => f a
  | Raise e => Raise e
  end.

Inductive json : Type :=
| JNull
| JBool (b : bool)
| JInt (n : Z)
| JStr (s : string)
| JList (l : list json)
| JDict (d : list (string * json)).

Module Py.

(** [type(v).__name__] *)
Definition type_name (v : json) : string :=
  match v with
  | JNull => "NoneType"
  | JBool _ => "bool"
  | JInt _ => "int"
  | JStr _ => "str"
  | JList _ => "list"
  | JDict _ => "dict"
  end.

(** [bool(v)] *)
Definition truthy (v : json) : bool :=
  match v with
  | JNull => false
  | JBool b => b
  | JInt n => negb (n =? 0)%Z
  | JStr s => negb (s =? "")
  | JList l => match l with [] => false | _ => true end
  | JDict d => match d with [] => false | _ => true end
  end.

(** [v == s] for a string [s] *)
Definition eq_str (v : json) (s : string) : bool :=
  match v with
  | JStr t => t =? s
  | _ => false
  end.

Fixpoint lookup (d : list (string * json)) (k : string) : option json :=
  match d with
  | [] => None
  | (k', v) :: d' => if k' =? k then Some v else lookup d' k
  end.

(** [d.get(k, dflt)] on a dict [d] *)
Definition dict_get (d : list (string * json)) (k : string) (dflt : json)
  : json :=
  match lookup d k with
  | Some v => v
  | None => dflt
  end.

(** [k in d] on a dict [d] *)
Definition dict_has (d : list (string * json)) (k : string) : bool :=
  match lookup d k with
  | Some _ => true
  | None => false
  end.

Definition AttributeError (v : json) (attr : string) : exn :=
  PyExc "AttributeError"
        ("'" ++ type_name v ++ "' object has no attribute '" ++ attr ++ "'").

(** [v.get(k, dflt)] on any value: only a dict has [get]. *)
Definition get (v : json) (k : string) (dflt : json) : result json :=
  match v with
  | JDict d => Ok (dict_get d k dflt)
  | _ => Raise (AttributeError v "get")
  end.

(** [v and len(v) > 0] *)
Definition and_len_positive (v : json) : result bool :=
  if truthy v then
    match v with
    | JStr _ | JList _ | JDict _ => Ok true
    | _ => Raise (PyExc "TypeError"
                    ("object of type '" ++ type_name v ++ "' has no len()"))
    end
  else Ok false.

(** [v[0]] *)
Definition index0 (v : json) : result json :=
  match v with
  | JList (x :: _) => Ok x
  | JList [] => Raise (PyExc "IndexError" "list index out of range")
  | JStr (String c _) => Ok (JStr (String c ""))
  | JStr "" => Raise (PyExc "IndexError" "string index out of range")
  | JDict _ => Raise (PyExc "KeyError" "0")
  | _ => Raise (PyExc "TypeError"
                  ("'" ++ type_name v ++ "' object is not subscriptable"))
  end.

(** [s in v] for a string [s] *)
Definition contains_str (s : string) (v : json) : result bool :=
  match v with
  | JStr t => Ok (PyStr.contains s t)
  | JList l => Ok (existsb (fun x => eq_str x s) l)
  | JDict d => Ok (dict_has d s)
  | _ => Raise (PyExc "TypeError"
                  ("argument of type '" ++ type_name v ++ "' is not iterable"))
  end.

(** [a, b = l] *)
Definition unpack2 (l : list string) : result (string * string) :=
  match l with
  | [a; b] => Ok (a, b)
  | [] | [_] =>
      Raise (PyExc "ValueError"
               ("not enough values to unpack (expected 2, got "
                ++ PyStr.of_nat (length l) ++ ")"))
  | _ => Raise (PyExc "ValueError" "too many values to unpack (expected 2)")
  end.

(** [a or b] *)
Definition or_else (a b : json) : json := if truthy a then a else b.

(** The items a [for] loop over [v] visits. *)
Definition iter (v : json) : result (list json) :=
  match v with
  | JList l => Ok l
  | JStr s => Ok (map (fun c => JStr (String c "")) (list_ascii_of_string s))
  | JDict d => Ok (map (fun kv => JStr (fst kv)) d)
  | _ => Raise (PyExc "TypeError"
                  ("'" ++ type_name v ++ "' object is not iterable"))
  end.

End Py.

(* ================================================================== *)
(** * Response formatter ([mcp_client.py]) *)
(* ================================================================== *)

Section Formatter.

(** [json.loads]: [None] stands for [json.JSONDecodeError]. *)
Variable json_loads : string -> option json.
(** [str.title] *)
Variable title : string -> string.
(** [str] of a list or a dict *)
Variable repr_container : json -> string.

(** [str(v)], as an f-string renders [{v}] *)
Definition str_json (v : json) : string :=
  match v with
  | JNull => "None"
  | JBool true => "True"
  | JBool false => "False"
  | JInt n => PyStr.of_Z n
  | JStr s => s
  | JList _ | JDict _ => repr_container v
  end.

(** [key.replace('_', ' ').title()] *)
Definition humanize (key : string) : string :=
  title (PyStr.replace "_" " " key).

(** The lines of [for sub_key, sub_value in d.items()], each behind
    [indent]. *)
Definition sub_lines (indent : string) (d : list (string * json))
  : list string :=
  map (fun kv => indent ++ humanize (fst kv) ++ ": " ++ str_json (snd kv)) d.

(** One round of the loop over [enumerate(value[:5])]; [i] is the index
    of the item. *)
Definition nested_item_lines (i : nat) (item : json) : list string :=
  match item with
  | JDict d => ("  [" ++ PyStr.of_nat (i + 1) ++ "]") :: sub_lines "    • " d
  | _ => ["  • " ++ str_json item]
  end.

Fixpoint nested_items_lines (i : nat) (items : list json) : list string :=
  match items with
  | [] => []
  | item :: rest => nested_item_lines i item ++ nested_items_lines (S i) rest
  end.

(** The lines one [key, value] of a mapping contributes. *)
Definition entry_lines (kv : string * json) : list string :=
  let (key, value) := kv in
  match value with
  | JDict d => ("📋 " ++ humanize key ++ ":") :: sub_lines "  • " d
  | JList l =>
      ("📋 " ++ humanize key ++ ":")
        :: nested_items_lines 0 (firstn 5 l)
        ++ (if (5 <? length l)%nat
            then ["  ... and " ++ PyStr.of_nat (length l - 5) ++ " more items"]
            else [])
  | _ => ["🔹 " ++ humanize key ++ ": " ++ str_json value]
  end.

Definition dict_lines (d : list (string * json)) : list string :=
  flat_map entry_lines d.

(** One round of the loop over [enumerate(data[:10])]. *)
Definition top_item_lines (i : nat) (item : json) : list string :=
  match item with
  | JDict d => ("📋 Item " ++ PyStr.of_nat (i + 1) ++ ":") :: sub_lines "  • " d
  | _ => ["🔹 Item " ++ PyStr.of_nat (i + 1) ++ ": " ++ str_json item]
  end.

Fixpoint top_items_lines (i : nat) (items : list json) : list string :=
  match items with
  | [] => []
  | item :: rest => top_item_lines i item ++ top_items_lines (S i) rest
  end.

Definition list_lines (l : list json) : list string :=
  top_items_lines 0 (firstn 10 l)
  ++ (if (10 <? length l)%nat
      then ["... and " ++ PyStr.of_nat (length l - 10) ++ " more items"]
      else []).

(** [_format_json_response] once [data] is no longer a string to decode. *)
Definition format_decoded (data : json) : string :=
  match data with
  | JDict d => PyStr.join PyStr.nl (dict_lines d)
  | JList l => PyStr.join PyStr.nl (list_lines l)
  | _ => str_json data
  end.

(** [MCPClient._format_json_response].  On decoded JSON no statement of
    its [try] block raises, so its [except] branch is not reached. *)
Definition _format_json_response (data : json) : string :=
  match data with
  | JStr s =>
      match json_loads s with
      | Some v => format_decoded v
      | None => s
      end
  | _ => format_decoded data
  end.

(** The longest prefix of [s] that ends with a closing brace. *)
Fixpoint through_last_close (s : string) : option string :=
  match s with
  | "" => None
  | String c s' =>
      match through_last_close s' with
      | Some p => Some (String c p)
      | None => if Ascii.eqb c "}" then Some (String c "") else None
      end
  end.

(** [re.search(r'\{.*\}', text, re.DOTALL)]: the leftmost opening brace
    from which a match exists, extended to the last closing brace. *)
Fixpoint re_search_braces (text : string) : option string :=
  match text with
  | "" => None
  | String c s' =>
      if Ascii.eqb c "{" then
        match through_last_close s' with
        | Some p => Some (String c p)
        | None => re_search_braces s'
        end
      else re_search_braces s'
  end.

(** [MCPClient._extract_and_format_json] *)
Definition _extract_and_format_json (text : string) : string :=
  match re_search_braces text with
  | Some json_str =>
      match json_loads json_str with
      | Some data => _format_json_response data
      | None => text
      end
  | None => text
  end.

(** What [_parse_result] may be handed: a string, a dict, or another
    object, of which only [str(response)] matters. *)
Inductive pyval : Type :=
| PStr (s : string)
| PDict (d : list (string * json))
| PObj (repr : string).

(** The JSON-RPC branch of [_parse_result]: [Ok None] when it falls
    through to the direct formatting of the dict. *)
Definition parse_rpc_result (response_json : list (string * json))
  : result (option string) :=
  rbind (Py.get (Py.dict_get response_json "result" JNull)
                "artifacts" (JList [])) (fun artifacts =>
  rbind (Py.and_len_positive artifacts) (fun has_artifacts =>
  if has_artifacts then
    rbind (Py.index0 artifacts) (fun a0 =>
    rbind (Py.get a0 "parts" (JList [])) (fun parts =>
    rbind (Py.and_len_positive parts) (fun has_parts =>
    if has_parts then
      rbind (Py.index0 parts) (fun p0 =>
      rbind (Py.get p0 "text" (JStr "")) (fun text_content =>
      Ok (Some (_format_json_response text_content))))
    else Ok None)))
  else Ok None)).

(** [MCPClient._parse_result] *)
Definition _parse_result (response : pyval) : result string :=
  match response with
  | PStr s =>
      match json_loads s with
      | Some (JDict d) =>
          rbind (if Py.dict_has d "result" then parse_rpc_result d
                 else Ok None) (fun r =>
          match r with
          | Some text => Ok text
          | None => Ok (_format_json_response (JDict d))
          end)
      | Some _ => Ok s
      | None => Ok (_extract_and_format_json s)
      end
  | PDict d => Ok (_format_json_response (JDict d))
  | PObj r => Ok r
  end.

End Formatter.

(* ================================================================== *)
(** * The outside world and the effects of a request *)
(* ================================================================== *)

(** A tool of the remote catalogue. *)
Record Tool : Type := {
  tool_name : string;
  tool_description : json;
  tool_inputSchema : json
}.

(** A content block of a language-model response, by its [type]. *)
Inductive block : Type :=
| TextBlock (text : string)
| ToolUseBlock (id name : string) (input : json)
| OtherBlock (type : string).

(** An entry of the [messages] transcript of [execute_query]. *)
Inductive turn : Type :=
| UserQuery (content : string)
| AssistantToolUse (id name : string) (input : json)
| UserToolResult (tool_use_id content : string).

Record http_response : Type := {
  status_code : Z;
  (** [response.json()] *)
  body_json : result json
}.

(** What [A2AClient.send_message] hands back: nothing, an object with
    parts (the text of the first one), or another object (its [str]). *)
Inductive a2a_response : Type :=
| RespNone
| RespParts (text : string)
| RespOther (repr : string).

Record Telemetry : Type := {
  log_message_received : string -> string -> result unit;
  log_message_sent : string -> string -> result unit
}.

(** The collaborators of one request.  [model_script] lists, in order,
    what [anthropic.messages.create] answers during the request; the
    service raises once the list is exhausted.  (A run in which the
    service asks for tools forever returns no reply; it is not a [World].) *)
Record World : Type := {
  agent_logic : string -> string -> result string;
  telemetry : option Telemetry;
  uuid4 : string;
  getenv_SMITHERY_API_KEY : option string;
  MCP_AVAILABLE : bool;
  http_get : string -> result http_response;
  a2a_send : string -> string -> string -> result a2a_response;
  mcp_connect : json -> result (list Tool);
  session_call_tool : string -> json -> result string;
  model_script : list (result (list block))
}.

Inductive event : Type :=
| AgentLogicCall (text conversation_id : string)
| TelemetryReceived (agent_id conversation_id : string)
| TelemetrySent (target conversation_id : string)
| HttpGet (url : string)
| AgentSend (url text conversation_id : string)
| McpConnect (url : json)
| ModelRequest (messages : list turn)
| ToolCall (name : string) (input : json).

(** A computation: the events it caused and what it returned or raised. *)
Definition M (A : Type) : Type := (list event * result A)%type.

Definition ret {A} (a : A) : M A := ([], Ok a).
Definition raise {A} (e : exn) : M A := ([], Raise e).
Definition lift {A} (r : result A) : M A := ([], r).
Definition perform {A} (ev : event) (r : result A) : M A := ([ev], r).

Definition bind {A B} (m : M A) (f : A -> M B) : M B :=
  match m with
  | (t, Ok a) => let (t', r) := f a in ((t ++ t')%list, r)
  | (t, Raise e) => (t, Raise e)
  end.

(** [try: m  except Exception as e: h e] *)
Definition try_except {A} (m : M A) (h : exn -> M A) : M A :=
  match m with
  | (t, Ok a) => (t, Ok a)
  | (t, Raise e) => let (t', r) := h e in ((t ++ t')%list, r)
  end.

Notation "x <- m ;; k" := (bind m (fun x => k))
  (at level 61, m at next level, right associativity).
Notation "m ;;; k" := (bind m (fun _ => k))
  (at level 61, right associativity).

(** [requests.get(url, ...)] *)
Definition requests_get (w : World) (url : string) : M http_response :=
  perform (HttpGet url) (http_get w url).

(** [if self.telemetry: self.telemetry.log_message_received(a, c)] *)
Definition telemetry_received (w : World) (a c : string) : M unit :=
  match telemetry w with
  | Some t => perform (TelemetryReceived a c) (log_message_received t a c)
  | None => ret tt
  end.

(** [if self.telemetry: self.telemetry.log_message_sent(a, c)] *)
Definition telemetry_sent (w : World) (a c : string) : M unit :=
  match telemetry w with
  | Some t => perform (TelemetrySent a c) (log_message_sent t a c)
  | None => ret tt
  end.

Definition events {A} (m : M A) : list event := fst m.
Definition outcome {A} (m : M A) : result A := snd m.

(* ================================================================== *)
(** * Directory client for tool servers ([mcp_registry.py]) *)
(* ================================================================== *)

Module MCPRegistry.

Record t : Type := {
  mcp_registry_url : string;
  agent_registry_url : string;
  smithery_api_key : string
}.

(** [MCPRegistry.__init__] *)
Definition init (w : World) (mcp_url : string) (agent_url : option string)
  : t :=
  {| mcp_registry_url := mcp_url;
     agent_registry_url :=
       match agent_url with
       | Some u => if u =? "" then "http://registry.chat39.com:6900" else u
       | None => "http://registry.chat39.com:6900"
       end;
     smithery_api_key :=
       match getenv_SMITHERY_API_KEY w with
       | Some k => k
       | None => ""
       end |}.

(** [get_nanda_mcp_server_info] *)
Definition get_nanda_mcp_server_info (w : World) (self : t)
           (server_name : string) : M json :=
  try_except
    (response <- requests_get w
        (mcp_registry_url self ++ "/mcp_servers/" ++ server_name) ;;
     if (status_code response =? 200)%Z then
       data <- lift (body_json response) ;;
       a <- lift (Py.get data "server_url" JNull) ;;
       server_url <-
         (if Py.truthy a then ret a
          else lift (Py.get data "endpoint" JNull)) ;;
       config <- lift (Py.get data "config" (JDict [])) ;;
       description <- lift (Py.get data "description" (JStr "")) ;;
       ret (JDict [("server_name", JStr server_name);
                   ("server_url", server_url);
                   ("registry_provider", JStr "nanda");
                   ("config", config);
                   ("description", description);
                   ("raw_data", data)])
     else ret JNull)
    (fun _ => ret JNull).

(** [get_smithery_server_info] *)
Definition get_smithery_server_info (w : World) (self : t)
           (server_id : string) : M json :=
  try_except
    (if smithery_api_key self =? "" then ret JNull
     else
       response <- requests_get w
          ("https://registry.smithery.ai/servers/" ++ server_id) ;;
       if (status_code response =? 200)%Z then lift (body_json response)
       else ret JNull)
    (fun _ => ret JNull).

(** The loop of [build_smithery_server_url] over the connections: the
    connection it stops at, [JNull] when it runs to the end. *)
Fixpoint find_mcp_connection (connections : list json) : result json :=
  match connections with
  | [] => Ok JNull
  | conn :: rest =>
      rbind (Py.get conn "type" JNull) (fun ty =>
      rbind (if Py.eq_str ty "http"
             then rbind (Py.get conn "deploymentUrl" JNull)
                        (fun u => Ok (Py.truthy u))
             else Ok false) (fun is_http =>
      if is_http then Ok conn
      else
        rbind (Py.get conn "type" JNull) (fun ty' =>
        if Py.eq_str ty' "stdio" then Ok conn
        else find_mcp_connection rest)))
  end.

Definition build_smithery_server_url_body (server_info : json)
  : result json :=
  rbind (Py.get server_info "deploymentUrl" JNull) (fun deployment_url =>
  rbind (Py.get server_info "connections" (JList [])) (fun connections =>
  if negb (Py.truthy deployment_url) then Ok JNull
  else
    rbind (Py.iter connections) (fun conns =>
    rbind (find_mcp_connection conns) (fun mcp_connection =>
    if Py.truthy mcp_connection then
      rbind (Py.get mcp_connection "deploymentUrl" JNull) (fun mcp_url =>
      if Py.truthy mcp_url then Ok mcp_url else Ok deployment_url)
    else Ok deployment_url)))).

(** [build_smithery_server_url]: the URL, [JNull] for [None]. *)
Definition build_smithery_server_url (server_info : json) : json :=
  match build_smithery_server_url_body server_info with
  | Ok url => url
  | Raise _ => JNull
  end.

(** [get_smithery_mcp_server_info_complete] *)
Definition get_smithery_mcp_server_info_complete (w : World) (self : t)
           (server_name : string) : M json :=
  try_except
    (if smithery_api_key self =? "" then ret JNull
     else
       server_info <- get_smithery_server_info w self server_name ;;
       if negb (Py.truthy server_info) then ret JNull
       else
         let server_url := build_smithery_server_url server_info in
         if negb (Py.truthy server_url) then ret JNull
         else
           deployment_url <- lift (Py.get server_info "deploymentUrl" JNull) ;;
           connections <-
             lift (Py.get server_info "connections" (JList [])) ;;
           description <- lift (Py.get server_info "description" (JStr "")) ;;
           ret (JDict [("server_name", JStr server_name);
                       ("server_url", server_url);
                       ("registry_provider", JStr "smithery");
                       ("deployment_url", deployment_url);
                       ("connections", connections);
                       ("description", description);
                       ("raw_data", server_info)]))
    (fun _ => ret JNull).

(** [get_mcp_server_info] *)
Definition get_mcp_server_info (w : World) (self : t)
           (registry_provider server_name : string) : M json :=
  try_except
    (if PyStr.lower registry_provider =? "smithery" then
       get_smithery_mcp_server_info_complete w self server_name
     else if PyStr.lower registry_provider =? "nanda" then
       get_nanda_mcp_server_info w self server_name
     else ret JNull)
    (fun _ => ret JNull).

End MCPRegistry.

(* ================================================================== *)
(** * Tool orchestrator ([mcp_client.py]) *)
(* ================================================================== *)

Section Adapter.

Variable json_loads : string -> option json.
Variable title : string -> string.
Variable repr_container : json -> string.

Local Abbreviation parse_result :=
  (_parse_result json_loads title repr_container).
Local Abbreviation str_of := (str_json repr_container).

(** [MCPClient.connect_to_server]: the tools, [None] when the transport,
    the handshake or the listing raises. *)
Definition connect_to_server (w : World) (server_url : json)
  : M (option (list Tool)) :=
  perform (McpConnect server_url)
          (match mcp_connect w server_url with
           | Ok tools => Ok (Some tools)
           | Raise _ => Ok None
           end).

(** [self.anthropic.messages.create(..., messages=messages, ...)]: the
    next answer of the script and what remains of it. *)
Definition messages_create (script : list (result (list block)))
           (messages : list turn) : M (list block) :=
  perform (ModelRequest messages)
          (match script with
           | r :: _ => r
           | [] => Raise (PyExc "APIError"
                            "no further response from the model service")
           end).

(** The [for block in message.content] loop of one round: whether a tool
    was called, and the transcript after the round. *)
Fixpoint tool_round (w : World) (content : list block) (messages : list turn)
  : M (bool * list turn) :=
  match content with
  | [] => ret (false, messages)
  | ToolUseBlock id name input :: rest =>
      result <- perform (ToolCall name input)
                        (session_call_tool w name input) ;;
      processed_result <- lift (parse_result (PObj result)) ;;
      r <- tool_round w rest
             (messages ++ [AssistantToolUse id name input;
                           UserToolResult id processed_result])%list ;;
      ret (true, snd r)
  | _ :: rest => tool_round w rest messages
  end.

(** The [while True] loop, entered with the latest model [message]; it
    returns the message it stops at. *)
Fixpoint tool_loop (w : World) (script : list (result (list block)))
         (content : list block) (messages : list turn) {struct script}
  : M (list block) :=
  r <- tool_round w content messages ;;
  if fst r then
    match script with
    | [] => messages_create [] (snd r)
    | _ :: script' =>
        content' <- messages_create script (snd r) ;;
        tool_loop w script' content' (snd r)
    end
  else ret content.

(** [final_response] of [execute_query]. *)
Fixpoint final_response (content : list block) : string :=
  match content with
  | [] => ""
  | TextBlock text :: rest => text ++ PyStr.nl ++ final_response rest
  | _ :: rest => final_response rest
  end.

(** [MCPClient.execute_query] *)
Definition execute_query (w : World) (query : string) (server_url : json)
  : M string :=
  try_except
    (tools <- connect_to_server w server_url ;;
     match tools with
     | None | Some [] =>
         ret "❌ Failed to connect to MCP server. Check server URL and authentication."
     | Some _ =>
         let messages := [UserQuery query] in
         content <- messages_create (model_script w) messages ;;
         last <- tool_loop w (tl (model_script w)) content messages ;;
         if final_response last =? "" then ret "No response generated"
         else lift (parse_result (PStr (PyStr.strip (final_response last))))
     end)
    (fun e => ret ("❌ MCP error: " ++ str_exn e)).

(* ================================================================== *)
(** * Message router ([agent_bridge.py]) *)
(* ================================================================== *)

Record SimpleAgentBridge : Type := {
  agent_id : string;
  registry_url : option string;
  mcp_registry_url : option string;
  smithery_api_key : option string
}.

(** Truth value of an optional string: [None] and the empty string are
    false. *)
Definition opt_truthy (o : option string) : bool :=
  match o with
  | Some s => negb (s =? "")
  | None => false
  end.

(** [SimpleAgentBridge.__init__] *)
Definition SimpleAgentBridge_init (w : World) (id : string)
           (registry mcp_registry key : option string) : SimpleAgentBridge :=
  {| agent_id := id;
     registry_url := registry;
     mcp_registry_url := mcp_registry;
     smithery_api_key :=
       if opt_truthy key then key else getenv_SMITHERY_API_KEY w |}.

Inductive Content : Type :=
| TextContent (text : string)
| OtherContent.

(** The inbound [Message], by the fields the router reads. *)
Record Message : Type := {
  content : Content;
  conversation_id : option string;
  message_id : string
}.

Inductive MessageRole : Type := USER | AGENT.

(** The [Message] that [_create_response] builds. *)
Record Reply : Type := {
  reply_role : MessageRole;
  reply_content : Content;
  reply_parent_message_id : string;
  reply_conversation_id : string
}.

Definition reply_text (r : Reply) : string :=
  match reply_content r with
  | TextContent text => text
  | OtherContent => ""
  end.

(** [_create_response] *)
Definition _create_response (self : SimpleAgentBridge)
           (original_msg : Message) (cid text : string) : Reply :=
  {| reply_role := AGENT;
     reply_content := TextContent ("[" ++ agent_id self ++ "] " ++ text);
     reply_parent_message_id := message_id original_msg;
     reply_conversation_id := cid |}.

Definition local_agents : list (string * json) :=
  [("test_agent", JStr "http://localhost:6000")].

(** The registry part of [_lookup_agent]: [Some v] when it returns [v]
    from inside the [try], [None] when control reaches the local table. *)
Definition lookup_in_registry (w : World) (self : SimpleAgentBridge)
           (id : string) : M (option json) :=
  match registry_url self with
  | Some url =>
      if negb (url =? "") then
        try_except
          (response <- requests_get w (url ++ "/lookup/" ++ id) ;;
           if (status_code response =? 200)%Z then
             data <- lift (body_json response) ;;
             agent_url <- lift (Py.get data "agent_url" JNull) ;;
             ret (Some agent_url)
           else ret None)
          (fun _ => ret None)
      else ret None
  | None => ret None
  end.

(** [_lookup_agent] *)
Definition _lookup_agent (w : World) (self : SimpleAgentBridge)
           (id : string) : M json :=
  r <- lookup_in_registry w self id ;;
  match r with
  | Some agent_url => ret agent_url
  | None =>
      if Py.dict_has local_agents id
      then ret (Py.dict_get local_agents id JNull)
      else ret JNull
  end.

(** [_send_to_agent] *)
Definition _send_to_agent (w : World) (self : SimpleAgentBridge)
           (target_agent_id message_text cid : string) : M string :=
  try_except
    (agent_url <- _lookup_agent w self target_agent_id ;;
     if negb (Py.truthy agent_url) then
       ret ("Agent " ++ target_agent_id ++ " not found")
     else
       url <- lift (match agent_url with
                    | JStr u => Ok (if PyStr.endswith "/a2a" u then u
                                    else u ++ "/a2a")
                    | _ => Raise (Py.AttributeError agent_url "endswith")
                    end) ;;
       let simple_message :=
         "FROM: " ++ agent_id self ++ PyStr.nl
         ++ "TO: " ++ target_agent_id ++ PyStr.nl
         ++ "MESSAGE: " ++ message_text in
       response <- perform (AgentSend url simple_message cid)
                           (a2a_send w url simple_message cid) ;;
       telemetry_sent w target_agent_id cid ;;;
       match response with
       | RespParts response_text =>
           ret ("[" ++ target_agent_id ++ "] " ++ response_text)
       | RespOther r => ret ("[" ++ target_agent_id ++ "] " ++ r)
       | RespNone =>
           ret ("Message sent to " ++ target_agent_id ++ ": " ++ message_text)
       end)
    (fun e =>
       ret ("❌ Error sending to " ++ target_agent_id ++ ": " ++ str_exn e)).

(** [_handle_agent_message] *)
Definition _handle_agent_message (w : World) (self : SimpleAgentBridge)
           (user_text : string) (msg : Message) (cid : string) : M Reply :=
  match PyStr.split1 " " user_text with
  | p0 :: p1 :: _ =>
      let target_agent := PyStr.slice_from 1 p0 in
      let message_text := p1 in
      result <- _send_to_agent w self target_agent message_text cid ;;
      ret (_create_response self msg cid result)
  | _ =>
      ret (_create_response self msg cid
             "Invalid format. Use '@agent_id message'")
  end.

Definition help_text : string :=
"Available commands:
/help - Show this help
/ping - Test agent responsiveness  
/status - Show agent status
@agent_id message - Send message to another agent
#nanda:server-name query - Query NANDA MCP server
#smithery:server-name query - Query Smithery MCP server".

(** [_handle_command] *)
Definition _handle_command (self : SimpleAgentBridge)
           (user_text : string) (msg : Message) (cid : string) : M Reply :=
  let command :=
    match PyStr.split1 " " user_text with
    | p0 :: _ => PyStr.slice_from 1 p0
    | [] => ""
    end in
  if command =? "help" then ret (_create_response self msg cid help_text)
  else if command =? "ping" then ret (_create_response self msg cid "Pong!")
  else if command =? "status" then
    let status := "Agent: " ++ agent_id self ++ ", Status: Running" in
    let status :=
      match registry_url self with
      | Some u => if negb (u =? "") then status ++ ", Registry: " ++ u
                  else status
      | None => status
      end in
    let status :=
      match mcp_registry_url self with
      | Some u => if negb (u =? "") then status ++ ", MCP Registry: " ++ u
                  else status
      | None => status
      end in
    ret (_create_response self msg cid status)
  else
    ret (_create_response self msg cid
           ("Unknown command: " ++ command
            ++ ". Use /help for available commands")).

(** [_run_mcp_async] *)
Definition _run_mcp_async (w : World) (self : SimpleAgentBridge)
           (server_url : json) (query registry_type : string) : M string :=
  try_except
    (final_server_url <-
       (if (registry_type =? "smithery")
           && opt_truthy (smithery_api_key self)
        then
          has_query <- lift (Py.contains_str "?" server_url) ;;
          let separator := if has_query : bool then "&" else "?" in
          ret (JStr (str_of server_url ++ separator ++ "api_key="
                     ++ match smithery_api_key self with
                        | Some k => k
                        | None => ""
                        end))
        else ret server_url) ;;
     execute_query w query final_server_url)
    (fun e => ret ("❌ MCP query failed: " ++ str_exn e)).

(** [_run_mcp_query_sync]: the worker thread stores what
    [_run_mcp_async] returns; the default is read when it stored
    nothing. *)
Definition _run_mcp_query_sync (w : World) (self : SimpleAgentBridge)
           (server_url : json) (query registry_type : string) : M string :=
  try_except (_run_mcp_async w self server_url query registry_type)
             (fun _ => ret "❌ MCP query failed").

Definition invalid_mcp_format : string :=
  "❌ Invalid MCP message format. Use: #registry:server-name query".

(** [_handle_mcp_message] *)
Definition _handle_mcp_message (w : World) (self : SimpleAgentBridge)
           (user_text : string) (msg : Message) (cid : string) : M Reply :=
  if negb (MCP_AVAILABLE w) then
    ret (_create_response self msg cid
           "❌ MCP support not available. Please install required dependencies.")
  else
  try_except
    (if negb (PyStr.contains ":" user_text) then
       ret (_create_response self msg cid invalid_mcp_format)
     else
       parts <- lift (Py.unpack2
                        (PyStr.split1 ":" (PyStr.slice_from 1 user_text))) ;;
       let (registry_part, rest) := parts : string * string in
       if negb (PyStr.contains " " rest) then
         ret (_create_response self msg cid invalid_mcp_format)
       else
         parts' <- lift (Py.unpack2 (PyStr.split1 " " rest)) ;;
         let (server_name, query) := parts' : string * string in
         if negb (opt_truthy (mcp_registry_url self)) then
           ret (_create_response self msg cid
                  "❌ MCP registry URL not configured")
         else
           let mcp_registry :=
             MCPRegistry.init w
               (match mcp_registry_url self with
                | Some u => u
                | None => ""
                end)
               (registry_url self) in
           server_info <- MCPRegistry.get_mcp_server_info
                            w mcp_registry registry_part server_name ;;
           result <-
             (if negb (Py.truthy server_info) then
                ret ("❌ MCP server '" ++ server_name ++ "' not found in "
                     ++ registry_part ++ " registry")
              else
                server_url <- lift (Py.get server_info "server_url" JNull) ;;
                if negb (Py.truthy server_url) then
                  ret ("❌ No server URL found for '" ++ server_name ++ "'")
                else
                  try_except
                    (mcp_result <- _run_mcp_query_sync
                                     w self server_url query registry_part ;;
                     ret ("🔧 " ++ title registry_part ++ " MCP ["
                          ++ server_name ++ "]: " ++ mcp_result))
                    (fun mcp_error =>
                       ret ("❌ MCP server '" ++ server_name ++ "' error: "
                            ++ str_exn mcp_error))) ;;
           telemetry_received w (agent_id self) cid ;;;
           ret (_create_response self msg cid result))
    (fun e =>
       ret (_create_response self msg cid
              ("❌ Error processing MCP message: " ++ str_exn e))).

(** The loop of [_handle_incoming_agent_message] over the lines, started
    with the three fields seen so far. *)
Fixpoint parse_envelope_lines (lines : list string)
         (from_agent to_agent message_content : string)
  : string * string * string :=
  match lines with
  | [] => (from_agent, to_agent, message_content)
  | line :: rest =>
      if PyStr.startswith "FROM:" line then
        parse_envelope_lines rest (PyStr.strip (PyStr.slice_from 5 line))
                             to_agent message_content
      else if PyStr.startswith "TO:" line then
        parse_envelope_lines rest from_agent
                             (PyStr.strip (PyStr.slice_from 3 line))
                             message_content
      else if PyStr.startswith "MESSAGE:" line then
        parse_envelope_lines rest from_agent to_agent
                             (PyStr.strip (PyStr.slice_from 8 line))
      else parse_envelope_lines rest from_agent to_agent message_content
  end.

(** The fields [_handle_incoming_agent_message] reads from [user_text]. *)
Definition parse_envelope (user_text : string) : string * string * string :=
  parse_envelope_lines (PyStr.split PyStr.nl_char (PyStr.strip user_text))
                       "" "" "".

Definition envelope_from (user_text : string) : string :=
  fst (fst (parse_envelope user_text)).
Definition envelope_message (user_text : string) : string :=
  snd (parse_envelope user_text).

(** [_handle_incoming_agent_message] *)
Definition _handle_incoming_agent_message (w : World)
           (self : SimpleAgentBridge)
           (user_text : string) (msg : Message) (cid : string) : M Reply :=
  try_except
    (let from_agent := envelope_from user_text in
     let message_content := envelope_message user_text in
     if PyStr.startswith "Response to " message_content then
       ret (_create_response self msg cid
              ("[" ++ from_agent ++ "] "
               ++ PyStr.slice_from
                    (String.length ("Response to " ++ agent_id self ++ ": "))
                    message_content))
     else
       telemetry_received w (agent_id self) cid ;;;
       response <- perform (AgentLogicCall message_content cid)
                           (agent_logic w message_content cid) ;;
       ret (_create_response self msg cid
              ("Response to " ++ from_agent ++ ": " ++ response)))
    (fun e =>
       ret (_create_response self msg cid
              ("Error processing message from agent: " ++ str_exn e))).

(** [msg.conversation_id or str(uuid.uuid4())] *)
Definition conversation_of (w : World) (msg : Message) : string :=
  if opt_truthy (conversation_id msg)
  then match conversation_id msg with Some c => c | None => "" end
  else uuid4 w.

(** The envelope test of [handle_message]. *)
Definition is_envelope (user_text : string) : bool :=
  PyStr.startswith "FROM:" user_text
  && PyStr.contains "TO:" user_text
  && PyStr.contains "MESSAGE:" user_text.

(** [handle_message] *)
Definition handle_message (w : World) (self : SimpleAgentBridge)
           (msg : Message) : M Reply :=
  let cid := conversation_of w msg in
  match content msg with
  | OtherContent =>
      ret (_create_response self msg cid "Only text messages supported")
  | TextContent user_text =>
      if is_envelope user_text then
        _handle_incoming_agent_message w self user_text msg cid
      else
        try_except
          (if PyStr.startswith "@" user_text then
             _handle_agent_message w self user_text msg cid
           else if PyStr.startswith "#" user_text then
             try_except
               (_handle_mcp_message w self user_text msg cid)
               (fun e =>
                  ret (_create_response self msg cid
                         ("❌ MCP error: " ++ str_exn e)))
           else if PyStr.startswith "/" user_text then
             _handle_command self user_text msg cid
           else
             telemetry_received w (agent_id self) cid ;;;
             response <- perform (AgentLogicCall user_text cid)
                                 (agent_logic w user_text cid) ;;
             ret (_create_response self msg cid response))
          (fun e =>
             ret (_create_response self msg cid ("Error: " ++ str_exn e)))
  end.

End Adapter.

(* ================================================================== *)
(** * A concrete instance of the library functions *)
(* ================================================================== *)

(** A small reader of JSON (objects, arrays, strings without escapes,
    integers, [true], [false], [null]), Python's [title] on ASCII letters
    and [repr] of containers of such values.  The theorems below hold for
    every choice of the three library functions; this instance serves to
    run the model on concrete inputs. *)
Module Sample.

Definition is_ws (c : ascii) : bool :=
  let n := nat_of_ascii c in
  ((n =? 32) || (n =? 9) || (n =? 10) || (n =? 13))%nat.

Fixpoint skip_ws (s : string) : string :=
  match s with
  | String c s' => if is_ws c then skip_ws s' else s
  | "" => ""
  end.

Definition digit_of (c : ascii) : option Z :=
  let n := nat_of_ascii c in
  if ((48 <=? n) && (n <=? 57))%nat then Some (Z.of_nat (n - 48)) else None.

Fixpoint read_digits (acc : Z) (s : string) : Z * string :=
  match s with
  | String c s' =>
      match digit_of c with
      | Some d => read_digits (10 * acc + d) s'
      | None => (acc, s)
      end
  | "" => (acc, "")
  end.

Definition read_nat (s : string) : option (Z * string) :=
  match s with
  | String c _ =>
      match digit_of c with
      | Some _ => Some (read_digits 0 s)
      | None => None
      end
  | "" => None
  end.

Definition quote_char : ascii := "034"%char.
Definition quote : string := String quote_char "".

(** The characters up to the closing quote, and what follows it. *)
Fixpoint read_string (s : string) : option (string * string) :=
  match s with
  | "" => None
  | String c s' =>
      if Ascii.eqb c quote_char then Some ("", s')
      else if Ascii.eqb c "\" then None
      else match read_string s' with
           | Some (a, r) => Some (String c a, r)
           | None => None
           end
  end.

Definition expect (p s : string) : option string :=
  if String.prefix p s
  then Some (PyStr.slice_from (String.length p) s) else None.

Definition read_literal (s : string) : option (json * string) :=
  match read_nat s with
  | Some (n, r) => Some (JInt n, r)
  | None =>
      match expect "true" s, expect "false" s, expect "null" s with
      | Some r, _, _ => Some (JBool true, r)
      | _, Some r, _ => Some (JBool false, r)
      | _, _, Some r => Some (JNull, r)
      | _, _, _ => None
      end
  end.

Fixpoint read_value (fuel : nat) (s : string) : option (json * string) :=
  match fuel with
  | O => None
  | S fuel' =>
      match skip_ws s with
      | "" => None
      | String c r as s' =>
          if Ascii.eqb c "{" then
            match skip_ws r with
            | String "}" r' => Some (JDict [], r')
            | _ => match read_members fuel' r with
                   | Some (d, r') => Some (JDict d, r')
                   | None => None
                   end
            end
          else if Ascii.eqb c "[" then
            match skip_ws r with
            | String "]" r' => Some (JList [], r')
            | _ => match read_elements fuel' r with
                   | Some (l, r') => Some (JList l, r')
                   | None => None
                   end
            end
          else if Ascii.eqb c quote_char then
            match read_string r with
            | Some (t, r') => Some (JStr t, r')
            | None => None
            end
          else if Ascii.eqb c "-" then
            match read_nat r with
            | Some (n, r') => Some (JInt (- n), r')
            | None => None
            end
          else read_literal s'
      end
  end
with read_elements (fuel : nat) (s : string) : option (list json * string) :=
  match fuel with
  | O => None
  | S fuel' =>
      match read_value fuel' s with
      | Some (v, r) =>
          match skip_ws r with
          | String "," r' =>
              match read_elements fuel' r' with
              | Some (vs, r'') => Some (v :: vs, r'')
              | None => None
              end
          | String "]" r' => Some ([v], r')
          | _ => None
          end
      | None => None
      end
  end
with read_members (fuel : nat) (s : string)
  : option (list (string * json) * string) :=
  match fuel with
  | O => None
  | S fuel' =>
      match skip_ws s with
      | "" => None
      | String c r =>
          if Ascii.eqb c quote_char then
            match read_string r with
            | Some (k, r1) =>
                match skip_ws r1 with
                | String ":" r2 =>
                    match read_value fuel' r2 with
                    | Some (v, r3) =>
                        match skip_ws r3 with
                        | String "," r4 =>
                            match read_members fuel' r4 with
                            | Some (d, r5) => Some ((k, v) :: d, r5)
                            | None => None
                            end
                        | String "}" r4 => Some ([(k, v)], r4)
                        | _ => None
                        end
                    | None => None
                    end
                | _ => None
                end
            | None => None
            end
          else None
      end
  end.

Definition json_loads (s : string) : option json :=
  match read_value (2 * String.length s + 2) s with
  | Some (v, r) => if skip_ws r =? "" then Some v else None
  | None => None
  end.

Definition is_upper (c : ascii) : bool :=
  let n := nat_of_ascii c in ((65 <=? n) && (n <=? 90))%nat.
Definition is_lower (c : ascii) : bool :=
  let n := nat_of_ascii c in ((97 <=? n) && (n <=? 122))%nat.

Fixpoint title_from (in_word : bool) (s : string) : string :=
  match s with
  | "" => ""
  | String c s' =>
      let n := nat_of_ascii c in
      if is_upper c then
        String (if in_word then ascii_of_nat (n + 32) else c)
               (title_from true s')
      else if is_lower c then
        String (if in_word then c else ascii_of_nat (n - 32))
               (title_from true s')
      else String c (title_from false s')
  end.

Definition title (s : string) : string := title_from false s.

Fixpoint repr (v : json) : string :=
  match v with
  | JNull => "None"
  | JBool true => "True"
  | JBool false => "False"
  | JInt n => PyStr.of_Z n
  | JStr s => "'" ++ s ++ "'"
  | JList l => "[" ++ String.concat ", " (map repr l) ++ "]"
  | JDict d =>
      "{" ++ String.concat ", "
               (map (fun kv => match kv with
                               | (k, x) => "'" ++ k ++ "': " ++ repr x
                               end) d)
      ++ "}"
  end.

Definition format (data : json) : string :=
  _format_json_response json_loads title repr data.

Definition parse (response : pyval) : result string :=
  _parse_result json_loads title repr response.

Definition execute (w : World) (query : string) (server_url : json)
  : M string :=
  execute_query json_loads title repr w query server_url.

Definition handle (w : World) (self : SimpleAgentBridge) (msg : Message)
  : M Reply :=
  handle_message json_loads title repr w self msg.

(** A world in which nothing outside answers: no registry, no peer, no
    tool server, no API key in the environment; the callback echoes. *)
Definition offline : World :=
  {| agent_logic := fun text _ => Ok ("echo: " ++ text);
     telemetry := None;
     uuid4 := "6f1c2a9e-0000-4000-8000-000000000001";
     getenv_SMITHERY_API_KEY := None;
     MCP_AVAILABLE := true;
     http_get := fun _ => Raise (PyExc "ConnectionError" "connection refused");
     a2a_send := fun _ _ _ =>
       Raise (PyExc "ConnectionError" "connection refused");
     mcp_connect := fun _ =>
       Raise (PyExc "ConnectionError" "connection refused");
     session_call_tool := fun _ _ =>
       Raise (PyExc "ConnectionError" "connection refused");
     model_script := [] |}.

(** A world with a tool server that offers one tool and a model service
    that answers [script]. *)
Definition with_model (script : list (result (list block))) : World :=
  {| agent_logic := agent_logic offline;
     telemetry := None;
     uuid4 := uuid4 offline;
     getenv_SMITHERY_API_KEY := None;
     MCP_AVAILABLE := true;
     http_get := http_get offline;
     a2a_send := a2a_send offline;
     mcp_connect := fun _ =>
       Ok [{| tool_name := "get_weather";
              tool_description := JStr "current weather of a city";
              tool_inputSchema := JDict [("type", JStr "object")] |}];
     session_call_tool := fun _ _ => Ok "sunny";
     model_script := script |}.

Definition alice : SimpleAgentBridge :=
  {| agent_id := "alice";
     registry_url := None;
     mcp_registry_url := Some "http://mcp.example:6900";
     smithery_api_key := None |}.

Definition text_message (text : string) : Message :=
  {| content := TextContent text;
     conversation_id := Some "c-1";
     message_id := "m-1" |}.

(** Envelopes as a peer sends them to [alice]: a reply that echoes her
    identifier, a text that starts with the reply marker but echoes
    another one, and a request. *)
Definition reply_envelope : string :=
  "FROM: bob" ++ PyStr.nl ++ "TO: alice" ++ PyStr.nl
  ++ "MESSAGE: Response to alice: hi".

Definition stray_reply_envelope : string :=
  "FROM: bob" ++ PyStr.nl ++ "TO: alice" ++ PyStr.nl
  ++ "MESSAGE: Response to al: hello".

Definition request_envelope : string :=
  "FROM: bob" ++ PyStr.nl ++ "TO: alice" ++ PyStr.nl
  ++ "MESSAGE: how are you".

(** An outbound message whose body carries the three labels. *)
Definition labelled_outbound : string :=
  "@bob FROM: alice TO: bob MESSAGE: hi".

(** A JSON document as a text block may carry it. *)
Definition weather_json : string :=
  "{" ++ quote ++ "temp_c" ++ quote ++ ": 21}".

(** A Smithery record whose connections list a stdio connection before
    an http one. *)
Definition stdio_then_http : json :=
  JDict [("deploymentUrl", JStr "https://server.example/top");
         ("connections",
          JList [JDict [("type", JStr "stdio");
                        ("deploymentUrl", JStr "https://server.example/stdio")];
                 JDict [("type", JStr "http");
                        ("deploymentUrl", JStr "https://server.example/http")]])].

End Sample.

(* ================================================================== *)
(** * Notions the properties are stated with *)
(* ================================================================== *)

(** The non-empty prefixes of [s] that end with a closing brace. *)
Fixpoint closing_prefixes (s : string) : list string :=
  match s with
  | "" => []
  | String c s' =>
      ((if Ascii.eqb c "}" then [String c ""] else [])
       ++ map (String c) (closing_prefixes s'))%list
  end.

(** The substrings of [s] that open with a brace and close with one. *)
Fixpoint brace_fragments (s : string) : list string :=
  match s with
  | "" => []
  | String c s' =>
      ((if Ascii.eqb c "{" then map (String c) (closing_prefixes s') else [])
       ++ brace_fragments s')%list
  end.

Definition is_none {A} (o : option A) : bool :=
  match o with
  | None => true
  | Some _ => false
  end.

(** A plain string: it does not decode as JSON and none of its
    brace-delimited fragments does. *)
Definition plain_string (json_loads : string -> option json) (x : string)
  : bool :=
  is_none (json_loads x)
  && forallb (fun f => is_none (json_loads f)) (brace_fragments x).

(** The elision note of a list of which [omitted] items are not shown. *)
Definition elision_note (indent : string) (omitted : list json)
  : list string :=
  match omitted with
  | [] => []
  | _ => [indent ++ "... and " ++ PyStr.of_nat (length omitted)
          ++ " more items"]
  end.

(** The texts of the text blocks of a response, in order. *)
Fixpoint text_blocks (content : list block) : list string :=
  match content with
  | [] => []
  | TextBlock text :: rest => text :: text_blocks rest
  | _ :: rest => text_blocks rest
  end.

Definition is_tool_use (b : block) : bool :=
  match b with
  | ToolUseBlock _ _ _ => true
  | _ => false
  end.

(** The events that reach a registry, a peer agent, a tool server or the
    language-model service. *)
Definition is_network (ev : event) : bool :=
  match ev with
  | HttpGet _ | AgentSend _ _ _ | McpConnect _
  | ModelRequest _ | ToolCall _ _ => true
  | _ => false
  end.

Definition is_agent_logic (ev : event) : bool :=
  match ev with
  | AgentLogicCall _ _ => true
  | _ => false
  end.

(** The agent registry yields a usable URL for [id]. *)
Definition resolved_by_registry (w : World) (self : SimpleAgentBridge)
           (id : string) : bool :=
  match outcome (lookup_in_registry w self id) with
  | Ok (Some agent_url) => Py.truthy agent_url
  | _ => false
  end.

(** The local fallback table knows [id]. *)
Definition resolved_locally (id : string) : bool :=
  Py.dict_has local_agents id.

(** The text carries the three labels of an envelope somewhere. *)
Definition has_envelope_labels (user_text : string) : bool :=
  PyStr.contains "FROM:" user_text
  && PyStr.contains "TO:" user_text
  && PyStr.contains "MESSAGE:" user_text.

(** A computation returns, with a value that satisfies [P]. *)
Definition returns {A} (P : A -> Prop) (m : M A) : Prop :=
  match outcome m with
  | Ok a => P a
  | Raise _ => False
  end.

(** Whenever a computation returns, its value satisfies [P]. *)
Definition returning {A} (P : A -> Prop) (m : M A) : Prop :=
  match outcome m with
  | Ok a => P a
  | Raise _ => True
  end.

(** The reply was built by [_create_response]. *)
Definition is_response (self : SimpleAgentBridge) (msg : Message)
           (cid : string) (r : Reply) : Prop :=
  exists text, r = _create_response self msg cid text.

(* ================================================================== *)
(** * Agent bootstrap ([adapter.py]) *)
(* ================================================================== *)

Module NANDA.

(** What the adapter does to its host: it posts a registration and it
    runs the transport server.  Console output is not modelled. *)
Inductive action : Type :=
| Register (url : string) (data : json)
| RunServer (agent_id host : string) (port : Z).

(** The host of the adapter: [requests.post] (the status code of the
    response) and [run_server]. *)
Record Host : Type := {
  requests_post : string -> json -> result Z;
  run_server : SimpleAgentBridge -> string -> Z -> result unit
}.

(** The [NANDA] object, by the fields [start] and [_register] read. *)
Record t : Type := {
  agent_id : string;
  port : Z;
  registry_url : option string;
  public_url : option string;
  host : string;
  bridge : SimpleAgentBridge
}.

(** [NANDA.__init__] *)
Definition init (w : World) (id : string) (p : Z)
           (registry mcp_registry public : option string) (h : string)
           (key : option string) : t :=
  {| agent_id := id;
     port := p;
     registry_url := registry;
     public_url := public;
     host := h;
     bridge := SimpleAgentBridge_init w id registry mcp_registry key |}.

Definition opt_text (o : option string) : string :=
  match o with
  | Some s => s
  | None => "None"
  end.

(** [NANDA._register] *)
Definition _register (h : Host) (self : t) : list action * result unit :=
  let url := opt_text (registry_url self) ++ "/register" in
  let data := JDict [("agent_id", JStr (agent_id self));
                     ("agent_url", match public_url self with
                                   | Some u => JStr u
                                   | None => JNull
                                   end)] in
  ([Register url data],
   match requests_post h url data with
   | Ok _ => Ok tt
   | Raise _ => Ok tt
   end).

(** [NANDA.start] *)
Definition start (h : Host) (self : t) (register : bool)
  : list action * result unit :=
  let registration :=
    if register && opt_truthy (registry_url self)
       && opt_truthy (public_url self)
    then _register h self else ([], Ok tt) in
  match registration with
  | (t, Ok _) =>
      ((t ++ [RunServer (agent_id self) (host self) (port self)])%list,
       run_server h (bridge self) (host self) (port self))
  | (t, Raise e) => (t, Raise e)
  end.

End NANDA.

(* ================================================================== *)
(** * Further notions *)
(* ================================================================== *)

(** The text [_send_to_agent] sends to a peer. *)
Definition envelope_text (from_agent to_agent message_text : string)
  : string :=
  "FROM: " ++ from_agent ++ PyStr.nl
  ++ "TO: " ++ to_agent ++ PyStr.nl
  ++ "MESSAGE: " ++ message_text.

(** The last line of the text of an envelope once [strip] has run: it
    loses the blank after its label when the message is empty. *)
Definition message_line (m : string) : string :=
  match m with
  | "" => "MESSAGE:"
  | _ => "MESSAGE: " ++ m
  end.

(** A field of an envelope that survives the trip: one line, without
    surrounding whitespace. *)
Definition clean_field (s : string) : bool :=
  negb (PyStr.contains PyStr.nl s) && (PyStr.strip s =? s).

Definition is_ok {A} (r : result A) : bool :=
  match r with
  | Ok _ => true
  | Raise _ => false
  end.

(** The tool calls a response asks for, in order. *)
Fixpoint tool_calls (content : list block) : list event :=
  match content with
  | [] => []
  | ToolUseBlock _ name input :: rest => ToolCall name input :: tool_calls rest
  | _ :: rest => tool_calls rest
  end.

(** Every tool call of the response succeeds. *)
Fixpoint tools_succeed (w : World) (content : list block) : bool :=
  match content with
  | [] => true
  | ToolUseBlock _ name input :: rest =>
      is_ok (session_call_tool w name input) && tools_succeed w rest
  | _ :: rest => tools_succeed w rest
  end.

(** The transcript entries of the tool calls of a response: each
    invocation followed by its result. *)
Fixpoint tool_turns (w : World) (content : list block) : list turn :=
  match content with
  | [] => []
  | ToolUseBlock id name input :: rest =>
      AssistantToolUse id name input
      :: UserToolResult id (match session_call_tool w name input with
                            | Ok r => r
                            | Raise _ => ""
                            end)
      :: tool_turns w rest
  | _ :: rest => tool_turns w rest
  end.

(** No event of the computation satisfies [p]. *)
Definition never {A} (p : event -> bool) (m : M A) : Prop :=
  Forall (fun ev => p ev = false) (events m).

(** A message sent to a peer at a URL that does not end with [/a2a]. *)
Definition sent_off_endpoint (ev : event) : bool :=
  match ev with
  | AgentSend url _ _ => negb (PyStr.endswith "/a2a" url)
  | _ => false
  end.

Definition is_tool_traffic (ev : event) : bool :=
  match ev with
  | McpConnect _ | ModelRequest _ | ToolCall _ _ => true
  | _ => false
  end.

Definition is_agent_send (ev : event) : bool :=
  match ev with
  | AgentSend _ _ _ => true
  | _ => false
  end.




Definition is_tool_call (ev : event) : bool :=
  match ev with
  | ToolCall _ _ => true
  | _ => false
  end.

(** The computation stops at a failing tool call: a tool call that raises
    is its last event, and the exception of the call leaves it. *)
Definition stops_at_failing_call (w : World) {A} (m : M A) : Prop :=
  forall pre name input post e,
    events m = (pre ++ ToolCall name input :: post)%list ->
    session_call_tool w name input = Raise e ->
    post = [] /\ outcome m = Raise e.

(** The value is not a dict. *)
Definition not_dict (v : json) : bool :=
  match v with
  | JDict _ => false
  | _ => true
  end.

(** The HTTP exchange answers 200 with a JSON object. *)
Definition answers_object (r : result http_response)
  : option (list (string * json)) :=
  match r with
  | Ok response =>
      if (status_code response =? 200)%Z then
        match body_json response with
        | Ok (JDict d) => Some d
        | _ => None
        end
      else None
  | Raise _ => None
  end.

(** The connections before the first one the loop can stop at: objects
    that are neither stdio nor http with a deployment URL. *)
Definition passed_over (conn : json) : bool :=
  match conn with
  | JDict d =>
      negb (Py.eq_str (Py.dict_get d "type" JNull) "stdio")
      && negb (Py.eq_str (Py.dict_get d "type" JNull) "http"
               && Py.truthy (Py.dict_get d "deploymentUrl" JNull))
  | _ => false
  end.

(* ================================================================== *)
(** * A second concrete world *)
(* ================================================================== *)

Module Scenario.

Definition answer (v : json) : result http_response :=
  Ok {| status_code := 200; body_json := Ok v |}.

Definition not_found : result http_response :=
  Ok {| status_code := 404;
        body_json := Ok (JDict [("error", JStr "not found")]) |}.

Definition weather_tool : Tool :=
  {| tool_name := "get_weather";
     tool_description := JStr "current weather of a city";
     tool_inputSchema := JDict [("type", JStr "object")] |}.

Definition ask_weather : list block :=
  [TextBlock "Let me check.";
   ToolUseBlock "t1" "get_weather" (JDict [("city", JStr "Paris")])].

Definition say_weather : list block :=
  [TextBlock "It is sunny in Paris."].

(** The answer of the tool registry for [weather]: it gives the URL
    under the [endpoint] alias only. *)
Definition weather_record : list (string * json) :=
  [("endpoint", JStr "https://weather.example/mcp");
   ("description", JStr "weather reports")].

Definition http_connection : list (string * json) :=
  [("type", JStr "http"); ("deploymentUrl", JStr "https://foo.example/http")].

(** The Smithery record of [foo]: a connection of another type, then an
    http connection with its URL, then a stdio connection. *)
Definition foo_record : list (string * json) :=
  [("deploymentUrl", JStr "https://foo.example/top");
   ("connections",
    JList [JDict [("type", JStr "ws")];
           JDict http_connection;
           JDict [("type", JStr "stdio")]])].

(** A Smithery record without a usable connection. *)
Definition bare_record : list (string * json) :=
  [("deploymentUrl", JStr "https://bar.example/top");
   ("connections", JList [JDict [("type", JStr "ws")]])].

(** A tool result in the JSON-RPC form, and one whose result is not an
    object. *)
Definition rpc_text : string :=
  "{" ++ Sample.quote ++ "result" ++ Sample.quote ++ ": {"
  ++ Sample.quote ++ "artifacts" ++ Sample.quote ++ ": [{"
  ++ Sample.quote ++ "parts" ++ Sample.quote ++ ": [{"
  ++ Sample.quote ++ "text" ++ Sample.quote ++ ": "
  ++ Sample.quote ++ "21 degrees" ++ Sample.quote ++ "}]}]}}".

Definition bad_rpc_text : string :=
  "{" ++ Sample.quote ++ "result" ++ Sample.quote ++ ": 5}".

(** A text with a JSON document inside. *)
Definition prose_with_json : string :=
  "Result: " ++ "{" ++ (Sample.quote ++ "temp_c" ++ Sample.quote ++ ": 21")
  ++ "}" ++ " (measured at noon)".

(** A world with an agent registry that knows [bob] and [dave] (who is
    down), a tool registry
    that knows [weather] by its endpoint alias, a Smithery record, a peer
    that answers, a tool server and a model that calls one tool. *)
Definition online : World :=
  {| agent_logic := fun text _ => Ok ("echo: " ++ text);
     telemetry := None;
     uuid4 := "6f1c2a9e-0000-4000-8000-000000000002";
     getenv_SMITHERY_API_KEY := Some "sk-env";
     MCP_AVAILABLE := true;
     http_get := fun url =>
       if url =? "http://agents.example/lookup/bob" then
         answer (JDict [("agent_url", JStr "http://bob.example:6000")])
       else if url =? "http://agents.example/lookup/dave" then
         answer (JDict [("agent_url", JStr "http://dave.example:6000/a2a")])
       else if url =? "http://mcp.example:6900/mcp_servers/weather" then
         answer (JDict weather_record)
       else if url =? "https://registry.smithery.ai/servers/foo" then
         answer (JDict foo_record)
       else not_found;
     a2a_send := fun url _ _ =>
       if url =? "http://bob.example:6000/a2a"
       then Ok (RespParts "hello alice")
       else Raise (PyExc "ConnectionError" "connection refused");
     mcp_connect := fun _ => Ok [weather_tool];
     session_call_tool := fun name _ =>
       if name =? "get_weather" then Ok "sunny"
       else Raise (PyExc "McpError" "unknown tool");
     model_script := [Ok ask_weather; Ok say_weather] |}.

(** The same world with a model service that is down. *)
Definition model_down : World :=
  {| agent_logic := agent_logic online;
     telemetry := None;
     uuid4 := uuid4 online;
     getenv_SMITHERY_API_KEY := getenv_SMITHERY_API_KEY online;
     MCP_AVAILABLE := true;
     http_get := http_get online;
     a2a_send := a2a_send online;
     mcp_connect := mcp_connect online;
     session_call_tool := session_call_tool online;
     model_script := [Raise (PyExc "APIConnectionError" "Connection error.")] |}.

(** The same world with a tool server that offers nothing. *)
Definition no_tools : World :=
  {| agent_logic := agent_logic online;
     telemetry := None;
     uuid4 := uuid4 online;
     getenv_SMITHERY_API_KEY := getenv_SMITHERY_API_KEY online;
     MCP_AVAILABLE := true;
     http_get := http_get online;
     a2a_send := a2a_send online;
     mcp_connect := fun _ => Ok [];
     session_call_tool := session_call_tool online;
     model_script := model_script online |}.

(** The same world with a model that asks for a tool the server lacks. *)
Definition wrong_tool : World :=
  {| agent_logic := agent_logic online;
     telemetry := None;
     uuid4 := uuid4 online;
     getenv_SMITHERY_API_KEY := getenv_SMITHERY_API_KEY online;
     MCP_AVAILABLE := true;
     http_get := http_get online;
     a2a_send := a2a_send online;
     mcp_connect := mcp_connect online;
     session_call_tool := session_call_tool online;
     model_script :=
       [Ok [ToolUseBlock "t1" "get_weather" (JDict []);
            ToolUseBlock "t2" "get_tides" (JDict [])];
        Ok say_weather] |}.

Definition carol : SimpleAgentBridge :=
  {| agent_id := "carol";
     registry_url := Some "http://agents.example";
     mcp_registry_url := Some "http://mcp.example:6900";
     smithery_api_key := Some "sk-bridge" |}.

(** A host whose registry refuses the registration. *)
Definition refusing_host : NANDA.Host :=
  {| NANDA.requests_post := fun _ _ =>
       Raise (PyExc "ConnectionError" "connection refused");
     NANDA.run_server := fun _ _ _ => Ok tt |}.

Definition carol_agent : NANDA.t :=
  {| NANDA.agent_id := "carol";
     NANDA.port := 6000;
     NANDA.registry_url := Some "http://agents.example";
     NANDA.public_url := Some "https://carol.example:6000";
     NANDA.host := "0.0.0.0";
     NANDA.bridge := carol |}.

(** The same world with a model that asks, in its second response, for a
    tool the server lacks. *)
Definition late_failure : World :=
  {| agent_logic := agent_logic online;
     telemetry := None;
     uuid4 := uuid4 online;
     getenv_SMITHERY_API_KEY := getenv_SMITHERY_API_KEY online;
     MCP_AVAILABLE := true;
     http_get := http_get online;
     a2a_send := a2a_send online;
     mcp_connect := mcp_connect online;
     session_call_tool := session_call_tool online;
     model_script :=
       [Ok ask_weather;
        Ok [ToolUseBlock "t2" "get_tides" (JDict [])];
        Ok say_weather] |}.


(** The same world with a telemetry sink that raises. *)
Definition broken_telemetry : World :=
  {| agent_logic := agent_logic online;
     telemetry :=
       Some {| log_message_received := fun _ _ =>
                 Raise (PyExc "OSError" "disk full");
               log_message_sent := fun _ _ =>
                 Raise (PyExc "OSError" "disk full") |};
     uuid4 := uuid4 online;
     getenv_SMITHERY_API_KEY := getenv_SMITHERY_API_KEY online;
     MCP_AVAILABLE := true;
     http_get := http_get online;
     a2a_send := a2a_send online;
     mcp_connect := mcp_connect online;
     session_call_tool := session_call_tool online;
     model_script := model_script online |}.

(** A reply whose labels come in another order: [TO:] first. *)
Definition reply_with_to_first : string :=
  "TO: alice" ++ PyStr.nl ++ "FROM: bob" ++ PyStr.nl
  ++ "MESSAGE: Response to alice: hi".

(** A mapping whose list sits one level down, inside a nested mapping. *)
Definition list_one_level_down : json :=
  JDict [("scan",
          JDict [("open_ports",
                  JList [JInt 1; JInt 2; JInt 3; JInt 4; JInt 5; JInt 6;
                         JInt 7])])].

End Scenario.

(* ================================================================== *)
(** * Strings: basic facts *)
(* ================================================================== *)

Module PyStrFacts.
Import PyStr.

Lemma append_nil_r (s : string) : s ++ "" = s.
Proof. induction s as [|c s IH]; simpl; [reflexivity | now rewrite IH]. Qed.

Lemma append_assoc (a b c : string) : (a ++ b) ++ c = a ++ b ++ c.
Proof. induction a as [|x a IH]; simpl; [reflexivity | now rewrite IH]. Qed.

Lemma prefix_append (p s : string) : String.prefix p (p ++ s) = true.
Proof.
  induction p as [|c p IH]; simpl.
  - now destruct s.
  - destruct (ascii_dec c c) as [_|n]; [exact IH | now elim n].
Qed.

Lemma tag_prefix (id body : string) :
  startswith ("[" ++ id ++ "] ") ("[" ++ id ++ "] " ++ body) = true.
Proof.
  unfold startswith.
  replace ("[" ++ id ++ "] " ++ body) with (("[" ++ id ++ "] ") ++ body).
  - apply prefix_append.
  - now rewrite !append_assoc.
Qed.

Lemma slice_from_append (p s : string) :
  slice_from (String.length p) (p ++ s) = s.
Proof. induction p as [|c p IH]; simpl; [now destruct s | exact IH]. Qed.

Lemma contains_char_cons (c a : ascii) (s : string) :
  contains (String c "") (String a s) = false ->
  Ascii.eqb a c = false /\ contains (String c "") s = false.
Proof.
  simpl. destruct (ascii_dec c a) as [e|n].
  - subst. destruct s; discriminate.
  - intros H. split; [| exact H].
    apply Ascii.eqb_neq. congruence.
Qed.

(** Cutting at the first separator, when the part before it has none. *)
Lemma cut_append (c : ascii) (a b : string) :
  contains (String c "") a = false ->
  cut c (a ++ String c b) = Some (a, b).
Proof.
  induction a as [|x a IH]; intros H.
  - simpl. now rewrite Ascii.eqb_refl.
  - apply contains_char_cons in H. destruct H as [Hx Ha].
    simpl. rewrite Hx, (IH Ha). reflexivity.
Qed.

Lemma split1_append (c : ascii) (a b : string) :
  contains (String c "") a = false ->
  split1 c (a ++ String c b) = [a; b].
Proof. intros H. unfold split1. now rewrite cut_append. Qed.

Lemma contains_char_append (c : ascii) (a b : string) :
  contains (String c "") (a ++ String c b) = true.
Proof.
  induction a as [|x a IH].
  - simpl. destruct (ascii_dec c c) as [_|n]; [now destruct b | now elim n].
  - change (contains (String c "") (String x a ++ String c b))
      with (if String.prefix (String c "") (String x (a ++ String c b))
            then true else contains (String c "") (a ++ String c b)).
    rewrite IH. now destruct (String.prefix _ _).
Qed.

Lemma contains_char_tag (c x : ascii) (s : string) :
  Ascii.eqb x c = false ->
  contains (String c "") s = false ->
  contains (String c "") (String x s) = false.
Proof.
  intros Hx Hs. simpl. destruct (ascii_dec c x) as [e|n].
  - subst. now rewrite Ascii.eqb_refl in Hx.
  - exact Hs.
Qed.

Lemma append_nl_nonempty (s : string) : (s ++ nl =? "") = false.
Proof. now destruct s. Qed.

Lemma rstrip_space (c : ascii) (s : string) :
  isspace c = true -> rstrip (s ++ String c "") = rstrip s.
Proof.
  intros Hc. induction s as [|x s IH]; simpl.
  - now rewrite Hc.
  - now rewrite IH.
Qed.

Lemma strip_space (c : ascii) (s : string) :
  isspace c = true -> strip (s ++ String c "") = strip s.
Proof.
  intros Hc. unfold strip. induction s as [|x s IH].
  - simpl. rewrite Hc. reflexivity.
  - simpl. destruct (isspace x); [exact IH |].
    exact (rstrip_space c (String x s) Hc).
Qed.

End PyStrFacts.

(* ================================================================== *)
(** * Response formatter: properties *)
(* ================================================================== *)

Section FormatterFacts.

Variable json_loads : string -> option json.
Variable title : string -> string.
Variable repr_container : json -> string.

Local Abbreviation format := (_format_json_response json_loads title repr_container).
Local Abbreviation parse := (_parse_result json_loads title repr_container).

Lemma closing_prefixes_spec (s p : string) :
  In p (closing_prefixes s) <->
  exists mid post, p = mid ++ "}" /\ s = p ++ post.
Proof.
  split.
  - revert p. induction s as [|c s IH]; intros p Hin; [contradiction |].
    simpl in Hin. apply in_app_or in Hin. destruct Hin as [Hin | Hin].
    + destruct (Ascii.eqb_spec c "}") as [-> | _]; [| contradiction].
      destruct Hin as [<- | []]. now exists "", s.
    + apply in_map_iff in Hin. destruct Hin as (q & <- & Hq).
      destruct (IH q Hq) as (mid & post & -> & ->).
      now exists (String c mid), post.
  - revert p. induction s as [|c s IH]; intros p (mid & post & -> & Hs).
    + destruct mid; discriminate.
    + simpl. apply in_or_app. destruct mid as [|m mid]; simpl in Hs.
      * injection Hs as -> _. left. simpl. now left.
      * injection Hs as -> Hs. right. simpl.
        apply in_map. apply IH. now exists mid, post.
Qed.

(** [brace_fragments] lists exactly the substrings delimited by braces. *)
Lemma brace_fragments_spec (x f : string) :
  In f (brace_fragments x) <->
  exists pre mid post, f = "{" ++ mid ++ "}" /\ x = pre ++ f ++ post.
Proof.
  split.
  - induction x as [|c x IH]; intros Hin; [contradiction |].
    simpl in Hin. apply in_app_or in Hin. destruct Hin as [Hin | Hin].
    + destruct (Ascii.eqb_spec c "{") as [-> | _]; [| contradiction].
      apply in_map_iff in Hin. destruct Hin as (q & <- & Hq).
      apply closing_prefixes_spec in Hq. destruct Hq as (mid & post & -> & ->).
      now exists "", mid, post.
    + destruct (IH Hin) as (pre & mid & post & -> & ->).
      now exists (String c pre), mid, post.
  - revert f. induction x as [|c x IH]; intros f (pre & mid & post & -> & Hx).
    + destruct pre; discriminate.
    + simpl. apply in_or_app. destruct pre as [|p pre]; simpl in Hx.
      * injection Hx as -> Hx. left. simpl. apply in_map.
        apply closing_prefixes_spec. now exists mid, post.
      * injection Hx as -> Hx. right. apply IH. now exists pre, mid, post.
Qed.

Lemma through_last_close_in (s p : string) :
  through_last_close s = Some p -> In p (closing_prefixes s).
Proof.
  revert p. induction s as [|c s IH]; intros p H; [discriminate |].
  simpl in H. simpl. apply in_or_app.
  destruct (through_last_close s) as [q|].
  - injection H as <-. right. apply in_map. now apply IH.
  - destruct (Ascii.eqb c "}"); [| discriminate].
    injection H as <-. left. now left.
Qed.

(** What the pattern matches is one of the brace-delimited fragments. *)
Lemma re_search_braces_in (text f : string) :
  re_search_braces text = Some f -> In f (brace_fragments text).
Proof.
  induction text as [|c s IH]; intros H; [discriminate |].
  simpl in H. simpl. apply in_or_app.
  destruct (Ascii.eqb c "{").
  - destruct (through_last_close s) as [p|] eqn:E.
    + injection H as <-. left. apply in_map. now apply through_last_close_in.
    + right. now apply IH.
  - right. now apply IH.
Qed.

Lemma extract_plain (x : string) :
  forallb (fun f => is_none (json_loads f)) (brace_fragments x) = true ->
  _extract_and_format_json json_loads title repr_container x = x.
Proof.
  intros H. unfold _extract_and_format_json.
  destruct (re_search_braces x) as [f|] eqn:E; [| reflexivity].
  apply re_search_braces_in in E.
  rewrite forallb_forall in H. specialize (H f E).
  destruct (json_loads f); [discriminate | reflexivity].
Qed.

(** C7.  The response formatter leaves a plain string unchanged: when [x]
    does not decode as JSON and holds no brace-delimited fragment that
    decodes as JSON, formatting [x] returns [x], and so does formatting
    the result again. *)
Theorem format_plain_string (x : string) :
  plain_string json_loads x = true ->
  parse (PStr x) = Ok x
  /\ rbind (parse (PStr x)) (fun y => parse (PStr y)) = Ok x
  /\ format (JStr x) = x.
Proof.
  unfold plain_string. intros H. apply andb_prop in H. destruct H as [Hx Hf].
  assert (Hp : parse (PStr x) = Ok x).
  { simpl. destruct (json_loads x); [discriminate |].
    now rewrite extract_plain. }
  repeat split.
  - exact Hp.
  - rewrite Hp. simpl. exact Hp.
  - simpl. now destruct (json_loads x).
Qed.

Lemma elision_note_skipn (indent : string) (n : nat) (l : list json) :
  (if (n <? length l)%nat
   then [indent ++ "... and " ++ PyStr.of_nat (length l - n) ++ " more items"]
   else []) = elision_note indent (skipn n l).
Proof.
  destruct (Nat.ltb_spec n (length l)) as [Hlt | Hge].
  - pose proof (length_skipn n l) as Hlen.
    destruct (skipn n l) as [|y ys] eqn:E.
    + simpl in Hlen. lia.
    + unfold elision_note. now rewrite Hlen.
  - now rewrite skipn_all2.
Qed.

(** C8 (as amended).  A list that is itself the value of a key of the
    formatted mapping is rendered by its first five items; a top-level
    list by its first ten.  The items beyond the cap leave one line, the
    elision note, which is present exactly when some item is omitted and
    counts the omitted items. *)
Theorem list_rendering_caps :
  (forall pre key l post,
      format (JDict (pre ++ (key, JList l) :: post)) =
      PyStr.join PyStr.nl
        (dict_lines title repr_container pre
         ++ (("📋 " ++ humanize title key ++ ":")%string
               :: nested_items_lines title repr_container 0 (firstn 5 l)
               ++ elision_note "  " (skipn 5 l))
         ++ dict_lines title repr_container post)%list)
  /\ (forall l,
      format (JList l) =
      PyStr.join PyStr.nl
        (top_items_lines title repr_container 0 (firstn 10 l)
         ++ elision_note "" (skipn 10 l))%list).
Proof.
  split.
  - intros pre key l post.
    rewrite <- (elision_note_skipn "  " 5 l).
    unfold _format_json_response, format_decoded, dict_lines.
    rewrite flat_map_app. reflexivity.
  - intros l.
    rewrite <- (elision_note_skipn "" 10 l). reflexivity.
Qed.

End FormatterFacts.

(* ================================================================== *)
(** * Computations: returning and raising *)
(* ================================================================== *)

Section MonadFacts.

Context {A B : Type}.

Lemma returns_ret (P : A -> Prop) (a : A) : P a -> returns P (ret a).
Proof. intros H. exact H. Qed.

Lemma returning_ret (P : A -> Prop) (a : A) : P a -> returning P (ret a).
Proof. intros H. exact H. Qed.

Lemma returning_raise (P : A -> Prop) (e : exn) : returning P (raise e).
Proof. exact I. Qed.

Lemma returns_returning (P : A -> Prop) (m : M A) :
  returns P m -> returning P m.
Proof. unfold returns, returning. now destruct (outcome m). Qed.

Lemma returning_bind (P : B -> Prop) (m : M A) (f : A -> M B) :
  (forall a, returning P (f a)) -> returning P (bind m f).
Proof.
  intros H. destruct m as [t [a | e]]; [| exact I].
  specialize (H a). unfold returning, outcome, bind in *.
  now destruct (f a).
Qed.

Lemma returns_bind (P : B -> Prop) (m : M A) (f : A -> M B) :
  returns (fun _ => True) m -> (forall a, returns P (f a)) ->
  returns P (bind m f).
Proof.
  intros Hm H. destruct m as [t [a | e]]; [| contradiction].
  specialize (H a). unfold returns, outcome, bind in *.
  now destruct (f a).
Qed.

Lemma returns_try_except (P : A -> Prop) (m : M A) (h : exn -> M A) :
  returning P m -> (forall e, returns P (h e)) ->
  returns P (try_except m h).
Proof.
  intros Hm H. destruct m as [t [a | e]]; [exact Hm |].
  specialize (H e). unfold returns, outcome, try_except in *.
  now destruct (h e).
Qed.


Lemma bind_pure (a : A) (f : A -> M B) : bind ([], Ok a) f = f a.
Proof. unfold bind. now destruct (f a). Qed.

Lemma returns_ok (P : A -> Prop) (m : M A) :
  returns P m -> exists a, outcome m = Ok a /\ P a.
Proof.
  unfold returns. destruct (outcome m) as [a | e]; [| contradiction].
  intros H. now exists a.
Qed.

End MonadFacts.

(** Splits a goal [returning P m] along the structure of [m]. *)
Ltac step_returning :=
  repeat match goal with
         | |- returning _ (ret _) => apply returning_ret
         | |- returning _ (raise _) => apply returning_raise
         | |- returning _ (bind _ _) => apply returning_bind; intros
         | |- returning _ (if ?b then _ else _) => destruct b
         | |- returning _ (match ?x with _ => _ end) => destruct x
         end.

(* ================================================================== *)
(** * Message router: properties *)
(* ================================================================== *)

Section RouterFacts.

Variable json_loads : string -> option json.
Variable title : string -> string.
Variable repr_container : json -> string.

Local Abbreviation route := (handle_message json_loads title repr_container).
Local Abbreviation query := (execute_query json_loads title repr_container).

Variable w : World.
Variable self : SimpleAgentBridge.
Variable msg : Message.

Local Abbreviation cid := (conversation_of w msg).
Local Abbreviation responds := (is_response self msg (conversation_of w msg)).

Lemma response_is_response (text : string) :
  responds (_create_response self msg cid text).
Proof. now exists text. Qed.

Hint Resolve response_is_response : core.

Lemma envelope_responds (user_text : string) :
  returns responds (_handle_incoming_agent_message w self user_text msg cid).
Proof.
  unfold _handle_incoming_agent_message.
  apply returns_try_except.
  - step_returning; auto.
  - intros e. apply returns_ret. auto.
Qed.

Lemma send_to_agent_returns (target text : string) :
  returns (fun _ => True) (_send_to_agent w self target text cid).
Proof.
  unfold _send_to_agent. apply returns_try_except.
  - unfold returning. now destruct (outcome _).
  - intros e. exact I.
Qed.

Lemma agent_message_responds (user_text : string) :
  returns responds (_handle_agent_message w self user_text msg cid).
Proof.
  unfold _handle_agent_message.
  destruct (PyStr.split1 " " user_text) as [|p0 [|p1 l]];
    try (apply returns_ret; auto).
  apply returns_bind; [apply send_to_agent_returns |].
  intros a. apply returns_ret. auto.
Qed.

Lemma command_responds (user_text : string) :
  returns responds (_handle_command self user_text msg cid).
Proof.
  unfold _handle_command.
  repeat match goal with
         | |- returns _ (if ?b then _ else _) => destruct b
         end; apply returns_ret; auto.
Qed.

Lemma mcp_message_responds (user_text : string) :
  returns responds
    (_handle_mcp_message json_loads title repr_container
                         w self user_text msg cid).
Proof.
  unfold _handle_mcp_message.
  destruct (negb (MCP_AVAILABLE w)); [apply returns_ret; auto |].
  apply returns_try_except.
  - step_returning; auto.
  - intros e. apply returns_ret. auto.
Qed.

(** On every path the router returns a reply built by
    [_create_response]. *)
Lemma handle_message_responds : returns responds (route w self msg).
Proof.
  unfold handle_message.
  destruct (content msg) as [user_text |]; [| apply returns_ret; auto].
  destruct (is_envelope user_text); [apply envelope_responds |].
  apply returns_try_except; [| intros e; apply returns_ret; auto].
  destruct (PyStr.startswith "@" user_text).
  { apply returns_returning, agent_message_responds. }
  destruct (PyStr.startswith "#" user_text).
  { apply returns_returning, returns_try_except.
    - apply returns_returning, mcp_message_responds.
    - intros e. apply returns_ret. auto. }
  destruct (PyStr.startswith "/" user_text).
  { apply returns_returning, command_responds. }
  step_returning; auto.
Qed.

(** C10.  Every reply of the router carries a text that begins with the
    tag of the responding agent, [[<agentId>] ]. *)
Theorem reply_starts_with_agent_tag :
  exists reply body,
    outcome (route w self msg) = Ok reply
    /\ reply_text reply = "[" ++ agent_id self ++ "] " ++ body
    /\ PyStr.startswith ("[" ++ agent_id self ++ "] ") (reply_text reply) = true.
Proof.
  destruct (returns_ok _ _ handle_message_responds) as (r & Hr & (text & ->)).
  exists (_create_response self msg cid text), text.
  split; [exact Hr |]. split; [reflexivity |].
  apply PyStrFacts.tag_prefix.
Qed.

End RouterFacts.

Section RouterPaths.

Variable json_loads : string -> option json.
Variable title : string -> string.
Variable repr_container : json -> string.

Local Abbreviation route := (handle_message json_loads title repr_container).

Variable w : World.
Variable self : SimpleAgentBridge.
Variable msg : Message.

Local Abbreviation cid := (conversation_of w msg).

(** C1 (as amended).  An envelope the router recognises (a text that
    starts with [FROM:] and contains [TO:] and [MESSAGE:]) whose message
    body starts with the reply marker is never handed to the agent-logic
    callback: the request causes no event at all.  When the body is
    [Response to <agentId>: <remainder>], with the identifier of the
    receiving agent, the reply text is the remainder behind the tag of
    the sender, itself behind the agent's own tag. *)
Theorem reply_envelope_is_displayed (user_text : string) :
  content msg = TextContent user_text ->
  is_envelope user_text = true ->
  PyStr.startswith "Response to " (envelope_message user_text) = true ->
  events (route w self msg) = []
  /\ filter is_agent_logic (events (route w self msg)) = []
  /\ (forall remainder,
        envelope_message user_text
        = "Response to " ++ agent_id self ++ ": " ++ remainder ->
        exists reply,
          outcome (route w self msg) = Ok reply
          /\ reply_text reply
             = "[" ++ agent_id self ++ "] ["
               ++ envelope_from user_text ++ "] " ++ remainder).
Proof.
  intros Hc He Hm.
  assert (H : route w self msg =
    ([], Ok (_create_response self msg cid
               ("[" ++ envelope_from user_text ++ "] "
                ++ PyStr.slice_from
                     (String.length ("Response to " ++ agent_id self ++ ": "))
                     (envelope_message user_text))))).
  { unfold handle_message. rewrite Hc, He.
    unfold _handle_incoming_agent_message. now rewrite Hm. }
  split; [now rewrite H |]. split; [now rewrite H |].
  intros remainder Hrest. rewrite H. eexists. split; [reflexivity |].
  rewrite Hrest.
  change ("Response to " ++ agent_id self ++ ": " ++ remainder)
    with ("Response to " ++ (agent_id self ++ ": " ++ remainder)).
  rewrite <- (PyStrFacts.append_assoc (agent_id self) ": " remainder).
  rewrite <- (PyStrFacts.append_assoc "Response to " (agent_id self ++ ": ")
                remainder).
  rewrite PyStrFacts.slice_from_append. reflexivity.
Qed.

(** C2 (as amended).  A text that starts with [FROM:] and contains [TO:]
    and [MESSAGE:] is handled by the envelope handler. *)
Theorem envelope_is_routed_to_handler (user_text : string) :
  content msg = TextContent user_text ->
  PyStr.startswith "FROM:" user_text = true ->
  PyStr.contains "TO:" user_text = true ->
  PyStr.contains "MESSAGE:" user_text = true ->
  route w self msg = _handle_incoming_agent_message w self user_text msg cid.
Proof.
  intros Hc Hf Ht Hm. unfold handle_message, is_envelope.
  now rewrite Hc, Hf, Ht, Hm.
Qed.

Lemma lookup_in_registry_returns (id : string) :
  returns (fun _ => True) (lookup_in_registry w self id).
Proof.
  unfold lookup_in_registry.
  destruct (registry_url self) as [url|]; [| exact I].
  destruct (negb (url =? "")); [| exact I].
  apply returns_try_except.
  - unfold returning. now destruct (outcome _).
  - intros e. exact I.
Qed.

Lemma send_to_unresolved_agent (id text c : string) :
  resolved_by_registry w self id = false ->
  resolved_locally id = false ->
  outcome (_send_to_agent w self id text c)
  = Ok ("Agent " ++ id ++ " not found").
Proof.
  unfold resolved_by_registry, resolved_locally. intros Hr Hl.
  pose proof (lookup_in_registry_returns id) as Hret.
  unfold _send_to_agent, _lookup_agent, returns in *.
  destruct (lookup_in_registry w self id) as [t [[v|] | e]];
    simpl in Hr, Hret; [| | contradiction].
  - simpl. now rewrite Hr.
  - simpl. now rewrite Hl.
Qed.

(** C6.  For an outbound message [@id text] whose [id] neither the agent
    registry nor the local table resolves, the reply text is exactly
    [Agent <id> not found] behind the tag of the responding agent. *)
Theorem unresolved_agent_not_found (id body : string) :
  content msg = TextContent ("@" ++ id ++ " " ++ body) ->
  PyStr.contains " " id = false ->
  resolved_by_registry w self id = false ->
  resolved_locally id = false ->
  exists reply,
    outcome (route w self msg) = Ok reply
    /\ reply_text reply = "[" ++ agent_id self ++ "] Agent " ++ id ++ " not found".
Proof.
  intros Hc Hid Hr Hl.
  exists (_create_response self msg cid ("Agent " ++ id ++ " not found")).
  split; [| reflexivity].
  unfold handle_message. rewrite Hc.
  change ("@" ++ id ++ " " ++ body) with (String "@" id ++ String " " body).
  change (is_envelope (String "@" id ++ String " " body)) with false.
  change (PyStr.startswith "@" (String "@" id ++ String " " body))
    with (PyStr.startswith "" (id ++ String " " body)).
  replace (PyStr.startswith "" (id ++ String " " body)) with true
    by now destruct (id ++ String " " body).
  cbv iota. unfold _handle_agent_message.
  rewrite PyStrFacts.split1_append
    by (apply PyStrFacts.contains_char_tag; [reflexivity | exact Hid]).
  change (PyStr.slice_from 1 (String "@" id)) with id.
  pose proof (send_to_unresolved_agent id body cid Hr Hl) as Hs.
  destruct (_send_to_agent w self id body cid) as [t r]. simpl in Hs.
  subst r. reflexivity.
Qed.

(** A failure of the callback on a plain turn becomes the reply. *)
Lemma plain_turn_callback_failure (user_text : string) (e : exn) :
  content msg = TextContent user_text ->
  is_envelope user_text = false ->
  PyStr.startswith "@" user_text = false ->
  PyStr.startswith "#" user_text = false ->
  PyStr.startswith "/" user_text = false ->
  telemetry w = None ->
  agent_logic w user_text cid = Raise e ->
  route w self msg
  = ([AgentLogicCall user_text cid],
     Ok (_create_response self msg cid ("Error: " ++ str_exn e))).
Proof.
  intros Hc He Ha Hm Hs Ht Hl. unfold handle_message.
  rewrite Hc, He, Ha, Hm, Hs. unfold telemetry_received, perform.
  now rewrite Ht, Hl.
Qed.

(** A failure of the callback on an inbound request becomes the reply. *)
Lemma envelope_callback_failure (user_text : string) (e : exn) :
  content msg = TextContent user_text ->
  is_envelope user_text = true ->
  PyStr.startswith "Response to " (envelope_message user_text) = false ->
  telemetry w = None ->
  agent_logic w (envelope_message user_text) cid = Raise e ->
  route w self msg
  = ([AgentLogicCall (envelope_message user_text) cid],
     Ok (_create_response self msg cid
           ("Error processing message from agent: " ++ str_exn e))).
Proof.
  intros Hc He Hm Ht Hl. unfold handle_message. rewrite Hc, He.
  unfold _handle_incoming_agent_message, telemetry_received, perform.
  now rewrite Hm, Ht, Hl.
Qed.

End RouterPaths.

(* ================================================================== *)
(** * Tool queries: properties *)
(* ================================================================== *)

Section ToolQueryFacts.

Variable json_loads : string -> option json.
Variable title : string -> string.
Variable repr_container : json -> string.

Local Abbreviation route := (handle_message json_loads title repr_container).
Local Abbreviation run := (execute_query json_loads title repr_container).
Local Abbreviation parse := (_parse_result json_loads title repr_container).

Variable w : World.

(** Without a key in the environment the Smithery resolution returns
    [None] at once. *)
Lemma smithery_resolution_without_key
      (mcp_url : string) (agent_url : option string)
      (provider server : string) :
  PyStr.lower provider = "smithery" ->
  opt_truthy (getenv_SMITHERY_API_KEY w) = false ->
  MCPRegistry.get_mcp_server_info
    w (MCPRegistry.init w mcp_url agent_url) provider server
  = ([], Ok JNull).
Proof.
  intros Hp Hk. unfold MCPRegistry.get_mcp_server_info. rewrite Hp.
  change ("smithery" =? "smithery") with true. cbv iota.
  unfold MCPRegistry.get_smithery_mcp_server_info_complete.
  assert (Hkey : MCPRegistry.smithery_api_key
                   (MCPRegistry.init w mcp_url agent_url) = "").
  { unfold MCPRegistry.init. simpl. unfold opt_truthy in Hk.
    destruct (getenv_SMITHERY_API_KEY w) as [k|]; [| reflexivity].
    destruct (String.eqb_spec k ""); [assumption | discriminate]. }
  rewrite Hkey. reflexivity.
Qed.

Variable self : SimpleAgentBridge.
Variable msg : Message.

Local Abbreviation cid := (conversation_of w msg).

(** C5 (as amended).  A tool query that names the smithery provider while
    no Smithery API key is configured, neither at the bridge nor in the
    environment, reaches no registry, no tool server and no model
    service; the resolution returns [None], never a URL, and the reply is
    the not-found message of the router (the reason, the missing key, is
    not part of it), or the processing-error message when logging the
    reception to the telemetry sink raises. *)
Theorem smithery_query_without_key (provider server query : string) :
  content msg = TextContent ("#" ++ provider ++ ":" ++ server ++ " " ++ query) ->
  PyStr.contains ":" provider = false ->
  PyStr.contains " " server = false ->
  PyStr.lower provider = "smithery" ->
  opt_truthy (getenv_SMITHERY_API_KEY w) = false ->
  opt_truthy (smithery_api_key self) = false ->
  MCP_AVAILABLE w = true ->
  opt_truthy (mcp_registry_url self) = true ->
  filter is_network (events (route w self msg)) = []
  /\ outcome (route w self msg)
     = Ok (_create_response self msg cid
             match outcome (telemetry_received w (agent_id self) cid) with
             | Ok _ => "❌ MCP server '" ++ server ++ "' not found in "
                       ++ provider ++ " registry"
             | Raise e => "❌ Error processing MCP message: " ++ str_exn e
             end)
  /\ (forall mcp_url,
      MCPRegistry.get_mcp_server_info
        w (MCPRegistry.init w mcp_url (registry_url self)) provider server
      = ([], Ok JNull)).
Proof.
  intros Hc Hp Hs Hl Hk _ Ha Hu.
  assert (Hres : forall mcp_url,
      MCPRegistry.get_mcp_server_info
        w (MCPRegistry.init w mcp_url (registry_url self)) provider server
      = ([], Ok JNull))
    by (intros u; now apply smithery_resolution_without_key).
  remember (route w self msg) as r eqn:Hr.
  unfold handle_message in Hr. rewrite Hc in Hr.
  change ("#" ++ provider ++ ":" ++ server ++ " " ++ query)
    with (String "#" (provider ++ String ":" (server ++ String " " query)))
    in Hr.
  change (is_envelope
            (String "#" (provider ++ String ":" (server ++ String " " query))))
    with false in Hr.
  change (PyStr.startswith "@"
            (String "#" (provider ++ String ":" (server ++ String " " query))))
    with false in Hr.
  change (PyStr.startswith "#"
            (String "#" (provider ++ String ":" (server ++ String " " query))))
    with (PyStr.startswith ""
            (provider ++ String ":" (server ++ String " " query))) in Hr.
  replace (PyStr.startswith ""
             (provider ++ String ":" (server ++ String " " query))) with true
    in Hr
    by now destruct (provider ++ String ":" (server ++ String " " query)).
  cbv iota in Hr. unfold _handle_mcp_message in Hr. rewrite Ha in Hr.
  change (PyStr.contains ":"
            (String "#" (provider ++ String ":" (server ++ String " " query))))
    with (PyStr.contains ":"
            (provider ++ String ":" (server ++ String " " query))) in Hr.
  change (PyStr.slice_from 1
            (String "#" (provider ++ String ":" (server ++ String " " query))))
    with (provider ++ String ":" (server ++ String " " query)) in Hr.
  rewrite (PyStrFacts.contains_char_append ":" provider) in Hr.
  rewrite (PyStrFacts.split1_append ":" provider _ Hp) in Hr.
  unfold Py.unpack2 at 1 in Hr. unfold lift at 1 in Hr.
  rewrite bind_pure in Hr.
  rewrite (PyStrFacts.contains_char_append " " server) in Hr.
  rewrite (PyStrFacts.split1_append " " server query Hs) in Hr.
  unfold Py.unpack2, lift in Hr. rewrite bind_pure in Hr.
  rewrite Hu in Hr. simpl negb in Hr. cbv iota in Hr.
  rewrite (smithery_resolution_without_key _ _ provider server Hl Hk) in Hr.
  rewrite bind_pure in Hr. simpl Py.truthy in Hr. simpl negb in Hr.
  cbv iota in Hr. unfold ret at 1 in Hr. rewrite bind_pure in Hr.
  unfold telemetry_received in *.
  destruct (telemetry w) as [t|].
  - destruct (log_message_received t (agent_id self) cid) as [[] | e];
      subst r; (split; [reflexivity | split; [reflexivity | exact Hres]]).
  - subst r. split; [reflexivity | split; [reflexivity | exact Hres]].
Qed.

(** A response without tool-invocation blocks calls no tool. *)
Lemma tool_round_without_tools (content : list block) (messages : list turn) :
  existsb is_tool_use content = false ->
  tool_round json_loads title repr_container w content messages
  = ([], Ok (false, messages)).
Proof.
  induction content as [|b content IH]; intros H; [reflexivity |].
  simpl in H. apply orb_false_elim in H. destruct H as [Hb Hrest].
  destruct b; try discriminate; simpl; now apply IH.
Qed.

Lemma tool_loop_without_tools
      (script : list (result (list block)))
      (content : list block) (messages : list turn) :
  existsb is_tool_use content = false ->
  tool_loop json_loads title repr_container w script content messages
  = ([], Ok content).
Proof.
  intros H. destruct script; simpl;
    now rewrite (tool_round_without_tools content messages H).
Qed.

Lemma final_response_texts (content : list block) :
  final_response content =
  match text_blocks content with
  | [] => ""
  | texts => PyStr.join PyStr.nl texts ++ PyStr.nl
  end.
Proof.
  induction content as [|b content IH]; [reflexivity |].
  destruct b as [text | |]; simpl; try exact IH.
  rewrite IH. unfold PyStr.join.
  destruct (text_blocks content) as [|t ts].
  - reflexivity.
  - simpl String.concat. now rewrite !PyStrFacts.append_assoc.
Qed.

(** C3 (as amended).  When the tool server is reached, offers a tool, and
    the first model response holds no tool-invocation block, the
    orchestrator makes one model round trip and no tool call; it returns
    the formatter's rendering of the newline-joined text blocks with the
    surrounding whitespace removed (the formatter's error message if it
    raises), and [No response generated] when the response has no text
    block.  For a plain text the rendering is the trimmed text itself. *)
Theorem single_round_without_tool_calls
        (query : string) (server_url : json)
        (tool : Tool) (tools : list Tool)
        (content : list block) (later : list (result (list block))) :
  mcp_connect w server_url = Ok (tool :: tools) ->
  model_script w = Ok content :: later ->
  existsb is_tool_use content = false ->
  events (run w query server_url)
  = [McpConnect server_url; ModelRequest [UserQuery query]]
  /\ outcome (run w query server_url)
     = Ok (match text_blocks content with
           | [] => "No response generated"
           | texts =>
               match parse (PStr (PyStr.strip (PyStr.join PyStr.nl texts))) with
               | Ok text => text
               | Raise e => "❌ MCP error: " ++ str_exn e
               end
           end)
  /\ (text_blocks content <> [] ->
      plain_string json_loads
        (PyStr.strip (PyStr.join PyStr.nl (text_blocks content))) = true ->
      outcome (run w query server_url)
      = Ok (PyStr.strip (PyStr.join PyStr.nl (text_blocks content)))).
Proof.
  intros Hconn Hscript Htools.
  assert (Hrun : run w query server_url =
    ([McpConnect server_url; ModelRequest [UserQuery query]],
     Ok (match text_blocks content with
         | [] => "No response generated"
         | texts =>
             match parse (PStr (PyStr.strip (PyStr.join PyStr.nl texts))) with
             | Ok text => text
             | Raise e => "❌ MCP error: " ++ str_exn e
             end
         end))).
  { unfold execute_query, connect_to_server, messages_create.
    rewrite Hconn, Hscript. simpl tl.
    unfold perform, bind at 1, try_except.
    unfold bind at 1.
    rewrite (tool_loop_without_tools later content [UserQuery query] Htools).
    unfold bind. rewrite final_response_texts.
    destruct (text_blocks content) as [|t ts]; [reflexivity |].
    rewrite PyStrFacts.append_nl_nonempty.
    rewrite (PyStrFacts.strip_space PyStr.nl_char) by reflexivity.
    unfold lift.
    now destruct (parse (PStr (PyStr.strip (PyStr.join PyStr.nl (t :: ts))))). }
  rewrite Hrun. repeat split.
  intros Hne Hplain.
  destruct (text_blocks content) as [|t ts]; [now elim Hne |].
  destruct (format_plain_string json_loads title repr_container _ Hplain)
    as (Hp & _).
  unfold outcome, snd. now rewrite Hp.
Qed.

End ToolQueryFacts.

(* ================================================================== *)
(** * Directory client: the Smithery connection *)
(* ================================================================== *)

(** The loop stops at a stdio connection as soon as it meets one. *)
Lemma find_mcp_connection_stdio_first
      (conn : list (string * json)) (rest : list json) :
  Py.dict_get conn "type" JNull = JStr "stdio" ->
  MCPRegistry.find_mcp_connection (JDict conn :: rest) = Ok (JDict conn).
Proof. intros H. simpl. now rewrite H. Qed.

(** It stops at an http connection that has a deployment URL. *)
Lemma find_mcp_connection_http_first
      (conn : list (string * json)) (rest : list json) :
  Py.dict_get conn "type" JNull = JStr "http" ->
  Py.truthy (Py.dict_get conn "deploymentUrl" JNull) = true ->
  MCPRegistry.find_mcp_connection (JDict conn :: rest) = Ok (JDict conn).
Proof. intros Ht Hu. simpl. now rewrite Ht, Hu. Qed.

(** It passes over a connection of another type. *)
Lemma find_mcp_connection_skip
      (conn : list (string * json)) (rest : list json) :
  Py.eq_str (Py.dict_get conn "type" JNull) "http" = false ->
  Py.eq_str (Py.dict_get conn "type" JNull) "stdio" = false ->
  MCPRegistry.find_mcp_connection (JDict conn :: rest)
  = MCPRegistry.find_mcp_connection rest.
Proof. intros Hh Hs. simpl. now rewrite Hh, Hs. Qed.

(** C4.  The connections of [Sample.stdio_then_http] hold an http-typed
    connection with a deployment URL, listed after a stdio-typed one:
    the resolution returns the URL of the stdio connection, not that of
    the http connection. *)
Theorem smithery_stdio_listed_before_http :
  MCPRegistry.build_smithery_server_url Sample.stdio_then_http
  = JStr "https://server.example/stdio"
  /\ MCPRegistry.build_smithery_server_url Sample.stdio_then_http
     <> JStr "https://server.example/http".
Proof. split; [reflexivity | discriminate]. Qed.

(* ================================================================== *)
(** * The properties on concrete requests *)
(* ================================================================== *)

Example ping_is_answered :
  outcome (Sample.handle Sample.offline Sample.alice
             (Sample.text_message "/ping"))
  = Ok (_create_response Sample.alice (Sample.text_message "/ping")
          "c-1" "Pong!").
Proof. reflexivity. Qed.

Example request_envelope_is_answered :
  Sample.handle Sample.offline Sample.alice
    (Sample.text_message Sample.request_envelope)
  = ([AgentLogicCall "how are you" "c-1"],
     Ok (_create_response Sample.alice
           (Sample.text_message Sample.request_envelope)
           "c-1" "Response to bob: echo: how are you")).
Proof. reflexivity. Qed.

Example seven_items_in_a_mapping :
  Sample.format
    (JDict [("open_ports",
             JList [JInt 1; JInt 2; JInt 3; JInt 4; JInt 5; JInt 6; JInt 7])])
  = PyStr.join PyStr.nl
      ["📋 Open Ports:"; "  • 1"; "  • 2"; "  • 3"; "  • 4"; "  • 5";
       "  ... and 2 more items"].
Proof. reflexivity. Qed.

(** C8, as stated, fails: the list is a value nested inside a mapping and
    has seven items, and all seven are rendered, without an elision
    note. *)
Lemma list_one_level_down_is_whole :
  Sample.format Scenario.list_one_level_down
  = PyStr.join PyStr.nl
      ["📋 Scan:"; "  • Open Ports: [1, 2, 3, 4, 5, 6, 7]"]
  /\ PyStr.contains "more items" (Sample.format Scenario.list_one_level_down)
     = false.
Proof. split; reflexivity. Qed.

Example twelve_items_at_top_level :
  Sample.format (JList (map JInt [1; 2; 3; 4; 5; 6; 7; 8; 9; 10; 11; 12]%Z))
  = PyStr.join PyStr.nl
      ["🔹 Item 1: 1"; "🔹 Item 2: 2"; "🔹 Item 3: 3"; "🔹 Item 4: 4";
       "🔹 Item 5: 5"; "🔹 Item 6: 6"; "🔹 Item 7: 7"; "🔹 Item 8: 8";
       "🔹 Item 9: 9"; "🔹 Item 10: 10"; "... and 2 more items"].
Proof. reflexivity. Qed.

Example one_tool_call_then_stop :
  Sample.execute
    (Sample.with_model [Ok [ToolUseBlock "t1" "get_weather" (JDict [])];
                        Ok [TextBlock "It is sunny"]])
    "weather?" (JStr "https://x/mcp")
  = ([McpConnect (JStr "https://x/mcp");
      ModelRequest [UserQuery "weather?"];
      ToolCall "get_weather" (JDict []);
      ModelRequest [UserQuery "weather?";
                    AssistantToolUse "t1" "get_weather" (JDict []);
                    UserToolResult "t1" "sunny"]],
     Ok "It is sunny").
Proof. reflexivity. Qed.

Lemma format_plain_string_witness :
  plain_string Sample.json_loads "the set {x, y} in plain words" = true
  /\ Sample.parse (PStr "the set {x, y} in plain words")
     = Ok "the set {x, y} in plain words".
Proof.
  split; [reflexivity |].
  apply (format_plain_string Sample.json_loads Sample.title Sample.repr
           "the set {x, y} in plain words").
  reflexivity.
Defined.

Lemma reply_envelope_is_displayed_witness :
  is_envelope Sample.reply_envelope = true
  /\ envelope_message Sample.reply_envelope = "Response to alice: hi"
  /\ events (Sample.handle Sample.offline Sample.alice
               (Sample.text_message Sample.reply_envelope)) = [].
Proof.
  split; [reflexivity |]. split; [reflexivity |].
  apply (reply_envelope_is_displayed
           Sample.json_loads Sample.title Sample.repr
           Sample.offline Sample.alice
           (Sample.text_message Sample.reply_envelope)
           Sample.reply_envelope); reflexivity.
Defined.

(** C1, as stated, fails, in two ways.  A reply that echoes the receiving
    agent is shown behind the agent's own tag, not as [[<senderId>]
    <remainder>]; and a text with the three labels whose body starts with
    the reply marker, but whose first label is not [FROM:], is handled as
    a plain turn: the agent logic is invoked. *)
Lemma reply_behind_own_tag_and_not_recognised :
  (envelope_from Sample.reply_envelope = "bob"
   /\ envelope_message Sample.reply_envelope = "Response to alice: hi"
   /\ outcome (Sample.handle Sample.offline Sample.alice
                 (Sample.text_message Sample.reply_envelope))
      = Ok (_create_response Sample.alice
              (Sample.text_message Sample.reply_envelope) "c-1" "[bob] hi")
   /\ reply_text (_create_response Sample.alice
                    (Sample.text_message Sample.reply_envelope)
                    "c-1" "[bob] hi")
      = "[alice] [bob] hi"
   /\ "[alice] [bob] hi" <> "[bob] hi")
  /\ (has_envelope_labels Scenario.reply_with_to_first = true
      /\ PyStr.startswith "Response to "
           (envelope_message Scenario.reply_with_to_first) = true
      /\ events (Sample.handle Sample.offline Sample.alice
                   (Sample.text_message Scenario.reply_with_to_first))
         = [AgentLogicCall Scenario.reply_with_to_first "c-1"]).
Proof. repeat split; try reflexivity. discriminate. Qed.

(** The display cuts a fixed number of characters, the length of
    [Response to <agentId>: ], whatever follows the marker: a body that
    echoes another identifier loses part of its text. *)
Example reply_marker_with_other_echo :
  is_envelope Sample.stray_reply_envelope = true
  /\ envelope_message Sample.stray_reply_envelope = "Response to al: hello"
  /\ outcome (Sample.handle Sample.offline Sample.alice
                (Sample.text_message Sample.stray_reply_envelope))
     = Ok (_create_response Sample.alice
             (Sample.text_message Sample.stray_reply_envelope)
             "c-1" "[bob] lo").
Proof. repeat split; reflexivity. Qed.

Lemma envelope_is_routed_to_handler_witness :
  PyStr.startswith "FROM:" Sample.request_envelope = true
  /\ Sample.handle Sample.offline Sample.alice
       (Sample.text_message Sample.request_envelope)
     = _handle_incoming_agent_message Sample.offline Sample.alice
         Sample.request_envelope
         (Sample.text_message Sample.request_envelope) "c-1".
Proof.
  split; [reflexivity |].
  apply (envelope_is_routed_to_handler
           Sample.json_loads Sample.title Sample.repr
           Sample.offline Sample.alice
           (Sample.text_message Sample.request_envelope)
           Sample.request_envelope); reflexivity.
Defined.

(** C2, as stated, fails: the text contains the three labels, and it is
    handled as an outbound agent message, not by the envelope handler. *)
Lemma labelled_text_behind_sigil :
  has_envelope_labels Sample.labelled_outbound = true
  /\ Sample.handle Sample.offline Sample.alice
       (Sample.text_message Sample.labelled_outbound)
     = _handle_agent_message Sample.offline Sample.alice
         Sample.labelled_outbound
         (Sample.text_message Sample.labelled_outbound) "c-1"
  /\ Sample.handle Sample.offline Sample.alice
       (Sample.text_message Sample.labelled_outbound)
     <> _handle_incoming_agent_message Sample.offline Sample.alice
          Sample.labelled_outbound
          (Sample.text_message Sample.labelled_outbound) "c-1".
Proof.
  repeat split; try reflexivity.
  intros H. vm_compute in H. discriminate H.
Qed.

Lemma single_round_without_tool_calls_witness :
  existsb is_tool_use [TextBlock "The answer is 4."; TextBlock "Bye."] = false
  /\ events (Sample.execute
               (Sample.with_model
                  [Ok [TextBlock "The answer is 4."; TextBlock "Bye."]])
               "what is 2 + 2" (JStr "https://x/mcp"))
     = [McpConnect (JStr "https://x/mcp");
        ModelRequest [UserQuery "what is 2 + 2"]].
Proof.
  split; [reflexivity |].
  apply (single_round_without_tool_calls
           Sample.json_loads Sample.title Sample.repr
           (Sample.with_model
              [Ok [TextBlock "The answer is 4."; TextBlock "Bye."]])
           "what is 2 + 2" (JStr "https://x/mcp")
           {| tool_name := "get_weather";
              tool_description := JStr "current weather of a city";
              tool_inputSchema := JDict [("type", JStr "object")] |} []
           [TextBlock "The answer is 4."; TextBlock "Bye."] []);
    reflexivity.
Defined.

(** C3, as stated, fails: the first response holds no tool-invocation
    block, and what is returned is not the newline-joined text of its
    text blocks, neither when there is no text block nor when the text
    is a JSON document. *)
Lemma tool_free_response_is_not_returned_verbatim :
  (outcome (Sample.execute (Sample.with_model [Ok [OtherBlock "thinking"]])
              "q" (JStr "https://x/mcp"))
   = Ok "No response generated"
   /\ PyStr.join PyStr.nl (text_blocks [OtherBlock "thinking"]) = "")
  /\ (outcome (Sample.execute
                 (Sample.with_model [Ok [TextBlock Sample.weather_json]])
                 "q" (JStr "https://x/mcp"))
      = Ok "🔹 Temp C: 21"
      /\ PyStr.join PyStr.nl (text_blocks [TextBlock Sample.weather_json])
         = Sample.weather_json).
Proof. repeat split; reflexivity. Qed.

Lemma smithery_query_without_key_witness :
  opt_truthy (getenv_SMITHERY_API_KEY Sample.offline) = false
  /\ opt_truthy (smithery_api_key Sample.alice) = false
  /\ filter is_network
       (events (Sample.handle Sample.offline Sample.alice
                  (Sample.text_message "#smithery:foo query"))) = [].
Proof.
  split; [reflexivity |]. split; [reflexivity |].
  apply (smithery_query_without_key
           Sample.json_loads Sample.title Sample.repr
           Sample.offline Sample.alice
           (Sample.text_message "#smithery:foo query")
           "smithery" "foo" "query"); reflexivity.
Defined.

(** C5, as stated, fails: no Smithery API key is configured, and the
    reply is the not-found message; it does not mention the key. *)
Lemma smithery_without_key_replies_not_found :
  getenv_SMITHERY_API_KEY Sample.offline = None
  /\ smithery_api_key Sample.alice = None
  /\ outcome (Sample.handle Sample.offline Sample.alice
                (Sample.text_message "#smithery:foo query"))
     = Ok (_create_response Sample.alice
             (Sample.text_message "#smithery:foo query") "c-1"
             "❌ MCP server 'foo' not found in smithery registry")
  /\ PyStr.contains "key"
       (PyStr.lower "[alice] ❌ MCP server 'foo' not found in smithery registry")
     = false.
Proof. repeat split; reflexivity. Qed.

Lemma unresolved_agent_not_found_witness :
  resolved_by_registry Sample.offline Sample.alice "bob" = false
  /\ resolved_locally "bob" = false
  /\ exists reply,
       outcome (Sample.handle Sample.offline Sample.alice
                  (Sample.text_message "@bob hello")) = Ok reply
       /\ reply_text reply = "[alice] Agent bob not found".
Proof.
  split; [reflexivity |]. split; [reflexivity |].
  apply (unresolved_agent_not_found
           Sample.json_loads Sample.title Sample.repr
           Sample.offline Sample.alice (Sample.text_message "@bob hello")
           "bob" "hello"); reflexivity.
Defined.

(* ================================================================== *)
(** * Computations: traces *)
(* ================================================================== *)

Section TraceFacts.

Context {A B : Type}.

Lemma bind_ok (t : list event) (a : A) (f : A -> M B) :
  bind (t, Ok a) f = ((t ++ events (f a))%list, outcome (f a)).
Proof. unfold bind, events, outcome. now destruct (f a). Qed.

Lemma try_except_returns (m : M A) (h : exn -> M A) :
  returns (fun _ => True) m -> try_except m h = m.
Proof. destruct m as [t [a | e]]; [reflexivity | contradiction]. Qed.

Lemma returns_any (P : A -> Prop) (m : M A) :
  returns P m -> returns (fun _ => True) m.
Proof. unfold returns. now destruct (outcome m). Qed.

Lemma never_ret (p : event -> bool) (a : A) : never p (ret a).
Proof. constructor. Qed.

Lemma never_raise (p : event -> bool) (e : exn) : never p (@raise A e).
Proof. constructor. Qed.

Lemma never_lift (p : event -> bool) (r : result A) : never p (lift r).
Proof. constructor. Qed.

Lemma never_perform (p : event -> bool) (ev : event) (r : result A) :
  p ev = false -> never p (perform ev r).
Proof. intros H. constructor; [exact H | constructor]. Qed.

Lemma never_bind (p : event -> bool) (m : M A) (f : A -> M B) :
  never p m -> (forall a, never p (f a)) -> never p (bind m f).
Proof.
  intros Hm Hf. destruct m as [t [a | e]]; [| exact Hm].
  specialize (Hf a). unfold never, events, bind in *.
  destruct (f a) as [t' r]. simpl in *. apply Forall_app. now split.
Qed.

Lemma never_try_except (p : event -> bool) (m : M A) (h : exn -> M A) :
  never p m -> (forall e, never p (h e)) -> never p (try_except m h).
Proof.
  intros Hm Hh. destruct m as [t [a | e]]; [exact Hm |].
  specialize (Hh e). unfold never, events, try_except in *.
  destruct (h e) as [t' r]. simpl in *. apply Forall_app. now split.
Qed.

End TraceFacts.

(** Splits a goal [never p m] along the structure of [m]. *)
Ltac step_never :=
  repeat match goal with
         | |- never _ (ret _) => apply never_ret
         | |- never _ (raise _) => apply never_raise
         | |- never _ (lift _) => apply never_lift
         | |- never _ (perform _ _) => apply never_perform; try reflexivity
         | |- never _ (bind _ _) => apply never_bind; intros
         | |- never _ (try_except _ _) => apply never_try_except; intros
         | |- never _ (if ?b then _ else _) => destruct b
         | |- never _ (let (_, _) := ?x in _) => destruct x
         | |- never _ (match ?x with _ => _ end) => destruct x
         end.

Section FailingCall.

Variable w : World.
Context {A B : Type}.

Lemma stops_lift (r : result A) : stops_at_failing_call w (lift r).
Proof. intros pre name input post e H. now destruct pre. Qed.

Lemma stops_ret (a : A) : stops_at_failing_call w (ret a).
Proof. intros pre name input post e H. now destruct pre. Qed.

Lemma stops_call (name : string) (input : json) :
  stops_at_failing_call w
    (perform (ToolCall name input) (session_call_tool w name input)).
Proof.
  intros pre n i post e H He. unfold perform, events in H. simpl in H.
  destruct pre as [|x [|y pre]]; try discriminate H.
  injection H as -> -> <-. split; [reflexivity | exact He].
Qed.

Lemma stops_other (ev : event) (r : result A) :
  is_tool_call ev = false -> stops_at_failing_call w (perform ev r).
Proof.
  intros Hev pre n i post e H. unfold perform, events in H. simpl in H.
  destruct pre as [|x [|y pre]]; try discriminate H.
  injection H as -> _. discriminate Hev.
Qed.

Lemma stops_bind (m : M A) (f : A -> M B) :
  stops_at_failing_call w m -> (forall a, stops_at_failing_call w (f a)) ->
  stops_at_failing_call w (bind m f).
Proof.
  intros Hm Hf. destruct m as [t [a | e0]].
  2:{ intros pre n i post e H He.
      destruct (Hm pre n i post e H He) as [Hp Ho]. split; [exact Hp |].
      unfold outcome in *. simpl in *. congruence. }
  specialize (Hf a). intros pre n i post e H He.
  unfold bind in *. destruct (f a) as [t' r] eqn:E.
  unfold events, outcome in *. simpl in *.
  apply app_eq_app in H. destruct H as (l & [[Ht Hp] | [Hp Ht]]).
  - destruct l as [|x l].
    + simpl in Hp. rewrite app_nil_r in Ht. subst t.
      apply (Hf [] n i post e); [now rewrite <- Hp | exact He].
    + injection Hp as <- ->.
      destruct (Hm pre n i l e Ht He) as [_ Hbad]. discriminate Hbad.
  - apply (Hf l n i post e Ht He).
Qed.

(** Under [try: m  except Exception as e: return h e], the failing call
    is still the last event, and what is returned is [h] of its
    exception. *)
Lemma stops_try_except (m : M A) (h : exn -> A) :
  stops_at_failing_call w m ->
  forall pre name input post e,
    events (try_except m (fun x => ret (h x)))
    = (pre ++ ToolCall name input :: post)%list ->
    session_call_tool w name input = Raise e ->
    post = [] /\ outcome (try_except m (fun x => ret (h x))) = Ok (h e).
Proof.
  intros Hm pre n i post e H He. destruct m as [t [a | e0]].
  - destruct (Hm pre n i post e H He) as [_ Hbad]. discriminate Hbad.
  - unfold try_except, ret, events, outcome in *. simpl in *.
    rewrite app_nil_r in H.
    destruct (Hm pre n i post e H He) as [Hp Ho]. split; [exact Hp |].
    simpl in Ho. congruence.
Qed.

End FailingCall.

(* ================================================================== *)
(** * Tool orchestrator: further properties *)
(* ================================================================== *)

Section OrchestratorFacts.

Variable json_loads : string -> option json.
Variable title : string -> string.
Variable repr_container : json -> string.

Local Abbreviation run := (execute_query json_loads title repr_container).
Local Abbreviation parse := (_parse_result json_loads title repr_container).
Local Abbreviation round := (tool_round json_loads title repr_container).
Local Abbreviation loop := (tool_loop json_loads title repr_container).

Variable w : World.

Lemma execute_query_returns (query : string) (server_url : json) :
  returns (fun _ => True) (run w query server_url).
Proof.
  unfold execute_query. apply returns_try_except.
  - unfold returning. now destruct (outcome _).
  - intros e. exact I.
Qed.

(** X1.  [execute_query] never raises: whatever the tool server, a tool
    call, the model service or the formatter raises, it returns a text. *)
Theorem execute_query_never_raises (query : string) (server_url : json) :
  exists text, outcome (run w query server_url) = Ok text.
Proof.
  destruct (returns_ok _ _ (execute_query_returns query server_url))
    as (text & Ht & _).
  now exists text.
Qed.

(** X2.  When the session cannot be opened, or the server offers no
    tool, [execute_query] returns the connection-failure text after the
    one connection attempt; the model service is not asked. *)
Theorem execute_query_without_tools (query : string) (server_url : json) :
  match mcp_connect w server_url with
  | Ok (_ :: _) => false
  | _ => true
  end = true ->
  run w query server_url
  = ([McpConnect server_url],
     Ok "❌ Failed to connect to MCP server. Check server URL and authentication.").
Proof.
  intros H. unfold execute_query, connect_to_server.
  destruct (mcp_connect w server_url) as [[|tool tools] | e];
    [reflexivity | discriminate H | reflexivity].
Qed.

(** When the first request to the model service raises, the query ends
    there: one connection, one model request, and the error text. *)
Lemma execute_query_model_failure
        (query : string) (server_url : json) (tool : Tool) (tools : list Tool)
        (e : exn) (later : list (result (list block))) :
  mcp_connect w server_url = Ok (tool :: tools) ->
  model_script w = Raise e :: later ->
  run w query server_url
  = ([McpConnect server_url; ModelRequest [UserQuery query]],
     Ok ("❌ MCP error: " ++ str_exn e)).
Proof.
  intros Hc Hs. unfold execute_query, connect_to_server, messages_create.
  now rewrite Hc, Hs.
Qed.

Lemma tool_round_when_tools_succeed
      (content : list block) (messages : list turn) :
  tools_succeed w content = true ->
  round w content messages
  = (tool_calls content,
     Ok (existsb is_tool_use content,
         (messages ++ tool_turns w content)%list)).
Proof.
  revert messages. induction content as [|b content IH]; intros messages H.
  - simpl. now rewrite app_nil_r.
  - destruct b as [text | id name input | ty]; simpl in H |- *;
      try (now apply IH).
    apply andb_prop in H. destruct H as [Hcall Hrest].
    destruct (session_call_tool w name input) as [r | e]; [| discriminate].
    rewrite (IH _ Hrest). simpl. now rewrite <- app_assoc, app_nil_r.
Qed.

(** X3.  One round of tool use: when every tool call of the response
    succeeds, the tools are called in the order of the blocks, and the
    transcript grows by each invocation followed by its result, in the
    same order. *)
Theorem tool_round_transcript (content : list block) (messages : list turn) :
  tools_succeed w content = true ->
  round w content messages
  = (tool_calls content,
     Ok (existsb is_tool_use content,
         (messages ++ tool_turns w content)%list)).
Proof. apply tool_round_when_tools_succeed. Qed.

(** A tool call that raises ends the round at once: the calls before it
    were made, the ones after it are not, and the exception leaves the
    round. *)
Lemma tool_round_failure
        (before after : list block) (id name : string) (input : json)
        (e : exn) (messages : list turn) :
  tools_succeed w before = true ->
  session_call_tool w name input = Raise e ->
  round w (before ++ ToolUseBlock id name input :: after) messages
  = ((tool_calls before ++ [ToolCall name input])%list, Raise e).
Proof.
  intros Hb He. revert messages.
  induction before as [|b before IH]; intros messages.
  - simpl. unfold perform. now rewrite He.
  - destruct b as [text | id' name' input' | ty]; simpl in Hb |- *;
      try (now apply IH).
    apply andb_prop in Hb. destruct Hb as [Hcall Hrest].
    destruct (session_call_tool w name' input') as [r | e']; [| discriminate].
    rewrite (IH Hrest). reflexivity.
Qed.

Lemma existsb_tool_calls (content : list block) :
  existsb is_tool_use content = false -> tool_calls content = [].
Proof.
  induction content as [|b content IH]; [reflexivity |].
  simpl. intros H. apply orb_false_elim in H. destruct H as [Hb Hrest].
  destruct b; try discriminate; now apply IH.
Qed.

(** X4.  Progress of the tool loop: when the first response asks for
    tools that all succeed and the second asks for none, the orchestrator
    makes two model round trips with the tool calls of the first response
    between them; the second request carries the query followed by each
    invocation and its result, and the answer is built from the second
    response alone. *)
Theorem two_rounds_with_tool_calls
        (query : string) (server_url : json) (tool : Tool) (tools : list Tool)
        (first second : list block) (later : list (result (list block))) :
  mcp_connect w server_url = Ok (tool :: tools) ->
  model_script w = Ok first :: Ok second :: later ->
  existsb is_tool_use first = true ->
  tools_succeed w first = true ->
  existsb is_tool_use second = false ->
  events (run w query server_url)
  = (McpConnect server_url
       :: ModelRequest [UserQuery query]
       :: tool_calls first
       ++ [ModelRequest (UserQuery query :: tool_turns w first)])%list
  /\ outcome (run w query server_url)
     = Ok (if final_response second =? "" then "No response generated"
           else match parse (PStr (PyStr.strip (final_response second))) with
                | Ok text => text
                | Raise e => "❌ MCP error: " ++ str_exn e
                end).
Proof.
  intros Hc Hs H1 Ht H2.
  assert (Hrun : run w query server_url =
    ((McpConnect server_url
       :: ModelRequest [UserQuery query]
       :: tool_calls first
       ++ [ModelRequest (UserQuery query :: tool_turns w first)])%list,
     Ok (if final_response second =? "" then "No response generated"
         else match parse (PStr (PyStr.strip (final_response second))) with
              | Ok text => text
              | Raise e => "❌ MCP error: " ++ str_exn e
              end))).
  { assert (Hloop : loop w (Ok second :: later) first [UserQuery query]
                    = ((tool_calls first
                        ++ [ModelRequest (UserQuery query
                                            :: tool_turns w first)])%list,
                       Ok second)).
    { simpl tool_loop.
      rewrite (tool_round_when_tools_succeed first [UserQuery query] Ht), H1.
      unfold bind, messages_create, perform. cbv iota beta. simpl fst.
      simpl snd. now rewrite (tool_loop_without_tools json_loads title repr_container
                     w later second _ H2). }
    unfold execute_query, connect_to_server, messages_create.
    rewrite Hc, Hs. simpl tl.
    unfold perform, bind, try_except, ret, lift. cbv beta iota.
    rewrite Hloop. cbv beta iota.
    destruct (final_response second =? "").
    - simpl. now rewrite !app_nil_r.
    - destruct (parse (PStr (PyStr.strip (final_response second))));
        simpl; now rewrite !app_nil_r. }
  now rewrite Hrun.
Qed.

(** A tool call of the first response that raises ends the query: the
    calls before it were made, the model service is not asked again, and
    the answer is the error text of the exception. *)
Lemma execute_query_tool_failure
        (query : string) (server_url : json) (tool : Tool) (tools : list Tool)
        (before after : list block) (id name : string) (input : json)
        (e : exn) (later : list (result (list block))) :
  mcp_connect w server_url = Ok (tool :: tools) ->
  model_script w
  = Ok (before ++ ToolUseBlock id name input :: after)%list :: later ->
  tools_succeed w before = true ->
  session_call_tool w name input = Raise e ->
  run w query server_url
  = ((McpConnect server_url
        :: ModelRequest [UserQuery query]
        :: tool_calls before ++ [ToolCall name input])%list,
     Ok ("❌ MCP error: " ++ str_exn e)).
Proof.
  intros Hc Hs Hb He.
  assert (Hloop : loop w later (before ++ ToolUseBlock id name input :: after)
                       [UserQuery query]
                  = ((tool_calls before ++ [ToolCall name input])%list,
                     Raise e)).
  { destruct later; simpl;
      now rewrite (tool_round_failure before after id name input e _ Hb He). }
  unfold execute_query, connect_to_server, messages_create.
  rewrite Hc, Hs. simpl tl.
  unfold perform, bind, try_except, ret. cbv beta iota.
  rewrite Hloop. simpl. now rewrite !app_nil_r.
Qed.

Lemma stops_tool_round (content : list block) (messages : list turn) :
  stops_at_failing_call w (round w content messages).
Proof.
  revert messages. induction content as [|b content IH]; intros messages.
  - apply stops_ret.
  - destruct b as [text | id name input | ty]; cbn [tool_round];
      try apply IH.
    apply stops_bind; [apply stops_call | intros r].
    apply stops_bind; [apply stops_lift | intros p].
    apply stops_bind; [apply IH | intros x]. apply stops_ret.
Qed.

Lemma stops_tool_loop (script : list (result (list block)))
      (content : list block) (messages : list turn) :
  stops_at_failing_call w (loop w script content messages).
Proof.
  revert content messages.
  induction script as [|r script IH]; intros content messages;
    cbn [tool_loop].
  - apply stops_bind; [apply stops_tool_round | intros x].
    destruct (fst x); [| apply stops_ret].
    unfold messages_create. apply stops_other. reflexivity.
  - apply stops_bind; [apply stops_tool_round | intros x].
    destruct (fst x); [| apply stops_ret].
    apply stops_bind;
      [unfold messages_create; apply stops_other; reflexivity |].
    intros c. apply IH.
Qed.

(** X5.  A tool call that raises, in whichever round of the tool loop,
    ends the whole query: it is the last thing the query does (no later
    tool is called, the model service is not asked again), and the answer
    is the error text of its exception. *)
Theorem failing_tool_call_ends_query
        (query : string) (server_url : json) (pre post : list event)
        (name : string) (input : json) (e : exn) :
  events (run w query server_url)
  = (pre ++ ToolCall name input :: post)%list ->
  session_call_tool w name input = Raise e ->
  post = []
  /\ outcome (run w query server_url) = Ok ("❌ MCP error: " ++ str_exn e).
Proof.
  unfold execute_query.
  apply (stops_try_except w _ (fun e => "❌ MCP error: " ++ str_exn e)).
  apply stops_bind.
  - unfold connect_to_server. apply stops_other. reflexivity.
  - intros [[|tool tools] |]; try apply stops_ret.
    apply stops_bind;
      [unfold messages_create; apply stops_other; reflexivity |].
    intros c. apply stops_bind; [apply stops_tool_loop | intros l].
    destruct (_ =? _); [apply stops_ret | apply stops_lift].
Qed.

End OrchestratorFacts.

(* ================================================================== *)
(** * Response formatter: further properties *)
(* ================================================================== *)

Section FormatterMore.

Variable json_loads : string -> option json.
Variable title : string -> string.
Variable repr_container : json -> string.

Local Abbreviation format := (_format_json_response json_loads title repr_container).
Local Abbreviation parse := (_parse_result json_loads title repr_container).
Local Abbreviation extract :=
  (_extract_and_format_json json_loads title repr_container).

Lemma contains_char_uncons (c a : ascii) (s : string) :
  PyStr.contains (String c "") (String a s) = false ->
  Ascii.eqb a c = false /\ PyStr.contains (String c "") s = false.
Proof. apply PyStrFacts.contains_char_cons. Qed.

Lemma through_last_close_none (s : string) :
  PyStr.contains "}" s = false -> through_last_close s = None.
Proof.
  induction s as [|c s IH]; intros H; [reflexivity |].
  apply contains_char_uncons in H. destruct H as [Hc Hs].
  simpl. now rewrite (IH Hs), Hc.
Qed.

Lemma through_last_close_last (mid post : string) :
  PyStr.contains "}" post = false ->
  through_last_close (mid ++ String "}" post) = Some (mid ++ "}").
Proof.
  intros H. induction mid as [|c mid IH]; simpl.
  - now rewrite (through_last_close_none post H).
  - now rewrite IH.
Qed.

Lemma re_search_braces_skip (pre s : string) :
  PyStr.contains "{" pre = false ->
  re_search_braces (pre ++ s) = re_search_braces s.
Proof.
  induction pre as [|c pre IH]; intros H; [reflexivity |].
  apply contains_char_uncons in H. destruct H as [Hc Hs].
  simpl. now rewrite Hc, (IH Hs).
Qed.

Lemma re_search_braces_none (text : string) :
  PyStr.contains "{" text && PyStr.contains "}" text = false ->
  re_search_braces text = None.
Proof.
  intros H. apply andb_false_iff in H. destruct H as [H | H].
  - rewrite <- (PyStrFacts.append_nil_r text).
    now rewrite (re_search_braces_skip text "" H).
  - induction text as [|c s IH]; [reflexivity |].
    apply contains_char_uncons in H. destruct H as [_ Hs].
    simpl. rewrite (through_last_close_none s Hs), (IH Hs).
    now destruct (Ascii.eqb c "{").
Qed.

(** X6.  The extraction takes the span from the first opening brace to
    the last closing brace.  When that span decodes, the answer is its
    rendering and the text around it is dropped; when it does not, the
    text is returned unchanged. *)
Theorem extract_spans_first_to_last_brace (pre mid post : string) :
  PyStr.contains "{" pre = false ->
  PyStr.contains "}" post = false ->
  extract (pre ++ "{" ++ mid ++ "}" ++ post)
  = match json_loads ("{" ++ mid ++ "}") with
    | Some data => format data
    | None => pre ++ "{" ++ mid ++ "}" ++ post
    end.
Proof.
  intros Hpre Hpost. unfold _extract_and_format_json.
  rewrite (re_search_braces_skip pre _ Hpre).
  change ("{" ++ mid ++ "}" ++ post) with (String "{" (mid ++ String "}" post)).
  simpl re_search_braces.
  now rewrite (through_last_close_last mid post Hpost).
Qed.

(** A text that lacks an opening or a closing brace is returned
    unchanged by the extraction, whatever [json.loads] would say. *)
Lemma extract_without_braces (text : string) :
  PyStr.contains "{" text && PyStr.contains "}" text = false ->
  extract text = text.
Proof.
  intros H. unfold _extract_and_format_json.
  now rewrite (re_search_braces_none text H).
Qed.

(** X7.  A text that decodes to a JSON value other than an object (an
    array, a number, a string, a boolean, null) is returned as it is by
    [_parse_result]; it is not rendered. *)
Theorem parse_leaves_non_object_json (s : string) (v : json) :
  json_loads s = Some v ->
  not_dict v = true ->
  parse (PStr s) = Ok s.
Proof.
  intros Hs Hv. simpl. rewrite Hs. now destruct v.
Qed.

(** X8.  The JSON-RPC form [{"result": {"artifacts": [{"parts":
    [{"text": T}, ...]}, ...]}}] is unwrapped: the answer is the
    rendering of the text of the first part of the first artifact (the
    empty string when the part has no text). *)
Theorem parse_unwraps_rpc_result
        (s : string) (d r a p : list (string * json))
        (artifacts parts : list json) :
  json_loads s = Some (JDict d) ->
  Py.lookup d "result" = Some (JDict r) ->
  Py.dict_get r "artifacts" (JList []) = JList (JDict a :: artifacts) ->
  Py.dict_get a "parts" (JList []) = JList (JDict p :: parts) ->
  parse (PStr s) = Ok (format (Py.dict_get p "text" (JStr ""))).
Proof.
  intros Hs Hr Ha Hp.
  assert (Hres : Py.dict_get d "result" JNull = JDict r)
    by (unfold Py.dict_get; now rewrite Hr).
  assert (Hrpc : parse_rpc_result json_loads title repr_container d
                 = Ok (Some (format (Py.dict_get p "text" (JStr ""))))).
  { unfold parse_rpc_result. rewrite Hres.
    cbn [Py.get rbind]. rewrite Ha.
    cbn [Py.and_len_positive Py.truthy Py.index0 Py.get rbind].
    rewrite Hp. reflexivity. }
  unfold _parse_result. rewrite Hs. unfold Py.dict_has. rewrite Hr, Hrpc.
  reflexivity.
Qed.

(** X9.  When the decoded object has a [result] entry that is not an
    object, [_parse_result] raises the [AttributeError] of the failed
    [get]: the formatter is not total. *)
Theorem parse_raises_on_non_object_result
        (s : string) (d : list (string * json)) (v : json) :
  json_loads s = Some (JDict d) ->
  Py.lookup d "result" = Some v ->
  not_dict v = true ->
  parse (PStr s) = Raise (Py.AttributeError v "get").
Proof.
  intros Hs Hr Hv. unfold _parse_result. rewrite Hs.
  unfold Py.dict_has, parse_rpc_result, Py.dict_get. rewrite Hr.
  now destruct v.
Qed.

End FormatterMore.

(* ================================================================== *)
(** * Directory client: further properties *)
(* ================================================================== *)

Section DirectoryFacts.

Variable w : World.

(** When the exchange raises, the status is not 200, or the body is not
    a JSON object, the server is absent. *)
Lemma nanda_resolution_absent (self : MCPRegistry.t) (server_name : string) :
  answers_object
    (http_get w (MCPRegistry.mcp_registry_url self
                 ++ "/mcp_servers/" ++ server_name)) = None ->
  MCPRegistry.get_nanda_mcp_server_info w self server_name
  = ([HttpGet (MCPRegistry.mcp_registry_url self
               ++ "/mcp_servers/" ++ server_name)],
     Ok JNull).
Proof.
  unfold answers_object, MCPRegistry.get_nanda_mcp_server_info, requests_get,
    perform.
  destruct (http_get w _) as [response | e]; [| reflexivity].
  rewrite bind_ok.
  destruct (status_code response =? 200)%Z; [| reflexivity].
  destruct (body_json response) as [[| | | | |d] | e]; try discriminate;
    reflexivity.
Qed.


(** X10.  NANDA resolution asks the registry once, at
    [<registry>/mcp_servers/<name>], and never raises.  When the exchange
    raises, the status is not 200 or the body is not a JSON object, the
    server is absent; otherwise the descriptor carries the [server_url]
    of the answer, or its [endpoint] when [server_url] is missing or
    empty, with the configuration, the description and the raw answer. *)
Theorem nanda_resolution (self : MCPRegistry.t) (server_name : string) :
  MCPRegistry.get_nanda_mcp_server_info w self server_name
  = ([HttpGet (MCPRegistry.mcp_registry_url self
               ++ "/mcp_servers/" ++ server_name)],
     Ok match answers_object
                (http_get w (MCPRegistry.mcp_registry_url self
                             ++ "/mcp_servers/" ++ server_name)) with
        | Some d =>
            JDict [("server_name", JStr server_name);
                   ("server_url",
                    Py.or_else (Py.dict_get d "server_url" JNull)
                               (Py.dict_get d "endpoint" JNull));
                   ("registry_provider", JStr "nanda");
                   ("config", Py.dict_get d "config" (JDict []));
                   ("description", Py.dict_get d "description" (JStr ""));
                   ("raw_data", JDict d)]
        | None => JNull
        end).
Proof.
  destruct (answers_object _) as [d|] eqn:Hans;
    [| now apply nanda_resolution_absent].
  unfold answers_object in Hans.
  unfold MCPRegistry.get_nanda_mcp_server_info, requests_get, perform.
  destruct (http_get w _) as [response | e]; [| discriminate].
  destruct (status_code response =? 200)%Z eqn:Hst; [| discriminate].
  destruct (body_json response) as [[| | | | |d'] | e] eqn:Hb;
    try discriminate.
  injection Hans as ->.
  unfold bind, try_except, lift, ret, Py.or_else. cbv beta iota.
  rewrite Hst, Hb. cbn [Py.get].
  now destruct (Py.truthy (Py.dict_get d "server_url" JNull)).
Qed.

Lemma find_mcp_connection_passed_over (skipped rest : list json) :
  forallb passed_over skipped = true ->
  MCPRegistry.find_mcp_connection (skipped ++ rest)
  = MCPRegistry.find_mcp_connection rest.
Proof.
  induction skipped as [|conn skipped IH]; intros H; [reflexivity |].
  simpl in H. apply andb_prop in H. destruct H as [Hc Hs].
  destruct conn as [| | | | |c]; try discriminate.
  unfold passed_over in Hc. apply andb_prop in Hc. destruct Hc as [Hstdio Hhttp].
  apply negb_true_iff in Hstdio. apply negb_true_iff in Hhttp.
  simpl. rewrite Hstdio.
  destruct (Py.eq_str (Py.dict_get c "type" JNull) "http");
    simpl in Hhttp |- *; [rewrite Hhttp |]; now apply IH.
Qed.

Lemma find_mcp_connection_stops (c : list (string * json)) (rest : list json) :
  passed_over (JDict c) = false ->
  MCPRegistry.find_mcp_connection (JDict c :: rest) = Ok (JDict c).
Proof.
  unfold passed_over. intros H. simpl.
  destruct (Py.eq_str (Py.dict_get c "type" JNull) "http"); simpl in H |- *.
  - destruct (Py.truthy (Py.dict_get c "deploymentUrl" JNull));
      [reflexivity |].
    simpl in H. rewrite andb_true_r in H. apply negb_false_iff in H.
    now rewrite H.
  - rewrite andb_true_r in H. apply negb_false_iff in H. now rewrite H.
Qed.

(** Without a top-level deployment URL (or when the record is not an
    object) no Smithery URL is built, whatever the connections carry. *)
Lemma smithery_url_needs_top_level (server_info : json) :
  match server_info with
  | JDict d => negb (Py.truthy (Py.dict_get d "deploymentUrl" JNull))
  | _ => true
  end = true ->
  MCPRegistry.build_smithery_server_url server_info = JNull.
Proof.
  intros H. unfold MCPRegistry.build_smithery_server_url,
              MCPRegistry.build_smithery_server_url_body.
  destruct server_info as [| | | | |d]; try reflexivity.
  simpl. now rewrite H.
Qed.

(** X11.  With a top-level deployment URL, the connection that decides
    is the first one that is of type stdio or of type http with a
    deployment URL; every object before it is passed over.  The URL built
    is the deployment URL of that connection, or the top-level one when
    the connection has none. *)
Theorem smithery_url_of_first_usable_connection
        (d c : list (string * json)) (skipped rest : list json) :
  Py.truthy (Py.dict_get d "deploymentUrl" JNull) = true ->
  Py.dict_get d "connections" (JList [])
  = JList (skipped ++ JDict c :: rest) ->
  forallb passed_over skipped = true ->
  passed_over (JDict c) = false ->
  MCPRegistry.build_smithery_server_url (JDict d)
  = Py.or_else (Py.dict_get c "deploymentUrl" JNull)
               (Py.dict_get d "deploymentUrl" JNull).
Proof.
  intros Htop Hconn Hskip Hc.
  unfold MCPRegistry.build_smithery_server_url,
    MCPRegistry.build_smithery_server_url_body.
  simpl Py.get. unfold rbind at 1 2. rewrite Htop, Hconn. simpl negb.
  cbv iota. simpl Py.iter. unfold rbind at 1.
  rewrite (find_mcp_connection_passed_over skipped _ Hskip).
  rewrite (find_mcp_connection_stops c rest Hc).
  unfold rbind at 1.
  assert (Hne : Py.truthy (JDict c) = true).
  { destruct c as [|kv c]; [| reflexivity].
    unfold passed_over in Hc. discriminate Hc. }
  rewrite Hne. simpl Py.get. unfold rbind, Py.or_else.
  now destruct (Py.truthy (Py.dict_get c "deploymentUrl" JNull)).
Qed.

(** X12.  When every connection is passed over (none is stdio, none is
    http with a deployment URL), the top-level deployment URL is used. *)
Theorem smithery_url_falls_back_to_top_level
        (d : list (string * json)) (connections : list json) :
  Py.truthy (Py.dict_get d "deploymentUrl" JNull) = true ->
  Py.dict_get d "connections" (JList []) = JList connections ->
  forallb passed_over connections = true ->
  MCPRegistry.build_smithery_server_url (JDict d)
  = Py.dict_get d "deploymentUrl" JNull.
Proof.
  intros Htop Hconn Hskip.
  unfold MCPRegistry.build_smithery_server_url,
    MCPRegistry.build_smithery_server_url_body.
  simpl Py.get. unfold rbind at 1 2. rewrite Htop, Hconn. simpl negb.
  cbv iota. simpl Py.iter. unfold rbind at 1.
  rewrite <- (app_nil_r connections).
  rewrite (find_mcp_connection_passed_over connections [] Hskip).
  reflexivity.
Qed.

(** A provider that is neither smithery nor nanda, whatever its case,
    resolves to nothing, and no registry is asked. *)
Lemma unknown_provider_is_absent
        (self : MCPRegistry.t) (provider server_name : string) :
  (PyStr.lower provider =? "smithery") || (PyStr.lower provider =? "nanda")
  = false ->
  MCPRegistry.get_mcp_server_info w self provider server_name = ([], Ok JNull).
Proof.
  intros H. apply orb_false_elim in H. destruct H as [Hs Hn].
  unfold MCPRegistry.get_mcp_server_info. now rewrite Hs, Hn.
Qed.

(** X13.  With a Smithery API key in the environment, a record answered
    by the Smithery registry and a URL built from it, the descriptor
    carries that URL; the registry is asked once, at
    [https://registry.smithery.ai/servers/<name>]. *)
Theorem smithery_resolution_found
        (mcp_url : string) (agent_url : option string)
        (key provider server_name : string) (d : list (string * json)) :
  PyStr.lower provider = "smithery" ->
  getenv_SMITHERY_API_KEY w = Some key ->
  (key =? "") = false ->
  answers_object
    (http_get w ("https://registry.smithery.ai/servers/" ++ server_name))
  = Some d ->
  Py.truthy (MCPRegistry.build_smithery_server_url (JDict d)) = true ->
  exists info,
    MCPRegistry.get_mcp_server_info
      w (MCPRegistry.init w mcp_url agent_url) provider server_name
    = ([HttpGet ("https://registry.smithery.ai/servers/" ++ server_name)],
       Ok (JDict info))
    /\ Py.dict_get info "server_url" JNull
       = MCPRegistry.build_smithery_server_url (JDict d)
    /\ Py.dict_get info "registry_provider" JNull = JStr "smithery".
Proof.
  intros Hp Hk Hne Hans Hurl.
  unfold answers_object in Hans.
  destruct (http_get w _) as [response | e] eqn:Hget; [| discriminate].
  destruct (status_code response =? 200)%Z eqn:Hst; [| discriminate].
  destruct (body_json response) as [[| | | | |d'] | e] eqn:Hb;
    try discriminate.
  injection Hans as ->.
  assert (Hinfo : MCPRegistry.get_smithery_server_info
                    w (MCPRegistry.init w mcp_url agent_url) server_name
                  = ([HttpGet ("https://registry.smithery.ai/servers/"
                               ++ server_name)], Ok (JDict d))).
  { unfold MCPRegistry.get_smithery_server_info, MCPRegistry.init.
    simpl MCPRegistry.smithery_api_key. rewrite Hk, Hne.
    unfold requests_get, perform. now rewrite Hget, bind_ok, Hst, Hb. }
  assert (Hd : Py.truthy (JDict d) = true).
  { destruct d; [| reflexivity].
    unfold MCPRegistry.build_smithery_server_url in Hurl. discriminate Hurl. }
  eexists. split.
  - unfold MCPRegistry.get_mcp_server_info. rewrite Hp.
    change ("smithery" =? "smithery") with true. cbv iota.
    unfold MCPRegistry.get_smithery_mcp_server_info_complete.
    replace (MCPRegistry.smithery_api_key
               (MCPRegistry.init w mcp_url agent_url)) with key
      by (unfold MCPRegistry.init; simpl; now rewrite Hk).
    rewrite Hne, Hinfo, bind_ok, Hd, Hurl. simpl negb. cbv iota.
    simpl Py.get. unfold lift. rewrite !bind_pure. reflexivity.
  - split; reflexivity.
Qed.

End DirectoryFacts.

(* ================================================================== *)
(** * Strings: further facts *)
(* ================================================================== *)

Module PyStrMore.
Import PyStr.

Lemma startswith_char (c : ascii) (text : string) :
  startswith (String c "") text = true -> exists s, text = String c s.
Proof.
  unfold startswith. destruct text as [|a s]; [discriminate |].
  simpl. destruct (ascii_dec c a) as [-> | _]; [| discriminate].
  intros _. now exists s.
Qed.

Lemma cut_none (c : ascii) (s : string) :
  contains (String c "") s = false -> cut c s = None.
Proof.
  induction s as [|a s IH]; intros H; [reflexivity |].
  apply PyStrFacts.contains_char_cons in H. destruct H as [Ha Hs].
  simpl. now rewrite Ha, (IH Hs).
Qed.

Lemma cut_none_contains (c : ascii) (s : string) :
  cut c s = None -> contains (String c "") s = false.
Proof.
  induction s as [|a s IH]; intros H; [reflexivity |].
  simpl in H. destruct (Ascii.eqb a c) eqn:Ha; [discriminate |].
  destruct (cut c s) as [[x y] |]; [discriminate |].
  apply PyStrFacts.contains_char_tag; [exact Ha | now apply IH].
Qed.

Lemma split1_none (c : ascii) (s : string) :
  contains (String c "") s = false -> split1 c s = [s].
Proof. intros H. unfold split1. now rewrite cut_none. Qed.

Lemma split_none (c : ascii) (s : string) :
  contains (String c "") s = false -> split c s = [s].
Proof.
  induction s as [|a s IH]; intros H; [reflexivity |].
  apply PyStrFacts.contains_char_cons in H. destruct H as [Ha Hs].
  simpl. now rewrite Ha, (IH Hs).
Qed.

Lemma split_append (c : ascii) (a rest : string) :
  contains (String c "") a = false ->
  split c (a ++ String c rest) = a :: split c rest.
Proof.
  induction a as [|x a IH]; intros H.
  - simpl. now rewrite Ascii.eqb_refl.
  - apply PyStrFacts.contains_char_cons in H. destruct H as [Hx Ha].
    simpl. now rewrite Hx, (IH Ha).
Qed.

Lemma endswith_append (suf p : string) : endswith suf (p ++ suf) = true.
Proof.
  induction p as [|c p IH].
  - destruct suf; cbn [append endswith]; now rewrite ?String.eqb_refl.
  - cbn [append endswith]. rewrite IH. now destruct (_ =? _).
Qed.

Lemma rstrip_idempotent (s : string) : rstrip (rstrip s) = rstrip s.
Proof.
  induction s as [|c s IH]; [reflexivity |].
  simpl. destruct (rstrip s) as [|r rs] eqn:E.
  - destruct (isspace c) eqn:Hc; [reflexivity |]. simpl. now rewrite Hc.
  - simpl. simpl in IH. now rewrite IH.
Qed.

Lemma strip_fixed_rstrip (s : string) : strip s = s -> rstrip s = s.
Proof.
  unfold strip. intros H. rewrite <- H at 1. rewrite rstrip_idempotent.
  exact H.
Qed.

Lemma strip_fixed_lstrip (s : string) : strip s = s -> lstrip s = s.
Proof.
  unfold strip. destruct s as [|c s]; [reflexivity |].
  simpl lstrip. destruct (isspace c) eqn:Hc; [| reflexivity].
  intros H.
  assert (Hlen : forall t, String.length (rstrip t) <= String.length t).
  { induction t as [|x t IHt]; [apply le_n |].
    simpl. destruct (rstrip t); [destruct (isspace x) |]; simpl in *; lia. }
  assert (Hl : forall t, String.length (lstrip t) <= String.length t).
  { induction t as [|x t IHt]; [apply le_n |].
    simpl. destruct (isspace x); simpl; lia. }
  pose proof (Hlen (lstrip s)) as H1. pose proof (Hl s) as H2.
  rewrite H in H1. simpl in H1. lia.
Qed.

Lemma rstrip_nonempty_app (p s : string) :
  rstrip s <> "" -> rstrip (p ++ s) = p ++ rstrip s.
Proof.
  intros H. induction p as [|c p IH]; [reflexivity |].
  simpl. rewrite IH. destruct (p ++ rstrip s) eqn:E; [| reflexivity].
  destruct p; simpl in E; [now elim H | discriminate].
Qed.

(** Stripping a field behind the blank that follows its label. *)
Lemma strip_after_blank (s : string) : strip (String " " s) = strip s.
Proof. reflexivity. Qed.

End PyStrMore.

(* ================================================================== *)
(** * Tool orchestrator: what it never does *)
(* ================================================================== *)

Section OrchestratorNever.

Variable json_loads : string -> option json.
Variable title : string -> string.
Variable repr_container : json -> string.
Variable w : World.

(** A predicate on events that no event of a tool session satisfies. *)
Variable p : event -> bool.
Hypothesis p_connect : forall url, p (McpConnect url) = false.
Hypothesis p_request : forall messages, p (ModelRequest messages) = false.
Hypothesis p_call : forall name input, p (ToolCall name input) = false.

Lemma never_tool_round (content : list block) (messages : list turn) :
  never p (tool_round json_loads title repr_container w content messages).
Proof.
  revert messages. induction content as [|b content IH]; intros messages.
  - apply never_ret.
  - destruct b as [text | id name input | ty]; cbn [tool_round];
      try apply IH.
    apply never_bind; [apply never_perform, p_call |]. intros r.
    apply never_bind; [apply never_lift |]. intros r'.
    apply never_bind; [apply IH |]. intros r''. apply never_ret.
Qed.

Lemma never_tool_loop (script : list (result (list block)))
      (content : list block) (messages : list turn) :
  never p (tool_loop json_loads title repr_container w script content messages).
Proof.
  revert content messages.
  induction script as [|r script IH]; intros content messages;
    cbn [tool_loop];
    (apply never_bind; [apply never_tool_round |]); intros [has messages'];
    simpl fst; simpl snd; destruct has; try apply never_ret.
  - apply never_perform, p_request.
  - apply never_bind; [apply never_perform, p_request |]. intros content'.
    apply IH.
Qed.

Lemma never_execute_query (query : string) (server_url : json) :
  never p (execute_query json_loads title repr_container w query server_url).
Proof.
  unfold execute_query. apply never_try_except; [| intros e; apply never_ret].
  apply never_bind; [apply never_perform, p_connect |].
  intros [[|tool tools] |]; try apply never_ret.
  apply never_bind; [apply never_perform, p_request |]. intros content.
  apply never_bind; [apply never_tool_loop |]. intros last.
  destruct (_ =? _); [apply never_ret | apply never_lift].
Qed.

End OrchestratorNever.

(* ================================================================== *)
(** * Message router: further properties *)
(* ================================================================== *)

Section RouterMore.

Variable json_loads : string -> option json.
Variable title : string -> string.
Variable repr_container : json -> string.

Local Abbreviation route := (handle_message json_loads title repr_container).
Local Abbreviation run := (execute_query json_loads title repr_container).

Variable w : World.
Variable self : SimpleAgentBridge.
Variable msg : Message.

Local Abbreviation cid := (conversation_of w msg).

(** X14.  Every reply is an agent message whose parent is the request
    and whose conversation is the one of the request; a request without a
    conversation identifier (or with an empty one) is answered under a
    fresh UUID. *)
Theorem reply_metadata :
  exists reply,
    outcome (route w self msg) = Ok reply
    /\ reply_role reply = AGENT
    /\ reply_parent_message_id reply = message_id msg
    /\ reply_conversation_id reply
       = match conversation_id msg with
         | Some c => if c =? "" then uuid4 w else c
         | None => uuid4 w
         end.
Proof.
  destruct (returns_ok _ _ (handle_message_responds
                              json_loads title repr_container w self msg))
    as (r & Hr & (text & ->)).
  eexists. split; [exact Hr |]. repeat split.
  unfold _create_response, conversation_of, opt_truthy. simpl.
  destruct (conversation_id msg) as [c|]; [| reflexivity].
  now destruct (c =? "").
Qed.

Lemma command_has_no_events (user_text : string) :
  events (_handle_command self user_text msg cid) = [].
Proof.
  unfold _handle_command.
  repeat match goal with
         | |- events (if ?b then _ else _) = _ => destruct b
         end; reflexivity.
Qed.

Lemma command_route (user_text : string) :
  content msg = TextContent user_text ->
  PyStr.startswith "/" user_text = true ->
  route w self msg = _handle_command self user_text msg cid
  /\ events (route w self msg) = [].
Proof.
  intros Hc Hs.
  destruct (PyStrMore.startswith_char "/" user_text Hs) as (s & ->).
  assert (H : route w self msg = _handle_command self (String "/" s) msg cid).
  { unfold handle_message. rewrite Hc.
    change (is_envelope (String "/" s)) with false.
    change (PyStr.startswith "@" (String "/" s)) with false.
    change (PyStr.startswith "#" (String "/" s)) with false.
    rewrite Hs. cbv iota.
    apply try_except_returns.
    apply (returns_any _ _ (command_responds w self msg (String "/" s))). }
  split; [exact H |]. rewrite H. apply command_has_no_events.
Qed.

(** X15.  A system command is answered without any effect: no callback,
    no telemetry, no network. *)
Theorem command_has_no_effect (user_text : string) :
  content msg = TextContent user_text ->
  PyStr.startswith "/" user_text = true ->
  route w self msg = _handle_command self user_text msg cid
  /\ events (route w self msg) = [].
Proof. apply command_route. Qed.

(** The command is the text between the slash and the first blank: what
    follows the blank is ignored. *)
Lemma command_arguments_are_ignored (command args : string) :
  PyStr.contains " " command = false ->
  _handle_command self ("/" ++ command ++ " " ++ args) msg cid
  = _handle_command self ("/" ++ command) msg cid.
Proof.
  intros H. unfold _handle_command.
  change ("/" ++ command ++ " " ++ args)
    with (String "/" command ++ String " " args).
  change ("/" ++ command) with (String "/" command).
  rewrite PyStrFacts.split1_append
    by (apply PyStrFacts.contains_char_tag; [reflexivity | exact H]).
  rewrite PyStrMore.split1_none
    by (apply PyStrFacts.contains_char_tag; [reflexivity | exact H]).
  reflexivity.
Qed.

(** A command other than [help], [ping] and [status] is answered by a
    usage error that names it. *)
Lemma unknown_command_is_named (command : string) :
  content msg = TextContent ("/" ++ command) ->
  PyStr.contains " " command = false ->
  (command =? "help") || (command =? "ping") || (command =? "status") = false ->
  route w self msg
  = ([], Ok (_create_response self msg cid
               ("Unknown command: " ++ command
                ++ ". Use /help for available commands"))).
Proof.
  intros Hc Hsp Hk.
  destruct (command_route ("/" ++ command) Hc
              (PyStrFacts.prefix_append "/" command)) as [-> _].
  apply orb_false_elim in Hk. destruct Hk as [Hk Hstatus].
  apply orb_false_elim in Hk. destruct Hk as [Hhelp Hping].
  unfold _handle_command. change ("/" ++ command) with (String "/" command).
  rewrite PyStrMore.split1_none
    by (apply PyStrFacts.contains_char_tag; [reflexivity | exact Hsp]).
  change (PyStr.slice_from 1 (String "/" command)) with command.
  now rewrite Hhelp, Hping, Hstatus.
Qed.

(** X16.  An outbound message without a blank after the identifier is
    refused with the format reminder; nobody is looked up or contacted. *)
Theorem outbound_without_body_is_refused (user_text : string) :
  content msg = TextContent user_text ->
  PyStr.startswith "@" user_text = true ->
  PyStr.contains " " user_text = false ->
  route w self msg
  = ([], Ok (_create_response self msg cid
               "Invalid format. Use '@agent_id message'")).
Proof.
  intros Hc Hs Hb.
  destruct (PyStrMore.startswith_char "@" user_text Hs) as (s & ->).
  unfold handle_message. rewrite Hc.
  change (is_envelope (String "@" s)) with false.
  rewrite Hs. cbv iota. unfold _handle_agent_message.
  now rewrite (PyStrMore.split1_none " " _ Hb).
Qed.

(** X17.  A tool query without a colon, or without a blank after the
    server name, is refused with the format reminder; no registry is
    asked. *)
Theorem malformed_tool_query_is_refused (user_text : string) :
  content msg = TextContent user_text ->
  PyStr.startswith "#" user_text = true ->
  MCP_AVAILABLE w = true ->
  match PyStr.cut ":" (PyStr.slice_from 1 user_text) with
  | Some (_, rest) => negb (PyStr.contains " " rest)
  | None => true
  end = true ->
  route w self msg
  = ([], Ok (_create_response self msg cid invalid_mcp_format)).
Proof.
  intros Hc Hs Ha Hbad.
  destruct (PyStrMore.startswith_char "#" user_text Hs) as (s & ->).
  unfold handle_message. rewrite Hc.
  change (is_envelope (String "#" s)) with false.
  change (PyStr.startswith "@" (String "#" s)) with false.
  rewrite Hs. cbv iota. unfold _handle_mcp_message. rewrite Ha.
  change (PyStr.contains ":" (String "#" s)) with (PyStr.contains ":" s).
  change (PyStr.slice_from 1 (String "#" s)) with s in *.
  destruct (PyStr.contains ":" s) eqn:Hcolon; [| reflexivity].
  unfold PyStr.split1.
  destruct (PyStr.cut ":" s) as [[registry_part rest] |] eqn:Hcut.
  - apply negb_true_iff in Hbad.
    unfold Py.unpack2, lift. simpl negb. cbv iota. rewrite bind_pure.
    now rewrite Hbad.
  - rewrite (PyStrMore.cut_none_contains ":" s Hcut) in Hcolon.
    discriminate Hcolon.
Qed.


Lemma never_lookup (p : event -> bool) (id : string) :
  (forall url, p (HttpGet url) = false) ->
  never p (_lookup_agent w self id).
Proof.
  intros Hp. unfold _lookup_agent, lookup_in_registry, requests_get.
  apply never_bind.
  - destruct (registry_url self) as [url|]; [| apply never_ret].
    destruct (negb (url =? "")); [| apply never_ret].
    apply never_try_except; [| intros e; apply never_ret].
    apply never_bind; [apply never_perform, Hp |]. intros response.
    step_never.
  - intros [v|]; step_never.
Qed.

Lemma never_telemetry (p : event -> bool) (a c : string) :
  (forall x y, p (TelemetryReceived x y) = false) ->
  (forall x y, p (TelemetrySent x y) = false) ->
  never p (telemetry_received w a c) /\ never p (telemetry_sent w a c).
Proof.
  intros Hr Hs. unfold telemetry_received, telemetry_sent.
  destruct (telemetry w); split;
    first [apply never_ret | apply never_perform; auto].
Qed.

(** X19.  Whatever URL the directory gives for a peer, a message is only
    ever sent to an address that ends with [/a2a]. *)
Theorem peer_address_ends_with_a2a (target text c : string) :
  never sent_off_endpoint (_send_to_agent w self target text c).
Proof.
  unfold _send_to_agent.
  apply never_try_except; [| intros e; apply never_ret].
  apply never_bind; [apply never_lookup; reflexivity |]. intros agent_url.
  destruct (negb (Py.truthy agent_url)); [apply never_ret |].
  destruct agent_url as [| | | u | |];
    try (unfold lift, bind, never; simpl; constructor).
  unfold lift. rewrite bind_pure.
  apply never_bind.
  - apply never_perform. unfold sent_off_endpoint.
    destruct (PyStr.endswith "/a2a" u) eqn:E; [now rewrite E |].
    now rewrite PyStrMore.endswith_append.
  - intros response.
    apply never_bind;
      [apply (never_telemetry sent_off_endpoint); reflexivity |].
    intros _. destruct response; apply never_ret.
Qed.

End RouterMore.

(* ================================================================== *)
(** * The envelope between two agents *)
(* ================================================================== *)

Module EnvelopeFacts.
Import PyStr.

Lemma rstrip_cons_nonempty (c : ascii) (s : string) :
  isspace c = false -> rstrip (String c s) <> "".
Proof.
  intros H. simpl. destruct (rstrip s); [rewrite H |]; discriminate.
Qed.

Lemma rstrip_keeps (x y : string) :
  rstrip y <> "" ->
  rstrip (x ++ y) = x ++ rstrip y /\ rstrip (x ++ y) <> "".
Proof.
  intros H. rewrite (PyStrMore.rstrip_nonempty_app x y H). split; [reflexivity |].
  destruct x; [exact H | discriminate].
Qed.

Lemma contains_prefix_append (sub p s : string) :
  String.prefix sub s = true -> contains sub (p ++ s) = true.
Proof.
  intros H. induction p as [|c p IH].
  - destruct s; cbn [append contains]; now rewrite H.
  - change (contains sub (String c p ++ s))
      with (if String.prefix sub (String c (p ++ s)) then true
            else contains sub (p ++ s)).
    rewrite IH.
    destruct (String.prefix sub (String c (p ++ s))); reflexivity.
Qed.

Lemma clean_field_spec (s : string) :
  clean_field s = true -> contains nl s = false /\ strip s = s.
Proof.
  unfold clean_field. intros H. apply andb_prop in H. destruct H as [Hn Hs].
  split; [now apply negb_true_iff in Hn | now apply String.eqb_eq].
Qed.

Lemma rstrip_message_line (m : string) :
  strip m = m -> rstrip ("MESSAGE: " ++ m) = message_line m.
Proof.
  intros H. destruct m as [|c m]; [reflexivity |].
  pose proof (PyStrMore.strip_fixed_rstrip _ H) as Hr.
  assert (Hne : rstrip (String c m) <> "") by (rewrite Hr; discriminate).
  rewrite (PyStrMore.rstrip_nonempty_app "MESSAGE: " _ Hne), Hr. reflexivity.
Qed.

Lemma strip_envelope_text (a t m : string) :
  strip m = m ->
  strip (envelope_text a t m)
  = ("FROM: " ++ a) ++ String nl_char
      (("TO: " ++ t) ++ String nl_char (message_line m)).
Proof.
  intros Hm. unfold strip, envelope_text.
  change (lstrip ("FROM: " ++ a ++ nl ++ "TO: " ++ t ++ nl ++ "MESSAGE: " ++ m))
    with ("FROM: " ++ a ++ nl ++ "TO: " ++ t ++ nl ++ "MESSAGE: " ++ m).
  assert (H0 : rstrip ("MESSAGE: " ++ m) <> "")
    by (apply (rstrip_cons_nonempty "M"); reflexivity).
  destruct (rstrip_keeps nl _ H0) as [E1 N1].
  destruct (rstrip_keeps t _ N1) as [E2 N2].
  destruct (rstrip_keeps "TO: " _ N2) as [E3 N3].
  destruct (rstrip_keeps nl _ N3) as [E4 N4].
  destruct (rstrip_keeps a _ N4) as [E5 N5].
  destruct (rstrip_keeps "FROM: " _ N5) as [E6 _].
  rewrite E6, E5, E4, E3, E2, E1, (rstrip_message_line m Hm).
  now rewrite !PyStrFacts.append_assoc.
Qed.

Lemma label_has_no_newline (label s : string) :
  contains nl label = false -> contains nl s = false ->
  contains nl (label ++ s) = false.
Proof.
  intros Hl Hs. induction label as [|c label IH]; [exact Hs |].
  apply PyStrFacts.contains_char_cons in Hl. destruct Hl as [Hc Hl].
  apply (PyStrFacts.contains_char_tag nl_char c); [exact Hc | now apply IH].
Qed.

Lemma message_line_has_no_newline (m : string) :
  contains nl m = false -> contains nl (message_line m) = false.
Proof.
  intros H. destruct m as [|c m]; [reflexivity |].
  now apply (label_has_no_newline "MESSAGE: ").
Qed.

Lemma lines_of_envelope (a t m : string) :
  clean_field a = true -> clean_field t = true -> clean_field m = true ->
  split nl_char (strip (envelope_text a t m))
  = ["FROM: " ++ a; "TO: " ++ t; message_line m].
Proof.
  intros Ha Ht Hm.
  apply clean_field_spec in Ha, Ht, Hm.
  destruct Ha as [Na Sa], Ht as [Nt St], Hm as [Nm Sm].
  rewrite (strip_envelope_text a t m Sm).
  rewrite PyStrMore.split_append
    by now apply (label_has_no_newline "FROM: ").
  rewrite PyStrMore.split_append
    by now apply (label_has_no_newline "TO: ").
  rewrite PyStrMore.split_none
    by now apply message_line_has_no_newline.
  reflexivity.
Qed.

End EnvelopeFacts.

Section EnvelopeTrip.

Variable json_loads : string -> option json.
Variable title : string -> string.
Variable repr_container : json -> string.

Local Abbreviation route := (handle_message json_loads title repr_container).

Lemma envelope_is_read_back (from_agent to_agent message_text : string) :
  clean_field from_agent = true ->
  clean_field to_agent = true ->
  clean_field message_text = true ->
  is_envelope (envelope_text from_agent to_agent message_text) = true
  /\ parse_envelope (envelope_text from_agent to_agent message_text)
     = (from_agent, to_agent, message_text).
Proof.
  intros Ha Ht Hm. split.
  - unfold is_envelope, envelope_text.
    replace (PyStr.contains "TO:"
               ("FROM: " ++ from_agent ++ PyStr.nl ++ "TO: " ++ to_agent
                ++ PyStr.nl ++ "MESSAGE: " ++ message_text)) with true.
    replace (PyStr.contains "MESSAGE:"
               ("FROM: " ++ from_agent ++ PyStr.nl ++ "TO: " ++ to_agent
                ++ PyStr.nl ++ "MESSAGE: " ++ message_text)) with true.
    + change (PyStr.startswith "FROM:" ("FROM: " ++ from_agent ++ PyStr.nl
                ++ "TO: " ++ to_agent ++ PyStr.nl ++ "MESSAGE: "
                ++ message_text))
        with (String.prefix "" (" " ++ from_agent ++ PyStr.nl
                ++ "TO: " ++ to_agent ++ PyStr.nl ++ "MESSAGE: "
                ++ message_text)).
      reflexivity.
    + symmetry.
      replace ("FROM: " ++ from_agent ++ PyStr.nl ++ "TO: " ++ to_agent
               ++ PyStr.nl ++ "MESSAGE: " ++ message_text)
        with (("FROM: " ++ from_agent ++ PyStr.nl ++ "TO: " ++ to_agent
               ++ PyStr.nl) ++ "MESSAGE: " ++ message_text)
        by now rewrite !PyStrFacts.append_assoc.
      apply EnvelopeFacts.contains_prefix_append.
      apply (PyStrFacts.prefix_append "MESSAGE:").
    + symmetry.
      replace ("FROM: " ++ from_agent ++ PyStr.nl ++ "TO: " ++ to_agent
               ++ PyStr.nl ++ "MESSAGE: " ++ message_text)
        with (("FROM: " ++ from_agent ++ PyStr.nl) ++ "TO: " ++ to_agent
               ++ PyStr.nl ++ "MESSAGE: " ++ message_text)
        by now rewrite !PyStrFacts.append_assoc.
      apply EnvelopeFacts.contains_prefix_append.
      apply (PyStrFacts.prefix_append "TO:").
  - unfold parse_envelope.
    rewrite (EnvelopeFacts.lines_of_envelope _ _ _ Ha Ht Hm).
    apply EnvelopeFacts.clean_field_spec in Ha, Ht, Hm.
    destruct Ha as [_ Sa], Ht as [_ St], Hm as [_ Sm].
    cbn [parse_envelope_lines].
    change (PyStr.startswith "FROM:" ("FROM: " ++ from_agent)) with true.
    change (PyStr.startswith "FROM:" ("TO: " ++ to_agent)) with false.
    change (PyStr.startswith "TO:" ("TO: " ++ to_agent)) with true.
    cbv iota.
    change (PyStr.strip (PyStr.slice_from 5 ("FROM: " ++ from_agent)))
      with (PyStr.strip from_agent).
    change (PyStr.strip (PyStr.slice_from 3 ("TO: " ++ to_agent)))
      with (PyStr.strip to_agent).
    rewrite Sa, St.
    destruct message_text as [|c m]; [reflexivity |].
    change (PyStr.startswith "FROM:" (message_line (String c m)))
      with false.
    change (PyStr.startswith "TO:" (message_line (String c m)))
      with false.
    change (PyStr.startswith "MESSAGE:"
              (message_line (String c m))) with true.
    cbv iota.
    change (PyStr.strip (PyStr.slice_from 8
                           (message_line (String c m))))
      with (PyStr.strip (String c m)).
    now rewrite Sm.
Qed.

(** X20.  The envelope round trip: the text a sender builds from its
    identifier, the target and the message is recognised as an envelope,
    and the receiver reads the same three fields back, provided each
    field is one line without surrounding whitespace. *)
Theorem envelope_round_trip (from_agent to_agent message_text : string) :
  clean_field from_agent = true ->
  clean_field to_agent = true ->
  clean_field message_text = true ->
  is_envelope (envelope_text from_agent to_agent message_text) = true
  /\ parse_envelope (envelope_text from_agent to_agent message_text)
     = (from_agent, to_agent, message_text).
Proof. apply envelope_is_read_back. Qed.

Variable w : World.
Variable self : SimpleAgentBridge.
Variable msg : Message.

Local Abbreviation cid := (conversation_of w msg).


End EnvelopeTrip.

(* ================================================================== *)
(** * Outbound messages and the agent directory *)
(* ================================================================== *)

Section OutboundFacts.

Variable w : World.
Variable self : SimpleAgentBridge.

(** An answer of the agent registry is final: when the registry answers
    200 with an object, the lookup returns its [agent_url] entry (nothing
    when the entry is missing), and the local table is not consulted. *)
Lemma registry_answer_is_final
        (url id : string) (d : list (string * json)) :
  registry_url self = Some url ->
  (url =? "") = false ->
  answers_object (http_get w (url ++ "/lookup/" ++ id)) = Some d ->
  _lookup_agent w self id
  = ([HttpGet (url ++ "/lookup/" ++ id)],
     Ok (Py.dict_get d "agent_url" JNull)).
Proof.
  intros Hu Hne Hans. unfold answers_object in Hans.
  unfold _lookup_agent, lookup_in_registry, requests_get, perform.
  rewrite Hu, Hne. simpl negb. cbv iota.
  destruct (http_get w _) as [response | e]; [| discriminate].
  destruct (status_code response =? 200)%Z eqn:Hst; [| discriminate].
  destruct (body_json response) as [[| | | | |d'] | e] eqn:Hb;
    try discriminate.
  injection Hans as ->.
  unfold bind, try_except, lift, ret. cbv beta iota. now rewrite Hst, Hb.
Qed.

(** When the registry does not answer 200 with an object (the exchange
    raises, the status differs, the body is no object), the lookup falls
    back to the local table. *)
Lemma lookup_falls_back_to_local_table (url id : string) :
  registry_url self = Some url ->
  (url =? "") = false ->
  answers_object (http_get w (url ++ "/lookup/" ++ id)) = None ->
  _lookup_agent w self id
  = ([HttpGet (url ++ "/lookup/" ++ id)],
     Ok (Py.dict_get local_agents id JNull)).
Proof.
  intros Hu Hne Hans. unfold answers_object in Hans.
  assert (Hlocal : (if Py.dict_has local_agents id
                    then ret (Py.dict_get local_agents id JNull)
                    else ret JNull)
                   = (([], Ok (Py.dict_get local_agents id JNull)) : M json)).
  { unfold Py.dict_has, Py.dict_get.
    now destruct (Py.lookup local_agents id). }
  unfold _lookup_agent, lookup_in_registry, requests_get, perform.
  rewrite Hu, Hne. simpl negb. cbv iota.
  destruct (http_get w _) as [response | e].
  - unfold bind at 2. cbv beta iota.
    destruct (status_code response =? 200)%Z.
    + destruct (body_json response) as [[| | | | |d'] | e];
        try discriminate;
        unfold bind, try_except, lift, ret in *; cbv beta iota;
        simpl; now rewrite Hlocal.
    + unfold bind, try_except, ret in *. cbv beta iota. simpl.
      now rewrite Hlocal.
  - unfold bind, try_except, ret in *. cbv beta iota. simpl.
    now rewrite Hlocal.
Qed.

(** X22.  With a registry configured, the lookup of an agent asks it
    once, at [<registry>/lookup/<id>], and never raises.  A 200 answer
    with an object is final: the result is its [agent_url] entry, nothing
    when the entry is missing, and the local table is not consulted.  In
    every other case (the exchange raises, another status, no object) the
    result is the entry of the local table. *)
Theorem lookup_agent_result (url id : string) :
  registry_url self = Some url ->
  (url =? "") = false ->
  _lookup_agent w self id
  = ([HttpGet (url ++ "/lookup/" ++ id)],
     Ok match answers_object (http_get w (url ++ "/lookup/" ++ id)) with
        | Some d => Py.dict_get d "agent_url" JNull
        | None => Py.dict_get local_agents id JNull
        end).
Proof.
  intros Hu Hne.
  destruct (answers_object _) as [d|] eqn:Hans.
  - now apply registry_answer_is_final.
  - now apply lookup_falls_back_to_local_table.
Qed.

(** The address a message for the peer at [u] is sent to. *)
Lemma endpoint_choice (u : string) :
  PyStr.endswith "/a2a" (if PyStr.endswith "/a2a" u then u else u ++ "/a2a")
  = true.
Proof.
  destruct (PyStr.endswith "/a2a" u) eqn:E; [exact E |].
  apply PyStrMore.endswith_append.
Qed.


(** X24.  When the transport to the peer raises, the sender returns the
    error text with the message of the exception; the sending is not
    logged. *)
Theorem transport_failure_is_reported (target text c u : string) (e : exn) :
  outcome (_lookup_agent w self target) = Ok (JStr u) ->
  (u =? "") = false ->
  a2a_send w (if PyStr.endswith "/a2a" u then u else u ++ "/a2a")
           (envelope_text (agent_id self) target text) c
  = Raise e ->
  _send_to_agent w self target text c
  = ((events (_lookup_agent w self target)
      ++ [AgentSend (if PyStr.endswith "/a2a" u then u else u ++ "/a2a")
                    (envelope_text (agent_id self) target text) c])%list,
     Ok ("❌ Error sending to " ++ target ++ ": " ++ str_exn e)).
Proof.
  intros Hl Hne Hsend. unfold _send_to_agent.
  destruct (_lookup_agent w self target) as [t r]. simpl in Hl. subst r.
  unfold bind at 1. cbv beta iota.
  unfold Py.truthy. rewrite Hne. simpl negb. cbv iota.
  unfold lift at 1. rewrite bind_pure.
  fold (envelope_text (agent_id self) target text).
  unfold perform. rewrite Hsend.
  unfold bind, try_except, ret, events. cbv beta iota. simpl.
  now rewrite !app_nil_r.
Qed.

End OutboundFacts.

(* ================================================================== *)
(** * Which requests reach the callback, which reach the network *)
(* ================================================================== *)

Section Separation.

Variable json_loads : string -> option json.
Variable title : string -> string.
Variable repr_container : json -> string.

Local Abbreviation route := (handle_message json_loads title repr_container).
Local Abbreviation run := (execute_query json_loads title repr_container).

Variable w : World.
Variable self : SimpleAgentBridge.
Variable msg : Message.

Local Abbreviation cid := (conversation_of w msg).

Lemma tool_query_never_calls_agent_logic (user_text : string) :
  never is_agent_logic
    (_handle_mcp_message json_loads title repr_container
                         w self user_text msg cid).
Proof.
  unfold _handle_mcp_message, MCPRegistry.get_mcp_server_info,
    MCPRegistry.get_smithery_mcp_server_info_complete,
    MCPRegistry.get_smithery_server_info,
    MCPRegistry.get_nanda_mcp_server_info, requests_get,
    _run_mcp_query_sync, _run_mcp_async, telemetry_received.
  step_never;
    try (apply never_execute_query; reflexivity).
Qed.

Lemma outbound_never_calls_agent_logic (user_text : string) :
  never is_agent_logic (_handle_agent_message w self user_text msg cid).
Proof.
  unfold _handle_agent_message, _send_to_agent, _lookup_agent,
    lookup_in_registry, requests_get, telemetry_sent.
  step_never.
Qed.

(** X25.  The agent-logic callback is never invoked for a message that
    starts with a sigil: not for an outbound message, not for a tool
    query (whatever the tool loop does), not for a command. *)
Theorem sigil_never_reaches_agent_logic (user_text : string) :
  content msg = TextContent user_text ->
  PyStr.startswith "@" user_text || PyStr.startswith "#" user_text
  || PyStr.startswith "/" user_text = true ->
  never is_agent_logic (route w self msg).
Proof.
  intros Hc Hs. unfold handle_message. rewrite Hc.
  assert (He : is_envelope user_text = false).
  { apply orb_prop in Hs. destruct Hs as [Hs | Hs];
      [apply orb_prop in Hs; destruct Hs as [Hs | Hs] |];
      apply PyStrMore.startswith_char in Hs; destruct Hs as (s & ->);
      reflexivity. }
  rewrite He.
  apply never_try_except; [| intros e; apply never_ret].
  destruct (PyStr.startswith "@" user_text);
    [apply outbound_never_calls_agent_logic |].
  destruct (PyStr.startswith "#" user_text).
  { apply never_try_except; [| intros e; apply never_ret].
    apply tool_query_never_calls_agent_logic. }
  destruct (PyStr.startswith "/" user_text); [| discriminate].
  unfold never. rewrite command_has_no_events. constructor.
Qed.

(** X26.  The network is only reached by outbound messages and tool
    queries: an envelope, a command or a plain turn causes no HTTP
    request, no message to a peer and no tool or model traffic. *)
Theorem only_sigils_reach_the_network (user_text : string) :
  content msg = TextContent user_text ->
  PyStr.startswith "@" user_text = false ->
  PyStr.startswith "#" user_text = false ->
  never is_network (route w self msg).
Proof.
  intros Hc Ha Hm. unfold handle_message. rewrite Hc, Ha, Hm.
  unfold _handle_incoming_agent_message, telemetry_received.
  destruct (is_envelope user_text).
  - step_never.
  - apply never_try_except; [| intros e; apply never_ret].
    destruct (PyStr.startswith "/" user_text).
    + unfold never. rewrite command_has_no_events. constructor.
    + step_never.
Qed.

(** X27.  The Smithery key of the bridge is appended to the server URL
    as the [api_key] parameter, after [&] when the URL has a query part
    and after [?] when it has none, when the provider is written
    [smithery]; the query is then run against that URL. *)
Theorem smithery_key_is_appended (u key query : string) :
  smithery_api_key self = Some key ->
  (key =? "") = false ->
  _run_mcp_query_sync json_loads title repr_container
                      w self (JStr u) query "smithery"
  = run w query
        (JStr (u ++ (if PyStr.contains "?" u then "&" else "?")
               ++ "api_key=" ++ key)).
Proof.
  intros Hk Hne. unfold _run_mcp_query_sync, _run_mcp_async.
  change ("smithery" =? "smithery") with true.
  unfold opt_truthy. rewrite Hk, Hne. simpl negb. simpl andb. cbv iota.
  simpl Py.contains_str. unfold lift. rewrite bind_pure.
  unfold ret. rewrite bind_pure. simpl str_json.
  now rewrite !(try_except_returns (run w query _))
    by apply execute_query_returns.
Qed.


End Separation.

(* ================================================================== *)
(** * Tool queries through the router *)
(* ================================================================== *)

(** Brings the equation [Hr : r = handle_message ...] of a well-formed
    tool query [#provider:server query] to the point where the registry
    is asked. *)
Ltac open_tool_query Hr Hc Hp Hs Ha Hu provider server query :=
  unfold handle_message in Hr; rewrite Hc in Hr;
  change ("#" ++ provider ++ ":" ++ server ++ " " ++ query)
    with (String "#" (provider ++ String ":" (server ++ String " " query)))
    in Hr;
  change (is_envelope
            (String "#" (provider ++ String ":" (server ++ String " " query))))
    with false in Hr;
  change (PyStr.startswith "@"
            (String "#" (provider ++ String ":" (server ++ String " " query))))
    with false in Hr;
  change (PyStr.startswith "#"
            (String "#" (provider ++ String ":" (server ++ String " " query))))
    with (PyStr.startswith ""
            (provider ++ String ":" (server ++ String " " query))) in Hr;
  replace (PyStr.startswith ""
             (provider ++ String ":" (server ++ String " " query))) with true
    in Hr
    by (now destruct (provider ++ String ":" (server ++ String " " query)));
  cbv iota in Hr; unfold _handle_mcp_message in Hr; rewrite Ha in Hr;
  change (PyStr.contains ":"
            (String "#" (provider ++ String ":" (server ++ String " " query))))
    with (PyStr.contains ":"
            (provider ++ String ":" (server ++ String " " query))) in Hr;
  change (PyStr.slice_from 1
            (String "#" (provider ++ String ":" (server ++ String " " query))))
    with (provider ++ String ":" (server ++ String " " query)) in Hr;
  rewrite (PyStrFacts.contains_char_append ":" provider) in Hr;
  rewrite (PyStrFacts.split1_append ":" provider _ Hp) in Hr;
  unfold Py.unpack2 at 1 in Hr; unfold lift at 1 in Hr;
  rewrite bind_pure in Hr;
  rewrite (PyStrFacts.contains_char_append " " server) in Hr;
  rewrite (PyStrFacts.split1_append " " server query Hs) in Hr;
  unfold Py.unpack2, lift in Hr; rewrite bind_pure in Hr;
  unfold opt_truthy in Hr; rewrite Hu in Hr.

Section ToolQueryRoutes.

Variable json_loads : string -> option json.
Variable title : string -> string.
Variable repr_container : json -> string.

Local Abbreviation route := (handle_message json_loads title repr_container).
Local Abbreviation run := (execute_query json_loads title repr_container).

Variable w : World.
Variable self : SimpleAgentBridge.
Variable msg : Message.

Local Abbreviation cid := (conversation_of w msg).

(** X28.  With tool support available, a tool registry URL configured
    and a telemetry sink (if any) that logs the reception without
    raising, a well-formed tool query for a provider that is neither
    smithery nor nanda is answered by the not-found text; no registry,
    tool server or model is asked: the only event is the telemetry
    log. *)
Theorem tool_query_for_unknown_provider (provider server query u : string) :
  content msg = TextContent ("#" ++ provider ++ ":" ++ server ++ " " ++ query) ->
  PyStr.contains ":" provider = false ->
  PyStr.contains " " server = false ->
  (PyStr.lower provider =? "smithery") || (PyStr.lower provider =? "nanda")
  = false ->
  MCP_AVAILABLE w = true ->
  mcp_registry_url self = Some u ->
  (u =? "") = false ->
  outcome (telemetry_received w (agent_id self) cid) = Ok tt ->
  route w self msg
  = (events (telemetry_received w (agent_id self) cid),
     Ok (_create_response self msg cid
           ("❌ MCP server '" ++ server ++ "' not found in "
            ++ provider ++ " registry"))).
Proof.
  intros Hc Hp Hs Hl Ha Hu Hne Htel.
  remember (route w self msg) as r eqn:Hr.
  open_tool_query Hr Hc Hp Hs Ha Hu provider server query.
  rewrite Hne in Hr. simpl negb in Hr. cbv iota in Hr.
  rewrite (unknown_provider_is_absent w _ provider server Hl) in Hr.
  rewrite bind_pure in Hr. simpl Py.truthy in Hr. simpl negb in Hr.
  cbv iota in Hr. unfold ret at 1 in Hr. rewrite bind_pure in Hr.
  destruct (telemetry_received w (agent_id self) cid) as [t x].
  simpl in Htel. subst x r. simpl. now rewrite app_nil_r.
Qed.



End ToolQueryRoutes.

(* ================================================================== *)
(** * Failures become replies *)
(* ================================================================== *)

Section RaisingFacts.

Context {A B : Type}.




End RaisingFacts.


Section RouterFailures.

Variable json_loads : string -> option json.
Variable title : string -> string.
Variable repr_container : json -> string.

Local Abbreviation route := (handle_message json_loads title repr_container).

Variable w : World.
Variable self : SimpleAgentBridge.
Variable msg : Message.

Local Abbreviation cid := (conversation_of w msg).






End RouterFailures.

(* ================================================================== *)
(** * Agent bootstrap: properties *)
(* ================================================================== *)

(** X30.  Starting the agent always runs the transport server, once and
    last, with the bridge, host and port of the agent.  The registration
    is posted first, to [<registry>/register], exactly when it is asked
    for and both the registry URL and the public URL are set; its
    failure is swallowed. *)
Theorem start_always_runs_the_server
        (h : NANDA.Host) (self : NANDA.t) (register : bool) :
  NANDA.start h self register
  = (((if register && opt_truthy (NANDA.registry_url self)
          && opt_truthy (NANDA.public_url self)
       then [NANDA.Register
               (NANDA.opt_text (NANDA.registry_url self) ++ "/register")
               (JDict [("agent_id", JStr (NANDA.agent_id self));
                       ("agent_url",
                        match NANDA.public_url self with
                        | Some u => JStr u
                        | None => JNull
                        end)])]
       else [])
      ++ [NANDA.RunServer (NANDA.agent_id self) (NANDA.host self)
                          (NANDA.port self)])%list,
     NANDA.run_server h (NANDA.bridge self) (NANDA.host self)
                      (NANDA.port self)).
Proof.
  unfold NANDA.start, NANDA._register.
  destruct (register && opt_truthy (NANDA.registry_url self)
            && opt_truthy (NANDA.public_url self)); [| reflexivity].
  now destruct (NANDA.requests_post h _ _).
Qed.

(* ================================================================== *)
(** * The further properties on concrete requests *)
(* ================================================================== *)

Lemma execute_query_without_tools_witness :
  mcp_connect Scenario.no_tools (JStr "https://weather.example/mcp") = Ok []
  /\ Sample.execute Scenario.no_tools "weather?"
       (JStr "https://weather.example/mcp")
     = ([McpConnect (JStr "https://weather.example/mcp")],
        Ok "❌ Failed to connect to MCP server. Check server URL and authentication.").
Proof.
  split; [reflexivity |].
  apply (execute_query_without_tools
           Sample.json_loads Sample.title Sample.repr Scenario.no_tools
           "weather?" (JStr "https://weather.example/mcp")).
  reflexivity.
Defined.

Lemma tool_round_transcript_witness :
  tools_succeed Scenario.online Scenario.ask_weather = true
  /\ tool_round Sample.json_loads Sample.title Sample.repr
       Scenario.online Scenario.ask_weather [UserQuery "weather?"]
     = ([ToolCall "get_weather" (JDict [("city", JStr "Paris")])],
        Ok (true,
            [UserQuery "weather?";
             AssistantToolUse "t1" "get_weather"
                              (JDict [("city", JStr "Paris")]);
             UserToolResult "t1" "sunny"])).
Proof.
  split; [reflexivity |].
  apply (tool_round_transcript
           Sample.json_loads Sample.title Sample.repr Scenario.online
           Scenario.ask_weather [UserQuery "weather?"]).
  reflexivity.
Defined.

Lemma two_rounds_with_tool_calls_witness :
  tools_succeed Scenario.online Scenario.ask_weather = true
  /\ events (Sample.execute Scenario.online "weather?"
               (JStr "https://weather.example/mcp"))
     = [McpConnect (JStr "https://weather.example/mcp");
        ModelRequest [UserQuery "weather?"];
        ToolCall "get_weather" (JDict [("city", JStr "Paris")]);
        ModelRequest [UserQuery "weather?";
                      AssistantToolUse "t1" "get_weather"
                                       (JDict [("city", JStr "Paris")]);
                      UserToolResult "t1" "sunny"]].
Proof.
  split; [reflexivity |].
  apply (two_rounds_with_tool_calls
           Sample.json_loads Sample.title Sample.repr Scenario.online
           "weather?" (JStr "https://weather.example/mcp")
           Scenario.weather_tool [] Scenario.ask_weather Scenario.say_weather
           []); reflexivity.
Defined.

Example tool_failure_in_the_first_response :
  Sample.execute Scenario.wrong_tool "tides?"
    (JStr "https://weather.example/mcp")
  = ([McpConnect (JStr "https://weather.example/mcp");
      ModelRequest [UserQuery "tides?"];
      ToolCall "get_weather" (JDict []);
      ToolCall "get_tides" (JDict [])],
     Ok "❌ MCP error: unknown tool").
Proof. reflexivity. Qed.

Lemma failing_tool_call_ends_query_witness :
  events (Sample.execute Scenario.late_failure "tides?"
            (JStr "https://weather.example/mcp"))
  = [McpConnect (JStr "https://weather.example/mcp");
     ModelRequest [UserQuery "tides?"];
     ToolCall "get_weather" (JDict [("city", JStr "Paris")]);
     ModelRequest [UserQuery "tides?";
                   AssistantToolUse "t1" "get_weather"
                                    (JDict [("city", JStr "Paris")]);
                   UserToolResult "t1" "sunny"];
     ToolCall "get_tides" (JDict [])]
  /\ session_call_tool Scenario.late_failure "get_tides" (JDict [])
     = Raise (PyExc "McpError" "unknown tool")
  /\ outcome (Sample.execute Scenario.late_failure "tides?"
                (JStr "https://weather.example/mcp"))
     = Ok "❌ MCP error: unknown tool".
Proof.
  split; [reflexivity |]. split; [reflexivity |].
  apply (failing_tool_call_ends_query
           Sample.json_loads Sample.title Sample.repr Scenario.late_failure
           "tides?" (JStr "https://weather.example/mcp")
           [McpConnect (JStr "https://weather.example/mcp");
            ModelRequest [UserQuery "tides?"];
            ToolCall "get_weather" (JDict [("city", JStr "Paris")]);
            ModelRequest [UserQuery "tides?";
                          AssistantToolUse "t1" "get_weather"
                                           (JDict [("city", JStr "Paris")]);
                          UserToolResult "t1" "sunny"]]
           [] "get_tides" (JDict [])
           (PyExc "McpError" "unknown tool")); reflexivity.
Defined.

Lemma extract_spans_first_to_last_brace_witness :
  PyStr.contains "}" " (measured at noon)" = false
  /\ _extract_and_format_json Sample.json_loads Sample.title Sample.repr
       Scenario.prose_with_json
     = "🔹 Temp C: 21".
Proof.
  split; [reflexivity |].
  exact (extract_spans_first_to_last_brace
           Sample.json_loads Sample.title Sample.repr
           "Result: " (Sample.quote ++ "temp_c" ++ Sample.quote ++ ": 21")
           " (measured at noon)" eq_refl eq_refl).
Defined.

Lemma parse_leaves_non_object_json_witness :
  Sample.json_loads "[1, 2, 3]" = Some (JList [JInt 1; JInt 2; JInt 3])
  /\ Sample.parse (PStr "[1, 2, 3]") = Ok "[1, 2, 3]".
Proof.
  split; [reflexivity |].
  apply (parse_leaves_non_object_json
           Sample.json_loads Sample.title Sample.repr
           "[1, 2, 3]" (JList [JInt 1; JInt 2; JInt 3])); reflexivity.
Defined.

Lemma parse_unwraps_rpc_result_witness :
  Sample.json_loads Scenario.rpc_text
  = Some (JDict [("result",
                  JDict [("artifacts",
                          JList [JDict [("parts",
                                         JList [JDict [("text",
                                                        JStr "21 degrees")]])]])])])
  /\ Sample.parse (PStr Scenario.rpc_text) = Ok "21 degrees".
Proof.
  split; [reflexivity |].
  exact (parse_unwraps_rpc_result
           Sample.json_loads Sample.title Sample.repr
           Scenario.rpc_text
           [("result",
             JDict [("artifacts",
                     JList [JDict [("parts",
                                    JList [JDict [("text",
                                                   JStr "21 degrees")]])]])])]
           [("artifacts",
             JList [JDict [("parts",
                            JList [JDict [("text", JStr "21 degrees")]])]])]
           [("parts", JList [JDict [("text", JStr "21 degrees")]])]
           [("text", JStr "21 degrees")] [] []
           eq_refl eq_refl eq_refl eq_refl).
Defined.

Lemma parse_raises_on_non_object_result_witness :
  Sample.json_loads Scenario.bad_rpc_text = Some (JDict [("result", JInt 5)])
  /\ Sample.parse (PStr Scenario.bad_rpc_text)
     = Raise (PyExc "AttributeError" "'int' object has no attribute 'get'").
Proof.
  split; [reflexivity |].
  exact (parse_raises_on_non_object_result
           Sample.json_loads Sample.title Sample.repr
           Scenario.bad_rpc_text [("result", JInt 5)] (JInt 5)
           eq_refl eq_refl eq_refl).
Defined.

Lemma smithery_url_of_first_usable_connection_witness :
  passed_over (JDict [("type", JStr "ws")]) = true
  /\ MCPRegistry.build_smithery_server_url (JDict Scenario.foo_record)
     = JStr "https://foo.example/http".
Proof.
  split; [reflexivity |].
  exact (smithery_url_of_first_usable_connection
           Scenario.foo_record Scenario.http_connection
           [JDict [("type", JStr "ws")]] [JDict [("type", JStr "stdio")]]
           eq_refl eq_refl eq_refl eq_refl).
Defined.

Lemma smithery_url_falls_back_to_top_level_witness :
  forallb passed_over [JDict [("type", JStr "ws")]] = true
  /\ MCPRegistry.build_smithery_server_url (JDict Scenario.bare_record)
     = JStr "https://bar.example/top".
Proof.
  split; [reflexivity |].
  exact (smithery_url_falls_back_to_top_level
           Scenario.bare_record [JDict [("type", JStr "ws")]]
           eq_refl eq_refl eq_refl).
Defined.

Lemma smithery_resolution_found_witness :
  getenv_SMITHERY_API_KEY Scenario.online = Some "sk-env"
  /\ exists info,
       MCPRegistry.get_mcp_server_info
         Scenario.online
         (MCPRegistry.init Scenario.online "http://mcp.example:6900" None)
         "Smithery" "foo"
       = ([HttpGet "https://registry.smithery.ai/servers/foo"],
          Ok (JDict info))
       /\ Py.dict_get info "server_url" JNull
          = MCPRegistry.build_smithery_server_url (JDict Scenario.foo_record)
       /\ Py.dict_get info "registry_provider" JNull = JStr "smithery".
Proof.
  split; [reflexivity |].
  exact (smithery_resolution_found
           Scenario.online "http://mcp.example:6900" None
           "sk-env" "Smithery" "foo" Scenario.foo_record
           eq_refl eq_refl eq_refl eq_refl eq_refl).
Defined.

Lemma command_has_no_effect_witness :
  PyStr.startswith "/" "/status now" = true
  /\ events (Sample.handle Sample.offline Sample.alice
               (Sample.text_message "/status now")) = [].
Proof.
  split; [reflexivity |].
  apply (command_has_no_effect
           Sample.json_loads Sample.title Sample.repr
           Sample.offline Sample.alice (Sample.text_message "/status now")
           "/status now"); reflexivity.
Defined.

Lemma outbound_without_body_is_refused_witness :
  PyStr.contains " " "@bob" = false
  /\ Sample.handle Sample.offline Sample.alice (Sample.text_message "@bob")
     = ([], Ok (_create_response Sample.alice (Sample.text_message "@bob")
                  "c-1" "Invalid format. Use '@agent_id message'")).
Proof.
  split; [reflexivity |].
  apply (outbound_without_body_is_refused
           Sample.json_loads Sample.title Sample.repr
           Sample.offline Sample.alice (Sample.text_message "@bob") "@bob");
    reflexivity.
Defined.

Lemma malformed_tool_query_is_refused_witness :
  PyStr.contains " " "weather" = false
  /\ Sample.handle Scenario.online Scenario.carol
       (Sample.text_message "#nanda:weather")
     = ([], Ok (_create_response Scenario.carol
                  (Sample.text_message "#nanda:weather")
                  "c-1" invalid_mcp_format)).
Proof.
  split; [reflexivity |].
  apply (malformed_tool_query_is_refused
           Sample.json_loads Sample.title Sample.repr
           Scenario.online Scenario.carol
           (Sample.text_message "#nanda:weather") "#nanda:weather");
    reflexivity.
Defined.


Lemma envelope_round_trip_witness :
  clean_field "how are you" = true
  /\ parse_envelope (envelope_text "bob" "alice" "how are you")
     = ("bob", "alice", "how are you").
Proof.
  split; [reflexivity |].
  apply (envelope_round_trip "bob" "alice" "how are you"); reflexivity.
Defined.


Lemma lookup_agent_result_witness :
  registry_url Scenario.carol = Some "http://agents.example"
  /\ _lookup_agent Scenario.online Scenario.carol "bob"
     = ([HttpGet "http://agents.example/lookup/bob"],
        Ok (JStr "http://bob.example:6000")).
Proof.
  split; [reflexivity |].
  apply (lookup_agent_result Scenario.online Scenario.carol
           "http://agents.example" "bob"); reflexivity.
Defined.


Lemma transport_failure_is_reported_witness :
  outcome (_lookup_agent Scenario.online Scenario.carol "dave")
  = Ok (JStr "http://dave.example:6000/a2a")
  /\ _send_to_agent Scenario.online Scenario.carol "dave" "hello" "c-1"
     = ([HttpGet "http://agents.example/lookup/dave";
         AgentSend "http://dave.example:6000/a2a"
                   (envelope_text "carol" "dave" "hello") "c-1"],
        Ok "❌ Error sending to dave: connection refused").
Proof.
  split; [reflexivity |].
  apply (transport_failure_is_reported Scenario.online Scenario.carol
           "dave" "hello" "c-1" "http://dave.example:6000/a2a"
           (PyExc "ConnectionError" "connection refused")); reflexivity.
Defined.

Lemma sigil_never_reaches_agent_logic_witness :
  PyStr.startswith "#" "#nanda:weather what's the weather" = true
  /\ never is_agent_logic
       (Sample.handle Scenario.online Scenario.carol
          (Sample.text_message "#nanda:weather what's the weather")).
Proof.
  split; [reflexivity |].
  apply (sigil_never_reaches_agent_logic
           Sample.json_loads Sample.title Sample.repr
           Scenario.online Scenario.carol
           (Sample.text_message "#nanda:weather what's the weather")
           "#nanda:weather what's the weather"); reflexivity.
Defined.

Lemma only_sigils_reach_the_network_witness :
  PyStr.startswith "@" "hello" = false
  /\ never is_network
       (Sample.handle Scenario.online Scenario.carol
          (Sample.text_message "hello")).
Proof.
  split; [reflexivity |].
  apply (only_sigils_reach_the_network
           Sample.json_loads Sample.title Sample.repr
           Scenario.online Scenario.carol (Sample.text_message "hello")
           "hello"); reflexivity.
Defined.

Lemma smithery_key_is_appended_witness :
  smithery_api_key Scenario.carol = Some "sk-bridge"
  /\ _run_mcp_query_sync Sample.json_loads Sample.title Sample.repr
       Scenario.online Scenario.carol (JStr "https://foo.example/http?v=1")
       "what" "smithery"
     = Sample.execute Scenario.online "what"
         (JStr "https://foo.example/http?v=1&api_key=sk-bridge").
Proof.
  split; [reflexivity |].
  apply (smithery_key_is_appended
           Sample.json_loads Sample.title Sample.repr
           Scenario.online Scenario.carol
           "https://foo.example/http?v=1" "sk-bridge" "what"); reflexivity.
Defined.

Lemma tool_query_for_unknown_provider_witness :
  (PyStr.lower "Acme" =? "smithery") || (PyStr.lower "Acme" =? "nanda") = false
  /\ Sample.handle Scenario.online Scenario.carol
       (Sample.text_message "#Acme:foo query")
     = ([], Ok (_create_response Scenario.carol
                  (Sample.text_message "#Acme:foo query") "c-1"
                  "❌ MCP server 'foo' not found in Acme registry")).
Proof.
  split; [reflexivity |].
  apply (tool_query_for_unknown_provider
           Sample.json_loads Sample.title Sample.repr
           Scenario.online Scenario.carol
           (Sample.text_message "#Acme:foo query")
           "Acme" "foo" "query" "http://mcp.example:6900"); reflexivity.
Defined.


Example capitalised_smithery_gets_no_key :
  events (Sample.handle Scenario.online Scenario.carol
            (Sample.text_message "#Smithery:foo what"))
  = [HttpGet "https://registry.smithery.ai/servers/foo";
     McpConnect (JStr "https://foo.example/http");
     ModelRequest [UserQuery "what"];
     ToolCall "get_weather" (JDict [("city", JStr "Paris")]);
     ModelRequest [UserQuery "what";
                   AssistantToolUse "t1" "get_weather"
                                    (JDict [("city", JStr "Paris")]);
                   UserToolResult "t1" "sunny"]].
Proof. reflexivity. Qed.

Example refused_registration_does_not_stop_the_agent :
  NANDA.start Scenario.refusing_host Scenario.carol_agent true
  = ([NANDA.Register "http://agents.example/register"
        (JDict [("agent_id", JStr "carol");
                ("agent_url", JStr "https://carol.example:6000")]);
      NANDA.RunServer "carol" "0.0.0.0" 6000],
     Ok tt).
Proof. reflexivity. Qed.


Example telemetry_failure_on_a_tool_query :
  Sample.handle Scenario.broken_telemetry Scenario.carol
    (Sample.text_message "#nanda:weather what's the weather")
  = ([HttpGet "http://mcp.example:6900/mcp_servers/weather";
      McpConnect (JStr "https://weather.example/mcp");
      ModelRequest [UserQuery "what's the weather"];
      ToolCall "get_weather" (JDict [("city", JStr "Paris")]);
      ModelRequest [UserQuery "what's the weather";
                    AssistantToolUse "t1" "get_weather"
                                     (JDict [("city", JStr "Paris")]);
                    UserToolResult "t1" "sunny"];
      TelemetryReceived "carol" "c-1"],
     Ok (_create_response Scenario.carol
           (Sample.text_message "#nanda:weather what's the weather") "c-1"
           "❌ Error processing MCP message: disk full")).
Proof. reflexivity. Qed.

Example telemetry_failure_after_sending :
  outcome (Sample.handle Scenario.broken_telemetry Scenario.carol
             (Sample.text_message "@bob hello"))
  = Ok (_create_response Scenario.carol (Sample.text_message "@bob hello")
          "c-1" "❌ Error sending to bob: disk full").
Proof. reflexivity. Qed.
